(* ===== verification/_CoqProject ===== *)
-Q . S2P
Prelude.v
Normalize.v
Fs.v
Resolver.v
Copier.v
Version.v
CopySpec.v
Domain.v
Console.v
Estruturas.v
App.v
Lote.v
Toast.v
Destino.v
