(* ===== verification/Prelude.v ===== *)
(** * Licitagov folder-tree and template-copy engine: a verification development

    The repository holds four Tkinter utilities that create a standard
    folder hierarchy for a procurement case ("licitacao") and copy template
    documents into it:
    - [src/LicitagovLicitacaoMesApp.py] (the month-based case creator,
      class [App]; the "Mes" window below),
    - [src/LicitagovLicitacaoMesApp_UI.py] (the same logic restyled, class
      [StyledApp], with a log filter; the "UI" window),
    - [src/4-PROJETOS/Docket/docket.py] (the same logic restyled again,
      which creates only the ticked sub-folders; the "Docket" window),
    - [src/4-PROJETOS/ADD_NOVO_CLIENTE/LicitagovEstruturasApp.py] (creates
      a nested folder tree from a dict-of-dicts schema), with
      [version_info.py], the version resource PyInstaller builds into its
      executable.
    The domain functions are copied between the three month variants; the
    map of PROJECT.json names the lines of [LicitagovLicitacaoMesApp.py]
    where the copies agree, and the lines of the other copy where they
    differ.

    ** How the parts interact
    [_criar] (the "Criar licitacao" button) clears the console, resolves
    the month folder ([resolver_pasta_mes]), creates the case folder named
    by [montar_nome_licitacao] and its sub-folders
    ([criar_estrutura_licitacao], or the ticked ones in the Docket window),
    locates the MODELOS and TEMPLATE folders ([detectar_pasta_modelos],
    [detectar_pasta_template]), copies the selected template sub-folders
    ([copiar_padrao_resiliente], which falls back to the fuzzy
    [_resolver_subpasta_flex]) and the user's attachments
    ([anexar_arquivos]), then shows a toast chosen from the console's
    counters.  Every step reports through [self._log(level, msg)], which
    writes a line and keeps warning and error counters, a status and a
    badge.  All name comparisons go through [_normalize_token].  The
    structure app's [acao_criar] runs [criar_arvore] over
    [ESTRUTURA_PADRAO] with its own [log].

    ** Files of the development (in dependency order)
    - [Prelude] (this file): strings as lists of Unicode code points
      ([ustr], literals by [u] and, for accented text, [tx]), the Python
      string primitives the code uses ([in], [split], [str(int)]), the
      state-and-exception monad [st] that models Python statements raising
      exceptions ([bind], [raise], [try_except], [try_finally],
      [for_each]), the monotonicity predicates [preserves]/[advances] with
      the tactic [mono], the [licita] and [licita_rw] hint databases and the
      shared lemmas, and Hoare triples over [st] ([triple] with its rules
      for [ret], [raise], [bind], [try_except], [try_finally],
      consequence and case split).
    - [Normalize], Module [NameNormalizer]: [_strip_accents] and
      [_normalize_token], with the character classes of [unicodedata],
      [str.lower], [str.strip] and the regular expression [^\d+\s*[\.\-]?\s*].
    - [Fs], Module [FileSystem]: the file system the code runs against, an
      ordered association list from absolute paths to nodes, the read-only
      paths (directories and files), the write limits of the device (the
      faults the code cannot foresee: a full disk, a quota, an I/O error)
      and a clock; [Path.exists], [is_dir], [is_file], [iterdir],
      [mkdir(parents=True, exist_ok=True)], and [shutil.copy2], which
      truncates its target when it opens it and may then be refused part
      way, with their [OSError]s; [Path] values typed in the form ([ppath], relative or
      absolute, resolved against the working directory); the state
      [fs * L] of the logging functions ([on_fs], [read], [emit],
      [run_logged]); well-formedness and its preservation.
    - [Resolver], Module [PathResolver]: [_listar_subdirs],
      [_resolver_subpasta_flex], [resolver_pasta_mes].
    - [Copier], Module [ResilientCopier]: [_proximo_nome_livre], the
      per-file conflict policy, [copiar_padrao_resiliente],
      [anexar_arquivos].
    - [Domain], Module [Dominio]: the constants [MESES],
      [SUBPASTAS_DESTINO], [SUBPASTAS_PADRAO_PRESELECIONADAS],
      [detectar_pasta_modelos] (both copies), [detectar_pasta_template],
      [montar_nome_licitacao], [criar_estrutura_licitacao].
    - [Console], Module [LogConsole]: the console of each window as a
      record (log text, counters, last status, badge, counter label, toast,
      UI filter and hidden ranges); [_log], [_log_clear], [_toast] of the
      Mes and Docket windows, [_set_status], [_log_line], [_log_clear] and
      [_apply_log_filter] of the UI window; the step relation [reachable].
    - [Estruturas], Module [EstruturasApp]: the schema type [modelo],
      [ESTRUTURA_PADRAO], [criar_arvore] (Section [Tree]), the window state
      [gui] and [log], [limpar_log], [selecionar_pasta], [acao_criar]
      (Section [Window]).
    - [App]: Module [Janela] holds the window state ([form], [janela]),
      the steps of [_criar] ([localizar_modelos], [copiar_selecionadas],
      [anexar], [concluir]) composed in [_criar_pipeline], the other
      handlers ([_update_preview], [_detectar_template],
      [_escolher_modelos], [_add_anexos], [_limpar_anexos],
      [_abrir_destino]), [__init__] as [janela_init], the events and
      [handler], and the step relation [alcancavel]; Modules [MesApp],
      [UiApp] and [DocketApp] instantiate it as the three windows (each
      window's [_criar], its [variante] and its [handlers]); Module
      [JanelaProps] proves their invariant.
    - [Version], Module [VersionInfo]: the resource of [version_info.py]
      as records ([VSVersionInfo], [FixedFileInfo], [StringTable], ...),
      and what PyInstaller does with it: the two 32-bit words of each
      version tuple ([pack_ms]) and [toRaw]'s thirteen little-endian
      words ([to_raw]), with the reader's side ([unpack_all],
      [versions_of_words]) to state the round trip.
    - [CopySpec], Module [CopyContract]: the copy contract of sections
      4.4 and 7 of the specification as inductive relations
      ([file_spec], [files_spec], [copy_selected_spec], [attach_spec]),
      over the [ConflictPolicy] the policy string selects ([policy_of]).
    - [Lote], Module [Lote]: section 9's [BatchResult], section 7's
      verdict ([classify]) and its toast ([aviso_final]), and the states
      of a run of [_criar] ([curso], [abortado], [concluido]) in which
      the pipeline's steps are specified by triples.
    - [Toast], Module [ToastTimer]: the status label with Tk's clock and
      the deadlines of the reset callbacks [_toast] registers with
      [self.after] ([tk], [_toast_after], [reverter]); the time a handler
      takes ([ocupado]) and the idle loop running the due callbacks
      ([ocioso_ate]); the toasts of [_criar] along a run ([criar_tk]),
      with the delay of each window ([atraso_of]) and the level of each
      verdict ([nivel_final]).
    - [Destino], Module [Destino]: a session of a window (its events
      handled in order, [rodar]) and the invariant that the folder
      recorded by [_criar] is a directory ([destino_ok]), proved step by
      step of the pipeline with triples.

    ** What the theorems show
    - ResilientCopier: the free-name search terminates with the first free
      candidate; the effect and the event of each conflict policy in a
      writable folder; the per-file step never lets an exception escape
      and logs one event, and a failed copy changes nothing or leaves one
      file holding a prefix of the source; under "substituir", a write the
      device refuses part way destroys the existing destination (the data
      loss the specification does not mention); nothing outside the
      destination is ever written: the template and attached files keep
      their nodes.
    - Refinement ([CopySpec]): every run of [copiar_padrao_resiliente] and
      [anexar_arquivos] is a behaviour of the contract, its events and
      file system included, partial copies included; the contract's
      per-item error handling does not cover the destination folder: one
      folder that cannot be created aborts the whole copy.
    - Refinement ([Lote]): a click on Criar in each window ends in one of
      the answers of section 7 (the verdict of the logged events, an
      error box, or an escaping exception), with the log box showing
      exactly the lines and counters of those events.
    - NameNormalizer: the output never contains a separator, an ASCII
      capital or a combining mark; the spec's equalities; idempotence on
      tokens that do not start with a digit, and a strictly shorter token
      of the token for every token that does.
    - PathResolver: listing is sorted and exact; fuzzy resolution descends
      one level per matching segment and fails fast (the DECLARACAO /
      DECLARACOES example of the specification fails); the month folder
      returned always exists, is the folder of its label among folders
      named as the window names them, and is the first listed directory,
      whatever its name, for a label whose month token is empty.
    - File system: [mkdir_p] and [copy2] preserve well-formedness;
      [mkdir_p] leaves a directory, is idempotent, and raises without a
      change at or below a file; [copy2] writes at most its target.
    - Estruturas: [criar_arvore] never raises and logs one line per
      folder, creates the whole model when nothing blocks it, and is
      idempotent; [acao_criar] creates the tree, and reports success even
      when every folder failed.
    - Console: every reachable console has status fields that agree with
      its counters (rule induction on [reachable]); a sequence of events
      after a clear gives its lines and counts; the three [_log] methods
      agree; the UI filter hides the wrong lines.
    - Domain and windows: [montar_nome_licitacao] reads back; the template
      fallback returns the first listed directory, so it depends on the
      listing order; [criar_estrutura_licitacao] aborts at any sub-folder
      blocked by a file and creates none after it; empty MODELOS/TEMPLATE
      fields are taken as the working directory; every state reachable by
      the handlers of the three windows keeps its console consistent, its
      attachment list duplicate-free and mirrored by its list box, the
      button enabled and the progress bar stopped (rule induction on
      [alcancavel]).
    - Sessions: the folder [_criar] records is always a directory, so
      "Abrir destino" opens a directory, or shows its information box, or
      its error box when the file manager cannot start.
    - Toast timer, composed with [Lote]: in each window, the verdict a
      concluded run of [_criar] shows is reverted by the timer of the
      start toast, so it disappears 3.5 s (4 s in the UI window) after
      the start of the run, and is never shown once the loop runs for a
      batch that long; every toast is eventually reverted by the callback
      it registered, which the idle loop runs (liveness).
    - Lemmas beside the claims: the UI copies written differently
      ([detectar_pasta_modelos] as a loop, [_resolver_subpasta_flex]
      listing each level once) agree with the Mes and Docket ones on every
      file system; the configuration constants are well formed; [toRaw]
      of the version resource succeeds exactly when the major and minor
      components fit 16 bits, wraps the others, and reads back.

    ** Bounds and fuel
    The only loop of the code without a syntactic bound is the [while] of
    [_proximo_nome_livre].  Its model takes the fuel
    [S (length (fs_entries fs))]: the candidate names are pairwise distinct
    and at most [length (fs_entries fs)] paths exist, so the search stops
    before the fuel runs out ([proximo_nome_livre_free]).  The words of
    the version resource are [Z] with their 16- and 32-bit masks written
    out, so that overflow is visible.  [tx] decodes at
    most as many characters as its input has bytes.  Counters are [nat]:
    Python's integers do not overflow.

    ** Faults
    The faults of the disk are part of the state: the read-only paths and
    a write limit per path.  A limit stands for whatever makes a write fail
    after [shutil.copy2] opened its target (a full disk, a quota, an I/O
    error); it is given, not computed from sizes, since the code cannot
    know it in advance.  [copystat], which runs after the data is
    written, is taken not to fail (on a file the process has just written,
    only an exotic file system refuses [utime]).  The file systems of the
    examples ([mkFs]) have no fault.

    ** Not modelled
    The Tk widgets, styles, scrolling canvases, colours of the log tags,
    icon loading ([_load_icon], [_resource_path]) and the process
    [_abrir_destino] spawns (the model records the folder it opens; the
    exception of a file manager that cannot start is an event argument)
    are presentation without algorithmic content.  The copies of the
    domain functions in [docket.py] and [LicitagovLicitacaoMesApp_UI.py]
    that are the Mes code word for word are not modelled twice: the map
    names the Mes lines.  The timers of [_toast]
    are modelled beside the windows' state, in [Toast], and joined to a
    run of [_criar] through the verdict it shows; the nested event loop of
    a modal message box (the error boxes of [_criar]) is not modelled: it
    only decides when timers run while the box is open.  Nothing else of
    the program's logic is left out: what remains is widget layout.  Of PyInstaller only [FixedFileInfo]'s packing
    and [toRaw] are modelled, not the serialisation of the string tables
    (UTF-16 with padding).  The
    values returned by the file dialogs are event arguments.  The warning
    of a missing template folder prints the resolved absolute path, where
    Python prints the [Path] as the field gave it (possibly relative): the
    text of that message differs, not its level or its place in the
    log.  Characters
    are classified exactly on U+0000..U+00FF (NFD decomposition,
    [str.lower], digits) and on Python's full white-space set; other code
    points are treated as letters without decomposition or case.  Paths
    are POSIX paths; [..] and symbolic links are not modelled, and
    [iterdir] lists entries in creation order (the real order is
    implementation-defined). *)

From Stdlib Require Import ZArith Lia.
From Stdlib Require Import Strings.String Strings.Ascii.
From stdpp Require Import base list sorting.

Declare Scope py_scope.
Delimit Scope py_scope with py.

Create HintDb licita.
Create Rewrite HintDb licita_rw.

(** ** Strings: Python [str] as a list of Unicode code points *)

Definition ustr := list Z.

(** ASCII literals written as Rocq strings. *)
Definition u (s : string) : ustr :=
  map (fun a => Z.of_N (Ascii.N_of_ascii a)) (list_ascii_of_string s).

(** Literals with accented letters: the UTF-8 bytes of a Rocq string
    decoded into code points (1 to 4 bytes per character). *)
Fixpoint utf8_decode (fuel : nat) (bs : list Z) : ustr :=
  match fuel with
  | O => []
  | S fuel' =>
      match bs with
      | [] => []
      | b0 :: r =>
          if (b0 <? 128)%Z then b0 :: utf8_decode fuel' r
          else match r with
               | b1 :: r1 =>
                   if (b0 <? 224)%Z then
                     (Z.land b0 31 * 64 + Z.land b1 63)%Z :: utf8_decode fuel' r1
                   else match r1 with
                        | b2 :: r2 =>
                            if (b0 <? 240)%Z then
                              (Z.land b0 15 * 4096 + Z.land b1 63 * 64 + Z.land b2 63)%Z
                                :: utf8_decode fuel' r2
                            else match r2 with
                                 | b3 :: r3 =>
                                     (Z.land b0 7 * 262144 + Z.land b1 63 * 4096 +
                                      Z.land b2 63 * 64 + Z.land b3 63)%Z :: utf8_decode fuel' r3
                                 | [] => []
                                 end
                        | [] => []
                        end
               | [] => []
               end
      end
  end.

Definition tx (s : string) : ustr := utf8_decode (length (u s)) (u s).

(** Python's [needle in haystack] on [str]. *)
Fixpoint is_prefix (p s : ustr) : bool :=
  match p, s with
  | [], _ => true
  | _ :: _, [] => false
  | a :: p', b :: s' => (a =? b)%Z && is_prefix p' s'
  end.

Fixpoint is_substr (p s : ustr) : bool :=
  is_prefix p s || match s with [] => false | _ :: s' => is_substr p s' end.

(** Python's [s.split(sep)] with a one-character separator. *)
Fixpoint py_split (sep : Z) (s : ustr) : list ustr :=
  match s with
  | [] => [[]]
  | c :: s' =>
      if (c =? sep)%Z then [] :: py_split sep s'
      else match py_split sep s' with
           | w :: ws => (c :: w) :: ws
           | [] => [[c]]
           end
  end.

(** Python's [str(n)] for a natural number: decimal digits. *)
Fixpoint digits_rev (fuel n : nat) : list nat :=
  match fuel with
  | O => []
  | S f => n mod 10 :: (if n <? 10 then [] else digits_rev f (n / 10))
  end.

Definition py_str_nat (n : nat) : ustr :=
  map (fun d => 48 + Z.of_nat d)%Z (rev (digits_rev (S n) n)).

(** Reading the decimal digits back (Python's [int(s)]). *)
Fixpoint parse_dec (acc : nat) (s : ustr) : nat :=
  match s with
  | [] => acc
  | c :: s' => parse_dec (acc * 10 + Z.to_nat (c - 48)) s'
  end.

(** Python's ordering of [str]: lexicographic on code points. *)
Fixpoint ustr_leb (a b : ustr) : bool :=
  match a, b with
  | [], _ => true
  | _ :: _, [] => false
  | x :: a', y :: b' => if (x =? y)%Z then ustr_leb a' b' else (x <? y)%Z
  end.

Definition ustr_le (a b : ustr) : Prop := ustr_leb a b = true.

#[export] Instance ustr_le_dec : RelDecision ustr_le.
Proof. intros a b. unfold ustr_le. apply _. Defined.

(** ** The state-and-exception monad

    A Python statement sequence that reads and updates a state [S] and may
    raise an exception of type [E].  An exception keeps the state reached
    so far: nothing is rolled back, as in the code. *)

Inductive outcome (E A : Type) : Type :=
| Ok (a : A)
| Exc (e : E).
Arguments Ok {E A} a.
Arguments Exc {E A} e.

Definition st (E S A : Type) : Type := S -> S * outcome E A.

Definition ret {E S A} (a : A) : st E S A := fun s => (s, Ok a).

Definition bind {E S A B} (m : st E S A) (k : A -> st E S B) : st E S B :=
  fun s => match m s with
           | (s', Ok a) => k a s'
           | (s', Exc e) => (s', Exc e)
           end.

Definition raise {E S A} (e : E) : st E S A := fun s => (s, Exc e).

(** [try: m except Exception as e: h(e)]. *)
Definition try_except {E S A} (m : st E S A) (h : E -> st E S A) : st E S A :=
  fun s => match m s with
           | (s', Exc e) => h e s'
           | r => r
           end.

(** [try: m finally: fin]: [fin] runs on either outcome; an exception of
    [fin] replaces the outcome of [m]. *)
Definition try_finally {E S A} (m : st E S A) (fin : st E S unit) : st E S A :=
  fun s => let '(s1, r) := m s in
           match fin s1 with
           | (s2, Ok _) => (s2, r)
           | (s2, Exc e) => (s2, Exc e)
           end.

Definition get {E S} : st E S S := fun s => (s, Ok s).
Definition put {E S} (s : S) : st E S unit := fun _ => (s, Ok tt).

(** A pure computation that may raise. *)
Definition lift {E S A} (o : outcome E A) : st E S A :=
  fun s => (s, o).

(** [for x in l: body(x)]. *)
Fixpoint for_each {E S A} (l : list A) (body : A -> st E S unit) : st E S unit :=
  match l with
  | [] => ret tt
  | x :: l' => bind (body x) (fun _ => for_each l' body)
  end.

Notation "x <- m ;; k" := (bind m (fun x => k))
  (at level 100, m at next level, right associativity) : py_scope.
Notation "m ;; k" := (bind m (fun _ => k))
  (at level 100, right associativity) : py_scope.

(** A state predicate kept by a computation, whatever its outcome. *)
Definition preserves {E S A} (P : S -> Prop) (m : st E S A) : Prop :=
  forall s, P s -> P (fst (m s)).

(** A computation whose final state is related to its initial state by a
    preorder [R], whatever its outcome. *)
Definition advances {E S A} (R : relation S) (m : st E S A) : Prop :=
  forall s, R s (fst (m s)).

(** ** Shared lemmas *)

Lemma is_prefix_app (p s : ustr) : is_prefix p (p ++ s) = true.
Proof. induction p; simpl; [done|]. by rewrite Z.eqb_refl. Qed.

Lemma is_prefix_spec (p s : ustr) :
  is_prefix p s = true <-> exists r, s = p ++ r.
Proof.
  revert s. induction p as [|a p IH]; intros [|b s]; simpl.
  - split; eauto.
  - split; eauto.
  - split; [done|]. intros [r Hr]. done.
  - rewrite andb_true_iff, Z.eqb_eq, IH. split.
    + intros [-> [r ->]]. eauto.
    + intros [r Hr]. injection Hr as -> ->. eauto.
Qed.

Lemma is_substr_spec (p s : ustr) :
  is_substr p s = true <-> exists a b, s = a ++ p ++ b.
Proof.
  induction s as [|c s IH]; simpl.
  - rewrite orb_false_r, is_prefix_spec. split.
    + intros [r Hr]. exists [], r. done.
    + intros [[|??] [b Hb]]; [|done]. eauto.
  - rewrite orb_true_iff, is_prefix_spec, IH. split.
    + intros [[r Hr]|[a [b ->]]].
      * exists [], r. done.
      * exists (c :: a), b. done.
    + intros [[|c' a] [b Hb]].
      * left. eauto.
      * right. injection Hb as -> ->. eauto.
Qed.

Lemma py_split_no_sep sep s : ~ In sep s -> py_split sep s = [s].
Proof.
  induction s as [|c s IH]; intros Hn; [done|]. simpl.
  destruct (Z.eqb_spec c sep); [subst; exfalso; apply Hn; by left|].
  rewrite IH; [done|]. intros H. apply Hn. by right.
Qed.

Lemma py_split_app_sep sep a b : ~ In sep a -> py_split sep (a ++ sep :: b) = a :: py_split sep b.
Proof.
  induction a as [|c a IH]; intros Hn; simpl; [by rewrite Z.eqb_refl|].
  destruct (Z.eqb_spec c sep); [subst; exfalso; apply Hn; by left|].
  rewrite IH; [done|]. intros H. apply Hn. by right.
Qed.

Lemma is_substr_refl (p : ustr) : is_substr p p = true.
Proof. apply is_substr_spec. exists [], []. by rewrite app_nil_r. Qed.

Lemma parse_dec_snoc acc s c :
  parse_dec acc (s ++ [c]) = parse_dec acc s * 10 + Z.to_nat (c - 48).
Proof. revert acc. induction s; simpl; auto. Qed.

Lemma forallb_false_exists {A} (g : A -> bool) (l : list A) :
  forallb g l = false -> exists x, In x l /\ g x = false.
Proof.
  induction l as [|x l IH]; simpl; [done|].
  destruct (g x) eqn:E; simpl; [|eauto]. intros H. destruct (IH H) as (y & ? & ?). eauto.
Qed.

(** [int(str(n)) == n]. *)
Lemma parse_py_str_nat (n : nat) : parse_dec 0 (py_str_nat n) = n.
Proof.
  unfold py_str_nat.
  assert (Hval : forall ds, parse_dec 0 (map (fun d => 48 + Z.of_nat d)%Z (rev ds))
                 = fold_right (fun d acc => d + 10 * acc) 0 ds).
  { induction ds as [|d ds IH]; [done|]. cbn [rev foldr].
    rewrite map_app. cbn [map]. rewrite parse_dec_snoc, IH.
    replace (48 + Z.of_nat d - 48)%Z with (Z.of_nat d) by lia.
    rewrite Nat2Z.id. lia. }
  rewrite Hval. generalize (S n) (Nat.lt_succ_diag_r n). clear Hval.
  intros fuel. revert n. induction fuel as [|f IH]; intros n Hn; [lia|].
  cbn [digits_rev]. destruct (Nat.ltb_spec n 10).
  - cbn [foldr]. rewrite Nat.mod_small by done. lia.
  - cbn [foldr]. rewrite IH by (apply Nat.Div0.div_lt_upper_bound; lia).
    pose proof (Nat.div_mod_eq n 10). lia.
Qed.

Lemma py_str_nat_inj (n m : nat) : py_str_nat n = py_str_nat m -> n = m.
Proof.
  intros H. rewrite <- (parse_py_str_nat n), <- (parse_py_str_nat m). by rewrite H.
Qed.

Lemma ustr_leb_refl (a : ustr) : ustr_leb a a = true.
Proof. induction a; simpl; [done|]. by rewrite Z.eqb_refl. Qed.

Lemma ustr_leb_total (a b : ustr) : ustr_leb a b = true \/ ustr_leb b a = true.
Proof.
  revert b. induction a as [|x a IH]; intros [|y b]; simpl; auto.
  destruct (Z.eqb_spec x y) as [->|Hne].
  - rewrite Z.eqb_refl. auto.
  - rewrite (proj2 (Z.eqb_neq y x)) by congruence.
    destruct (Z.ltb_spec x y), (Z.ltb_spec y x); auto; lia.
Qed.

Lemma ustr_leb_trans (a b c : ustr) :
  ustr_leb a b = true -> ustr_leb b c = true -> ustr_leb a c = true.
Proof.
  revert b c. induction a as [|x a IH]; intros [|y b] [|z c]; simpl; auto; try done.
  destruct (Z.eqb_spec x y), (Z.eqb_spec y z), (Z.eqb_spec x z); subst;
    rewrite ?Z.ltb_lt; eauto; intros; lia.
Qed.

Lemma ustr_leb_antisym (a b : ustr) :
  ustr_leb a b = true -> ustr_leb b a = true -> a = b.
Proof.
  revert b. induction a as [|x a IH]; intros [|y b]; simpl; try done.
  destruct (Z.eqb_spec x y) as [->|Hne].
  - rewrite Z.eqb_refl. intros H1 H2. f_equal. auto.
  - rewrite (proj2 (Z.eqb_neq y x)) by congruence. rewrite !Z.ltb_lt. lia.
Qed.

(** Monad equations used by the component proofs. *)
Lemma bind_ret_l {E S A B} (a : A) (k : A -> st E S B) s :
  bind (ret a) k s = k a s.
Proof. reflexivity. Qed.

Lemma bind_Ok {E S A B} (m : st E S A) (k : A -> st E S B) s s' a :
  m s = (s', Ok a) -> bind m k s = k a s'.
Proof. unfold bind. by intros ->. Qed.

Lemma bind_Exc {E S A B} (m : st E S A) (k : A -> st E S B) s s' e :
  m s = (s', Exc e) -> bind m k s = (s', Exc e).
Proof. unfold bind. by intros ->. Qed.

Lemma for_each_app {E S A} (l1 l2 : list A) (body : A -> st E S unit) s :
  for_each (l1 ++ l2) body s = bind (for_each l1 body) (fun _ => for_each l2 body) s.
Proof.
  revert s. induction l1 as [|x l1 IH]; intros s; [done|]. simpl.
  unfold bind. destruct (body x s) as [s' [[]|e]]; [|done].
  rewrite IH. reflexivity.
Qed.

Section Preserves.
Context {E S : Type} (P : S -> Prop).

Lemma preserves_ret {A} (a : A) : preserves P (@ret E S A a).
Proof. by intros s. Qed.

Lemma preserves_raise {A} (e : E) : preserves P (@raise E S A e).
Proof. by intros s. Qed.

Lemma preserves_lift {A} (o : outcome E A) : preserves P (@lift E S A o).
Proof. by intros s. Qed.

Lemma preserves_bind {A B} (m : st E S A) (k : A -> st E S B) :
  preserves P m -> (forall a, preserves P (k a)) -> preserves P (bind m k).
Proof.
  intros Hm Hk s Hs. unfold bind. specialize (Hm s Hs).
  destruct (m s) as [s' [a|e]]; simpl in *; auto. by apply Hk.
Qed.

Lemma preserves_try {A} (m : st E S A) (h : E -> st E S A) :
  preserves P m -> (forall e, preserves P (h e)) -> preserves P (try_except m h).
Proof.
  intros Hm Hh s Hs. unfold try_except. specialize (Hm s Hs).
  destruct (m s) as [s' [a|e]]; simpl in *; auto. by apply Hh.
Qed.

Lemma preserves_finally {A} (m : st E S A) (fin : st E S unit) :
  preserves P m -> preserves P fin -> preserves P (try_finally m fin).
Proof.
  intros Hm Hf s Hs. unfold try_finally. specialize (Hm s Hs).
  destruct (m s) as [s1 r]. specialize (Hf s1 Hm). by destruct (fin s1) as [s2 []].
Qed.

Lemma preserves_for_each {A} (l : list A) (body : A -> st E S unit) :
  (forall x, preserves P (body x)) -> preserves P (for_each l body).
Proof.
  intros Hb. induction l as [|x l IH]; simpl.
  - apply preserves_ret.
  - by apply preserves_bind.
Qed.
End Preserves.

Section Advances.
Context {E S : Type} (R : relation S) `{!PreOrder R}.

Lemma advances_ret {A} (a : A) : advances R (@ret E S A a).
Proof. intros s. simpl. reflexivity. Qed.

Lemma advances_raise {A} (e : E) : advances R (@raise E S A e).
Proof. intros s. simpl. reflexivity. Qed.

Lemma advances_lift {A} (o : outcome E A) : advances R (@lift E S A o).
Proof. intros s. simpl. reflexivity. Qed.

Lemma advances_bind {A B} (m : st E S A) (k : A -> st E S B) :
  advances R m -> (forall a, advances R (k a)) -> advances R (bind m k).
Proof.
  intros Hm Hk s. unfold bind. specialize (Hm s).
  destruct (m s) as [s' [a|e]]; simpl in *; [|done]. etrans; [done|]. apply Hk.
Qed.

Lemma advances_try {A} (m : st E S A) (h : E -> st E S A) :
  advances R m -> (forall e, advances R (h e)) -> advances R (try_except m h).
Proof.
  intros Hm Hh s. unfold try_except. specialize (Hm s).
  destruct (m s) as [s' [a|e]]; simpl in *; [done|]. etrans; [done|]. apply Hh.
Qed.

Lemma advances_finally {A} (m : st E S A) (fin : st E S unit) :
  advances R m -> advances R fin -> advances R (try_finally m fin).
Proof.
  intros Hm Hf s. unfold try_finally. specialize (Hm s).
  destruct (m s) as [s1 r]. specialize (Hf s1). destruct (fin s1) as [s2 []]; simpl in *; by etrans.
Qed.

Lemma advances_for_each {A} (l : list A) (body : A -> st E S unit) :
  (forall x, advances R (body x)) -> advances R (for_each l body).
Proof.
  intros Hb. induction l as [|x l IH]; simpl.
  - apply advances_ret.
  - by apply advances_bind.
Qed.
End Advances.

#[export] Hint Rewrite @bind_ret_l : licita_rw.
#[export] Hint Resolve advances_ret advances_raise advances_lift advances_bind
  advances_try advances_for_each : licita.
#[export] Hint Resolve preserves_ret preserves_raise preserves_lift preserves_bind
  preserves_try preserves_for_each : licita.
#[export] Hint Resolve is_prefix_app is_substr_refl ustr_leb_refl : licita.

(** ** Hoare triples

    [triple P m Q R]: from a state satisfying [P], [m] either returns [a]
    in a state satisfying [Q a], or raises [e] in a state satisfying
    [R e].  The proof of a handler whose outcome depends on the path it
    takes (which [preserves] cannot tell) is a chain of triples. *)
Section Hoare.
Context {E S : Type}.

Definition triple {A} (P : S -> Prop) (m : st E S A) (Q : A -> S -> Prop) (R : E -> S -> Prop) : Prop :=
  forall s, P s -> match m s with (s', Ok a) => Q a s' | (s', Exc e) => R e s' end.

Lemma triple_ret {A} (a : A) P Q R : (forall s, P s -> Q a s) -> triple P (ret a) Q R.
Proof. intros H s Hs. by apply H. Qed.

Lemma triple_raise {A} (e : E) P (Q : A -> S -> Prop) R :
  (forall s, P s -> R e s) -> triple P (raise e) Q R.
Proof. intros H s Hs. by apply H. Qed.

Lemma triple_bind {A B} (m : st E S A) (k : A -> st E S B) P Q' Q R :
  triple P m Q' R -> (forall a, triple (Q' a) (k a) Q R) -> triple P (bind m k) Q R.
Proof.
  intros Hm Hk s Hs. specialize (Hm s Hs). unfold bind.
  destruct (m s) as [s' [a|e]]; [by apply Hk|done].
Qed.

Lemma triple_try {A} (m : st E S A) h P Q R R' :
  triple P m Q R' -> (forall e, triple (R' e) (h e) Q R) -> triple P (try_except m h) Q R.
Proof.
  intros Hm Hh s Hs. specialize (Hm s Hs). unfold try_except.
  destruct (m s) as [s' [a|e]]; [done|by apply Hh].
Qed.

(** [fin] runs after either outcome and must keep what was established;
    an exception of [fin] replaces the outcome. *)
Lemma triple_finally {A} (m : st E S A) fin P Q R Qm Rm :
  triple P m Qm Rm ->
  (forall a, triple (Qm a) fin (fun _ => Q a) R) ->
  (forall e, triple (Rm e) fin (fun _ => R e) R) ->
  triple P (try_finally m fin) Q R.
Proof.
  intros Hm Hfa Hfe s Hs. specialize (Hm s Hs). unfold try_finally.
  destruct (m s) as [s1 [a|e]];
    [specialize (Hfa a s1 Hm)|specialize (Hfe e s1 Hm)];
    destruct (fin s1) as [s2 [[]|e']]; done.
Qed.

Lemma triple_consequence {A} (m : st E S A) P P' Q Q' R R' :
  triple P' m Q' R' -> (forall s, P s -> P' s) ->
  (forall a s, Q' a s -> Q a s) -> (forall e s, R' e s -> R e s) ->
  triple P m Q R.
Proof.
  intros Hm HP HQ HR s Hs. specialize (Hm s (HP s Hs)).
  destruct (m s) as [s' [a|e]]; auto.
Qed.

(** A precondition may be split into cases. *)
Lemma triple_or {A} (m : st E S A) P1 P2 Q R :
  triple P1 m Q R -> triple P2 m Q R -> triple (fun s => P1 s \/ P2 s) m Q R.
Proof. intros H1 H2 s [Hs|Hs]; [exact (H1 s Hs)|exact (H2 s Hs)]. Qed.

(** An invariant is a triple. *)
Lemma preserves_triple {A} (P : S -> Prop) (m : st E S A) :
  preserves P m -> triple P m (fun _ => P) (fun _ => P).
Proof. intros Hm s Hs. specialize (Hm s Hs). by destruct (m s) as [s' [a|e]]. Qed.

(** [ok = m; if not ok: return; k]: [m] leads to the precondition of
    [k] when it answers [true], and to the postcondition when it answers
    [false]. *)
Lemma triple_seq_bool (m : st E S bool) (k : st E S unit) P P1 Q R :
  triple P m (fun ok => if ok then P1 else Q tt) R -> triple P1 k Q R ->
  triple P (bind m (fun ok => if negb ok then ret tt else k)) Q R.
Proof. intros Hm Hk. eapply triple_bind; [exact Hm|]. intros [|]; [exact Hk|by apply triple_ret]. Qed.

(** A step that keeps the invariant of the exceptional exits may be
    passed over. *)
Lemma triple_preserves_bind {A B} (P : S -> Prop) (m : st E S A) (k : A -> st E S B) Q :
  preserves P m -> (forall a, triple P (k a) Q (fun _ => P)) -> triple P (bind m k) Q (fun _ => P).
Proof. intros Hm Hk. eapply triple_bind; [by apply preserves_triple|exact Hk]. Qed.

End Hoare.

(** Case analysis on every integer comparison of the goal, innermost
    first (a comparison whose operands hold an [if] waits for it). *)
Ltac no_if t :=
  lazymatch t with context [if _ then _ else _] => fail | _ => idtac end.

Ltac zcase :=
  repeat (match goal with
          | |- context [(?a <=? ?b)%Z] => no_if a; no_if b; destruct (Z.leb_spec a b)
          | |- context [(?a <? ?b)%Z] => no_if a; no_if b; destruct (Z.ltb_spec a b)
          | |- context [(?a =? ?b)%Z] => no_if a; no_if b; destruct (Z.eqb_spec a b)
          end; simpl).

(** Invariants and preorders through a monadic program: split it along its
    binds, handlers, loops and branches, and close the leaves with the
    [licita] hints. *)
Ltac mono_step :=
  match goal with
  | |- preserves _ (bind _ _) => apply preserves_bind; [|intros ?]
  | |- preserves _ (try_except _ _) => apply preserves_try; [|intros ?]
  | |- preserves _ (for_each _ _) => apply preserves_for_each; intros ?
  | |- preserves _ (try_finally _ _) => apply preserves_finally
  | |- preserves _ (if ?b then _ else _) => destruct b
  | |- preserves _ (match ?x with _ => _ end) => destruct x
  | |- advances _ (bind _ _) => apply advances_bind; [typeclasses eauto| |intros ?]
  | |- advances _ (try_except _ _) => apply advances_try; [typeclasses eauto| |intros ?]
  | |- advances _ (for_each _ _) => apply advances_for_each; [typeclasses eauto|intros ?]
  | |- advances _ (try_finally _ _) => apply advances_finally; [typeclasses eauto| |]
  | |- advances _ (if ?b then _ else _) => destruct b
  | |- advances _ (match ?x with _ => _ end) => destruct x
  end.

Ltac mono := repeat (mono_step || (progress auto with licita)).

(** Case analysis on a monadic step: name its result. *)
Ltac step_as m E :=
  let s' := fresh "s" in let r := fresh "r" in
  destruct m as [s' r] eqn:E.
