(* ===== verification/Normalize.v ===== *)
(** * NameNormalizer: [_strip_accents] and [_normalize_token]

    [src/LicitagovLicitacaoMesApp.py] lines 51-58 (identical copies in
    [LicitagovLicitacaoMesApp_UI.py] lines 73-86 and [docket.py] lines
    98-105).  A name is a list of code points; the Unicode services the code
    calls ([unicodedata.normalize("NFD")], [unicodedata.category],
    [str.lower], [str.strip], the classes [\d] and [\s] of [re]) are written
    out for U+0000..U+00FF and for Python's white-space set. *)

From Stdlib Require Import ZArith Lia.
From Stdlib Require Import Strings.String.
From stdpp Require Import base list sets.
From S2P Require Import Prelude.

Module NameNormalizer.

(** ** Character classes *)

(** [unicodedata.category(ch) == "Mn"] on the Combining Diacritical Marks
    block U+0300..U+036F. *)
Definition is_mn (c : Z) : bool := (768 <=? c)%Z && (c <=? 879)%Z.

(** NFD decomposition of U+00C0..U+00DF: base letter and combining mark,
    [None] for the letters without a canonical decomposition
    (Æ, Ð, ×, Ø, Þ, ß). *)
Definition nfd_upper : list (option (Z * Z)) :=
  [ Some (65, 768); Some (65, 769); Some (65, 770); Some (65, 771);
    Some (65, 776); Some (65, 778); None;          Some (67, 807);
    Some (69, 768); Some (69, 769); Some (69, 770); Some (69, 776);
    Some (73, 768); Some (73, 769); Some (73, 770); Some (73, 776);
    None;          Some (78, 771); Some (79, 768); Some (79, 769);
    Some (79, 770); Some (79, 771); Some (79, 776); None;
    None;          Some (85, 768); Some (85, 769); Some (85, 770);
    Some (85, 776); Some (89, 769); None;          None ]%Z.

(** [unicodedata.normalize("NFD", ch)] for one code point.  U+00E0..U+00FE
    decompose like their capitals (base letter shifted by 32); U+00FF
    (ÿ) is y followed by U+0308. *)
Definition nfd_char (c : Z) : list Z :=
  if (192 <=? c)%Z && (c <=? 223)%Z then
    match nth_error nfd_upper (Z.to_nat (c - 192)) with
    | Some (Some (b, m)) => [b; m]
    | _ => [c]
    end
  else if (224 <=? c)%Z && (c <=? 254)%Z then
    match nth_error nfd_upper (Z.to_nat (c - 224)) with
    | Some (Some (b, m)) => [(b + 32)%Z; m]
    | _ => [c]
    end
  else if (c =? 255)%Z then [121%Z; 776%Z]
  else [c].

(** [str.lower] on one code point: A-Z and the Latin-1 capitals
    U+00C0..U+00DE except × (U+00D7). *)
Definition py_lower (c : Z) : Z :=
  if ((65 <=? c) && (c <=? 90))%Z
     || ((192 <=? c) && (c <=? 222) && negb (c =? 215))%Z
  then (c + 32)%Z else c.

(** [str.isspace] (and the class [\s] of [re] on [str] patterns). *)
Definition is_space (c : Z) : bool :=
  ((9 <=? c) && (c <=? 13))%Z || ((28 <=? c) && (c <=? 32))%Z
  || (c =? 133)%Z || (c =? 160)%Z || (c =? 5760)%Z
  || ((8192 <=? c) && (c <=? 8202))%Z || (c =? 8232)%Z || (c =? 8233)%Z
  || (c =? 8239)%Z || (c =? 8287)%Z || (c =? 12288)%Z.

(** The class [\d] of [re] (decimal digits; in U+0000..U+00FF only 0-9). *)
Definition is_digit (c : Z) : bool := (48 <=? c)%Z && (c <=? 57)%Z.

(** The four characters removed by the [replace] chain. *)
Definition is_sep (c : Z) : bool :=
  (c =? 32)%Z || (c =? 46)%Z || (c =? 95)%Z || (c =? 45)%Z.

Fixpoint drop_while (p : Z -> bool) (s : ustr) : ustr :=
  match s with
  | [] => []
  | c :: s' => if p c then drop_while p s' else s
  end.

(** ** The functions of the source *)

(** [_strip_accents]: NFD, then drop the [Mn] code points. *)
Definition _strip_accents (s : ustr) : ustr :=
  List.filter (fun c => negb (is_mn c)) (flat_map nfd_char s).

(** [str.strip()]. *)
Definition py_strip (s : ustr) : ustr :=
  rev (drop_while is_space (rev (drop_while is_space s))).

(** [re.sub(r"^\d+\s*[\.\-]?\s*", "", s)]: the pattern is anchored and every
    element after [\d+] may match the empty string, so the greedy match is
    the one the engine returns. *)
Definition strip_num_prefix (s : ustr) : ustr :=
  match s with
  | c :: _ =>
      if is_digit c then
        let r := drop_while is_space (drop_while is_digit s) in
        let r := match r with
                 | d :: r' => if (d =? 46)%Z || (d =? 45)%Z then r' else r
                 | [] => []
                 end in
        drop_while is_space r
      else s
  | [] => []
  end.

(** [s.replace(" ", "").replace(".", "").replace("_", "").replace("-", "")]. *)
Definition remove_seps (s : ustr) : ustr := List.filter (fun c => negb (is_sep c)) s.

(** [_normalize_token]. *)
Definition _normalize_token (name : ustr) : ustr :=
  remove_seps (strip_num_prefix (py_strip (map py_lower (_strip_accents name)))).

(** A code point that every step of [_normalize_token] leaves alone. *)
Definition clean (c : Z) : Prop :=
  nfd_char c = [c] /\ is_mn c = false /\ py_lower c = c /\ is_sep c = false.

(** ** Lemmas *)

Lemma drop_while_suffix p s : exists pre, s = pre ++ drop_while p s.
Proof.
  induction s as [|c s [pre Hpre]]; simpl.
  - by exists [].
  - destruct (p c).
    + exists (c :: pre). simpl. by f_equal.
    + by exists [].
Qed.

Lemma drop_while_incl p s c : In c (drop_while p s) -> In c s.
Proof.
  destruct (drop_while_suffix p s) as [pre Hpre]. intros H.
  rewrite Hpre. apply in_or_app. by right.
Qed.

Lemma drop_while_head p c s : p c = false -> drop_while p (c :: s) = c :: s.
Proof. simpl. by intros ->. Qed.

Lemma py_strip_incl s c : In c (py_strip s) -> In c s.
Proof.
  unfold py_strip. rewrite <- in_rev.
  intros H. apply drop_while_incl in H. rewrite <- in_rev in H.
  by apply drop_while_incl in H.
Qed.

Lemma strip_num_prefix_incl s c : In c (strip_num_prefix s) -> In c s.
Proof.
  unfold strip_num_prefix. destruct s as [|c0 s0]; [done|].
  destruct (is_digit c0); [|done]. intros H.
  apply drop_while_incl in H.
  destruct (drop_while is_space (drop_while is_digit (c0 :: s0))) as [|d r] eqn:E;
    [done|].
  assert (Hin : In c (d :: r)) by (destruct (_ || _); simpl in *; tauto).
  rewrite <- E in Hin. by apply drop_while_incl, drop_while_incl in Hin.
Qed.

Lemma py_lower_not_upper c : ~ (65 <= py_lower c <= 90)%Z.
Proof.
  unfold py_lower.
  destruct (Z.leb_spec 65 c), (Z.leb_spec c 90), (Z.leb_spec 192 c),
    (Z.leb_spec c 222), (Z.eqb_spec c 215); simpl; lia.
Qed.

Lemma nfd_upper_spec i b m :
  nth_error nfd_upper i = Some (Some (b, m)) ->
  (65 <= b <= 89)%Z /\ is_mn m = true.
Proof.
  intros H. do 32 (destruct i as [|i]; [simpl in H; simplify_eq; try (split; [lia|done])|]).
  by destruct i.
Qed.

Lemma nfd_char_small b : (b < 192)%Z -> nfd_char b = [b].
Proof.
  intros Hb. unfold nfd_char.
  destruct (Z.leb_spec 192 b); [lia|]. destruct (Z.leb_spec 224 b); [lia|].
  destruct (Z.eqb_spec b 255); [lia|]. done.
Qed.

(** A code point is its own decomposition, or decomposes into a letter
    below U+00C0 followed by a combining mark. *)
Lemma nfd_char_cases x :
  nfd_char x = [x] \/
  exists b m, nfd_char x = [b; m] /\ (65 <= b <= 121)%Z /\ is_mn m = true.
Proof.
  unfold nfd_char.
  destruct ((192 <=? x) && (x <=? 223))%Z.
  { destruct (nth_error nfd_upper _) as [[[b m]|]|] eqn:E; auto.
    apply nfd_upper_spec in E as [? ?]. right. exists b, m. split; [done|]. split; [lia|done]. }
  destruct ((224 <=? x) && (x <=? 254))%Z.
  { destruct (nth_error nfd_upper _) as [[[b m]|]|] eqn:E; auto.
    apply nfd_upper_spec in E as [? ?]. right. exists (b + 32)%Z, m. split; [done|]. split; [lia|done]. }
  destruct (x =? 255)%Z; auto. right. exists 121%Z, 776%Z. done.
Qed.

(** Every code point of [_strip_accents s] is a fixed point of NFD and of
    the [Mn] filter. *)
Lemma strip_accents_clean s c :
  In c (_strip_accents s) -> nfd_char c = [c] /\ is_mn c = false.
Proof.
  unfold _strip_accents. rewrite filter_In, in_flat_map.
  intros [[x [_ Hx]] Hmn]. apply negb_true_iff in Hmn. split; [|done].
  destruct (nfd_char_cases x) as [Hid | [b [m [Hbm [Hb Hm]]]]].
  - rewrite Hid in Hx. destruct Hx as [<-|[]]. done.
  - rewrite Hbm in Hx. destruct Hx as [<-|[<-|[]]].
    + apply nfd_char_small. lia.
    + congruence.
Qed.

Lemma py_lower_cases c :
  (py_lower c = c) \/
  ((65 <= c <= 90)%Z /\ py_lower c = (c + 32)%Z) \/
  ((192 <= c <= 222)%Z /\ c <> 215%Z /\ py_lower c = (c + 32)%Z).
Proof.
  unfold py_lower.
  destruct (Z.leb_spec 65 c), (Z.leb_spec c 90), (Z.leb_spec 192 c),
    (Z.leb_spec c 222), (Z.eqb_spec c 215); simpl; auto with lia.
Qed.

Lemma py_lower_idem c : py_lower (py_lower c) = py_lower c.
Proof.
  unfold py_lower. zcase; lia.
Qed.

Lemma nfd_char_lower c : nfd_char c = [c] -> nfd_char (py_lower c) = [py_lower c].
Proof.
  intros H. destruct (py_lower_cases c) as [-> | [[? ->] | [? [? ->]]]]; [done| |].
  - apply nfd_char_small. lia.
  - unfold nfd_char in H |- *.
    destruct (Z.leb_spec 192 c); [|lia]. destruct (Z.leb_spec c 223); [|lia].
    destruct (Z.leb_spec 192 (c + 32)); destruct (Z.leb_spec (c + 32) 223); [lia|..];
      simpl; destruct (Z.leb_spec 224 (c + 32)); destruct (Z.leb_spec (c + 32) 254); try lia;
      simpl; replace (c + 32 - 224)%Z with (c - 192)%Z by lia; simpl in H;
      by destruct (nth_error nfd_upper _) as [[[b m]|]|].
Qed.

Lemma is_mn_lower c : is_mn c = false -> is_mn (py_lower c) = false.
Proof.
  unfold is_mn, py_lower. intros H. zcase; lia.
Qed.

Lemma filter_keep_all (f : Z -> bool) (l : ustr) :
  Forall (fun c => f c = true) l -> List.filter f l = l.
Proof. induction 1; simpl; [done|]. by rewrite H, IHForall. Qed.

(** The invariant of the normalised token: every code point is left alone
    by every step of the normaliser. *)
Lemma normalize_token_clean s c : In c (_normalize_token s) -> clean c.
Proof.
  unfold _normalize_token, remove_seps. rewrite filter_In.
  intros [Hin Hsep]. apply negb_true_iff in Hsep.
  apply strip_num_prefix_incl, py_strip_incl, in_map_iff in Hin as [x [<- Hx]].
  apply strip_accents_clean in Hx as [Hnfd Hmn].
  repeat split; [by apply nfd_char_lower | by apply is_mn_lower | apply py_lower_idem | done].
Qed.

Lemma flat_map_nfd_clean t : Forall clean t -> flat_map nfd_char t = t.
Proof. induction 1 as [|c t (Hc & _) _ IH]; [done|]. simpl. by rewrite Hc, IH. Qed.

Lemma map_lower_clean t : Forall clean t -> map py_lower t = t.
Proof. induction 1 as [|c t (_ & _ & Hc & _) _ IH]; [done|]. simpl. by rewrite Hc, IH. Qed.

(** On clean code points, accents and case are left alone. *)
Lemma normalize_clean_eq t :
  Forall clean t -> _normalize_token t = remove_seps (strip_num_prefix (py_strip t)).
Proof.
  intros Hcl. unfold _normalize_token. f_equal. f_equal. rewrite <- (map_lower_clean t Hcl) at 2.
  f_equal. f_equal. unfold _strip_accents. rewrite flat_map_nfd_clean by done.
  apply filter_keep_all. eapply Forall_impl; [done|]. intros c (_ & Hmn & _). by rewrite Hmn.
Qed.

Lemma normalize_token_Forall_clean s : Forall clean (_normalize_token s).
Proof. apply Forall_forall. intros c Hc. by apply (normalize_token_clean s), list_elem_of_In. Qed.


Lemma drop_while_length p s : length (drop_while p s) <= length s.
Proof. destruct (drop_while_suffix p s) as [pre Hpre]. rewrite Hpre at 2. rewrite length_app. lia. Qed.

Lemma drop_while_snoc p l c : p c = false -> drop_while p (l ++ [c]) = drop_while p l ++ [c].
Proof. intros Hc. induction l as [|x l IH]; simpl; [by rewrite Hc|]. by destruct (p x). Qed.

(** [str.strip()] keeps a first code point that is not white space. *)
Lemma py_strip_head c r :
  is_space c = false -> exists r', py_strip (c :: r) = c :: r' /\ length r' <= length r.
Proof.
  intros Hc. unfold py_strip. rewrite drop_while_head by done. simpl.
  rewrite drop_while_snoc by done. rewrite rev_app_distr. simpl.
  eexists. split; [reflexivity|]. rewrite length_rev, <- (length_rev r). apply drop_while_length.
Qed.

(** The number prefix removes at least a leading digit. *)
Lemma strip_num_prefix_digit c r :
  is_digit c = true -> length (strip_num_prefix (c :: r)) <= length r.
Proof.
  intros Hc. unfold strip_num_prefix. rewrite Hc. simpl. rewrite Hc.
  pose proof (drop_while_length is_space (drop_while is_digit r)) as H1.
  pose proof (drop_while_length is_digit r) as H2.
  destruct (drop_while is_space (drop_while is_digit r)) as [|d r'] eqn:E; [simpl; lia|].
  destruct (_ || _); etrans; try apply drop_while_length; simpl in *; lia.
Qed.

Lemma remove_seps_length s : length (remove_seps s) <= length s.
Proof. unfold remove_seps. induction s as [|c s IH]; simpl; [lia|]. destruct (negb _); simpl; lia. Qed.

(** ** Properties *)

(** The equalities of the specification: "02. FEVEREIRO",
    "2.FEVEREIRO" and "fevereiro" have the same token "fevereiro"; accents
    are stripped ("03. MARCO" with a cedilla, U+00C7, gives "marco"). *)
Example normalize_token_examples :
  _normalize_token (u "02. FEVEREIRO") = u "fevereiro" /\
  _normalize_token (u "2.FEVEREIRO") = u "fevereiro" /\
  _normalize_token (u "fevereiro") = u "fevereiro" /\
  _normalize_token (u "03. MAR" ++ [199%Z] ++ u "O") = u "marco".
Proof. repeat split; vm_compute; reflexivity. Qed.

(** C14: a token never contains a space, a dot, an underscore or a hyphen,
    an ASCII capital letter, or a combining mark. *)
Theorem normalize_token_charset s c :
  In c (_normalize_token s) ->
  is_sep c = false /\ is_mn c = false /\ ~ (65 <= c <= 90)%Z.
Proof.
  intros Hin. destruct (normalize_token_clean s c Hin) as (_ & Hmn & Hlow & Hsep).
  split; [done|]. split; [done|]. rewrite <- Hlow. apply py_lower_not_upper.
Qed.

Lemma normalize_token_charset_witness :
  is_sep 102 = false /\ is_mn 102 = false /\ ~ (65 <= 102 <= 90)%Z.
Proof.
  apply (normalize_token_charset (u "02. FEVEREIRO")). vm_compute. left. reflexivity.
Defined.



(** C16: normalisation is not idempotent, against the specification:
    whenever a token starts with a digit (a folder "2023 1. JANEIRO" has
    the token "1janeiro", since the pattern removes "2023 " only),
    normalising it again removes that digit, so the token of the token is
    strictly shorter, and differs from it.  [normalize_token_idempotent]
    gives the other side: a token that starts with neither a digit nor
    white space and does not end with white space is a fixed point. *)
Theorem normalize_token_not_idempotent s c r :
  _normalize_token s = c :: r -> is_digit c = true ->
  length (_normalize_token (_normalize_token s)) < length (_normalize_token s).
Proof.
  intros Hs Hc. pose proof (normalize_token_Forall_clean s) as Hcl. rewrite Hs in Hcl |- *.
  rewrite normalize_clean_eq by done.
  assert (Hsp : is_space c = false) by (revert Hc; unfold is_digit, is_space; zcase; lia).
  destruct (py_strip_head c r Hsp) as (r' & -> & Hr').
  pose proof (strip_num_prefix_digit c r' Hc). pose proof (remove_seps_length (strip_num_prefix (c :: r'))).
  change (length (c :: r)) with (S (length r)). lia.
Qed.

Lemma normalize_token_not_idempotent_witness :
  length (_normalize_token (_normalize_token (u "2023 1. JANEIRO"))) <
    length (_normalize_token (u "2023 1. JANEIRO")).
Proof. apply (normalize_token_not_idempotent _ 49%Z (u "janeiro")); vm_compute; reflexivity. Defined.

End NameNormalizer.
