(* ===== verification/Fs.v ===== *)
(** * The file system the scripts run against

    The state of every component is the file system.  It is modelled as an
    ordered association list from absolute paths (lists of names) to nodes,
    the read-only paths (a directory in which nothing may be created or
    written, a file that may not be opened for writing: the sources of
    [PermissionError]), the write limits of the device (a write to a path
    with a limit fails once that much data is written: [ENOSPC]) and a
    clock.  The order of the list is the order in which [Path.iterdir]
    lists a directory: entries appear in creation order, one admissible
    choice for the order the operating system leaves unspecified.  The
    root [[]] is always a directory.

    The operations are the library calls of the scripts:
    [Path.exists], [Path.is_dir], [Path.is_file], [Path.iterdir],
    [os.mkdir], [Path.mkdir(parents=True, exist_ok=True)] (CPython's
    [pathlib.Path.mkdir], whose two [except] clauses are followed) and
    [shutil.copy2] ([copyfile], which truncates its target on opening it
    and may be refused part way, then [copystat]: contents and
    modification time).  They raise the [OSError] subclasses of [oserr].

    The [Path] values the windows build from their text fields ([ppath]:
    relative or absolute, [/] with an absolute name replacing the base) are
    resolved against the working directory before the file system is
    touched.  The functions that take a [log] callback run on the state
    [fs * L], where [L] is what the callback writes to ([on_fs], [read],
    [query], [emit]); [run_logged] runs such a function inside a window,
    turning each event into the window's own [_log]. *)

From Stdlib Require Import ZArith Lia.
From Stdlib Require Import Strings.String.
From stdpp Require Import base list sets.
From S2P Require Import Prelude.

Local Open Scope py_scope.

Module FileSystem.

Definition name := ustr.
Definition path := list name.

Inductive node :=
| NDir
| NFile (data : ustr) (mtime : Z).

#[export] Instance node_eq_dec : EqDecision node.
Proof. solve_decision. Defined.

(** The entries; the read-only paths (a directory in which nothing may
    be created or written, or a file that may not be opened for writing);
    the write limits of the device (writing to [p] with [(p, n)] listed
    fails once [n] units of data are written: a full disk, a quota or an
    I/O fault, which the scripts cannot foresee); and the clock, the
    modification time of a file written and not given another. *)
Record fs := MkFs {
  fs_entries : list (path * node);
  fs_ro : list path;
  fs_cota : list (path * nat);
  fs_agora : Z
}.

(** A file system with no write limit, at time 0. *)
Definition mkFs (es : list (path * node)) (ro : list path) : fs := MkFs es ro [] 0.

Inductive oserr :=
| FileExistsError (p : path)
| FileNotFoundError (p : path)
| NotADirectoryError (p : path)
| IsADirectoryError (p : path)
| PermissionError (p : path)
| SameFileError (p : path)
| NoSpaceError (src dst : path).

#[export] Instance oserr_eq_dec : EqDecision oserr.
Proof. solve_decision. Defined.

(** ** Queries *)

Fixpoint assoc (p : path) (l : list (path * node)) : option node :=
  match l with
  | [] => None
  | (q, n) :: l' => if decide (p = q) then Some n else assoc p l'
  end.

Definition lookup_node (f : fs) (p : path) : option node :=
  match p with
  | [] => Some NDir
  | _ => assoc p (fs_entries f)
  end.

(** [p.exists()], [p.is_dir()], [p.is_file()]. *)
Definition path_exists (f : fs) (p : path) : bool :=
  match lookup_node f p with Some _ => true | None => false end.

Definition is_dir (f : fs) (p : path) : bool :=
  match lookup_node f p with Some NDir => true | _ => false end.

Definition is_file (f : fs) (p : path) : bool :=
  match lookup_node f p with Some (NFile _ _) => true | _ => false end.

(** [p.parent] and [p.name]. *)
Definition parent (p : path) : path := removelast p.
Definition base_name (p : path) : name := List.last p [].

(** [Path(rel).parts] of a relative POSIX path: the components between the
    slashes, without the empty ones and ["."]. *)
Definition path_parts (rel : ustr) : list name :=
  List.filter (fun c => negb (bool_decide (c = [] \/ c = [46%Z]))) (py_split 47 rel).

(** [p / rel]. *)
Definition join (p : path) (rel : ustr) : path := p ++ path_parts rel.

Definition is_child_of (p q : path) : bool :=
  bool_decide (q <> [] /\ parent q = p).

(** [p.iterdir()]: the entries directly below [p], in listing order. *)
Definition iterdir (f : fs) (p : path) : outcome oserr (list path) :=
  match lookup_node f p with
  | Some NDir => Ok (List.filter (is_child_of p) (map fst (fs_entries f)))
  | Some (NFile _ _) => Exc (NotADirectoryError p)
  | None => Exc (FileNotFoundError p)
  end.

(** ** Updates *)

(** Write the node of [p]: in place when [p] is listed, at the end of the
    listing otherwise. *)
Fixpoint upsert (p : path) (n : node) (l : list (path * node)) : list (path * node) :=
  match l with
  | [] => [(p, n)]
  | (q, m) :: l' => if decide (p = q) then (p, n) :: l' else (q, m) :: upsert p n l'
  end.

Definition set_node (p : path) (n : node) (f : fs) : fs :=
  MkFs (upsert p n (fs_entries f)) (fs_ro f) (fs_cota f) (fs_agora f).

(** The write limit of [p], and whether [d] can be written to [p]. *)
Definition cota (f : fs) (p : path) : option nat :=
  option_map snd (List.find (fun e => bool_decide (e.1 = p)) (fs_cota f)).

Definition cabe (f : fs) (p : path) (d : ustr) : bool :=
  match cota f p with Some n => bool_decide (length d <= n) | None => true end.

(** Some proper prefix of [p] is a file: resolving [p] meets a file where
    a directory is needed. *)
Definition below_file (f : fs) (p : path) : bool :=
  existsb (fun k => is_file f (take k p)) (seq 0 (length p)).

(** [os.mkdir(p)]: [ENOTDIR] when the resolution of [p] meets a file,
    [ENOENT] when it meets a missing directory. *)
Definition os_mkdir (p : path) : st oserr fs unit := fun f =>
  match lookup_node f p with
  | Some _ => (f, Exc (FileExistsError p))
  | None =>
      match lookup_node f (parent p) with
      | Some NDir =>
          if decide (parent p ∈ fs_ro f) then (f, Exc (PermissionError p))
          else (set_node p NDir f, Ok tt)
      | Some (NFile _ _) => (f, Exc (NotADirectoryError p))
      | None => (f, Exc (if below_file f p then NotADirectoryError p else FileNotFoundError p))
      end
  end.

(** [except OSError: if not exist_ok or not self.is_dir(): raise]. *)
Definition exist_ok_handler (p : path) (e : oserr) : st oserr fs unit := fun f =>
  if is_dir f p then (f, Ok tt) else (f, Exc e).

(** [pathlib.Path.mkdir(self, parents=True, exist_ok=True)]:
<<
        try:
            os.mkdir(self, mode)
        except FileNotFoundError:
            if not parents or self.parent == self:
                raise
            self.parent.mkdir(parents=True, exist_ok=True)
            self.mkdir(mode, parents=False, exist_ok=exist_ok)
        except OSError:
            if not exist_ok or not self.is_dir():
                raise
>>
    The recursion is on the length of the path ([n = length p]); the
    inner call with [parents=False] re-raises [FileNotFoundError]. *)
Fixpoint mkdir_parents (n : nat) (p : path) : st oserr fs unit :=
  try_except (os_mkdir p) (fun e =>
    match e with
    | FileNotFoundError _ =>
        match n with
        | O => raise e
        | S n' =>
            mkdir_parents n' (parent p) ;;
            try_except (os_mkdir p) (fun e2 =>
              match e2 with
              | FileNotFoundError _ => raise e2
              | _ => exist_ok_handler p e2
              end)
        end
    | _ => exist_ok_handler p e
    end).

Definition mkdir_p (p : path) : st oserr fs unit := mkdir_parents (length p) p.

(** [shutil.copy2(src, dst)]: [dst] inside a directory [dst]. *)
Definition copy_target (f : fs) (src dst : path) : path :=
  if is_dir f dst then dst ++ [base_name src] else dst.

(** [copyfile] refuses the same file, opens [src] for reading, then opens
    [dst] with mode ["wb"]: in a directory that exists, is a directory and
    is writable, on a path that is not a read-only file; the opening
    truncates [dst], and the data is written into it.  A write the device
    refuses raises [OSError] (ENOSPC) with [dst] holding what was written
    so far, stamped with the clock; otherwise [copystat] gives [dst] the
    modification time of [src].  Returns the path written. *)
Definition copy2 (src dst : path) : st oserr fs path := fun f =>
  let dst := copy_target f src dst in
  if bool_decide (src = dst) && path_exists f src then (f, Exc (SameFileError dst)) else
  match lookup_node f src with
  | None => (f, Exc (FileNotFoundError src))
  | Some NDir => (f, Exc (IsADirectoryError src))
  | Some (NFile d t) =>
      match lookup_node f dst with
      | Some NDir => (f, Exc (IsADirectoryError dst))
      | _ =>
          match lookup_node f (parent dst) with
          | None => (f, Exc (FileNotFoundError dst))
          | Some (NFile _ _) => (f, Exc (NotADirectoryError dst))
          | Some NDir =>
              if decide (parent dst ∈ fs_ro f) then (f, Exc (PermissionError dst))
              else if decide (dst ∈ fs_ro f) then (f, Exc (PermissionError dst))
              else match cota f dst with
                   | Some n =>
                       if decide (n < length d)
                       then (set_node dst (NFile (take n d) (fs_agora f)) f, Exc (NoSpaceError src dst))
                       else (set_node dst (NFile d t) f, Ok dst)
                   | None => (set_node dst (NFile d t) f, Ok dst)
                   end
          end
      end
  end.

(** ** Paths as the scripts build them

    [str(p)] of an absolute path: the root prints as ["/"]. *)
Definition show_path (p : path) : ustr :=
  match p with
  | [] => u "/"
  | _ => foldr (fun n acc => u "/" ++ n ++ acc) [] p
  end.

(** [str(e)] of the [OSError]s: [[Errno n] strerror: 'filename']. *)
Definition show_err (e : oserr) : ustr :=
  match e with
  | FileExistsError p => u "[Errno 17] File exists: '" ++ show_path p ++ u "'"
  | FileNotFoundError p => u "[Errno 2] No such file or directory: '" ++ show_path p ++ u "'"
  | NotADirectoryError p => u "[Errno 20] Not a directory: '" ++ show_path p ++ u "'"
  | IsADirectoryError p => u "[Errno 21] Is a directory: '" ++ show_path p ++ u "'"
  | PermissionError p => u "[Errno 13] Permission denied: '" ++ show_path p ++ u "'"
  | SameFileError p =>
      u "'" ++ show_path p ++ u "' and '" ++ show_path p ++ u "' are the same file"
  | NoSpaceError s d =>
      u "[Errno 28] No space left on device: '" ++ show_path s ++ u "' -> '" ++ show_path d ++ u "'"
  end.

(** A [pathlib.Path] value: absolute, or relative to the working directory
    the process was started in.  [Path(s)] of a string keeps its components
    ([Path("")] is [Path(".")], no component). *)
Record ppath := PPath { pp_abs : bool; pp_parts : list name }.

#[export] Instance ppath_eq_dec : EqDecision ppath.
Proof. solve_decision. Defined.

Definition py_path (s : ustr) : ppath := PPath (is_prefix (u "/") s) (path_parts s).

(** The absolute [Path] of a path of the file system. *)
Definition abs_path (p : path) : ppath := PPath true p.

(** The path a [Path] value names, for the working directory [cwd]. *)
Definition resolve (cwd : path) (p : ppath) : path :=
  if pp_abs p then pp_parts p else cwd ++ pp_parts p.

(** [str(p)]: ["."] for the empty relative path. *)
Definition show_ppath (p : ppath) : ustr :=
  if pp_abs p then show_path (pp_parts p) else
  match pp_parts p with
  | [] => u "."
  | n :: ns => n ++ flat_map (fun m => u "/" ++ m) ns
  end.

(** [p / rel] on a [Path] value: an absolute [rel] replaces [p]. *)
Definition pjoin (p : ppath) (rel : ustr) : ppath :=
  if is_prefix (u "/") rel then py_path rel else PPath (pp_abs p) (join (pp_parts p) rel).

(** ** Components that log

    The copier and the tree builder run on the file system together with
    the list of events passed so far to their [log] callback. *)
Section WithLog.
Context {L : Type}.

(** A component's state is the file system and what it keeps beside it:
    the events passed to its [log] callback, or the state of a window. *)
Definition on_fs {A} (m : st oserr fs A) : st oserr (fs * L) A :=
  fun '(f, l) => let '(f', r) := m f in ((f', l), r).

(** A query of the file system that may raise ([iterdir]). *)
Definition query {A} (g : fs -> outcome oserr A) : st oserr (fs * L) A :=
  fun '(f, l) => ((f, l), g f).

(** A query that cannot raise ([exists], [is_file]). *)
Definition read {A} (g : fs -> A) : st oserr (fs * L) A :=
  fun '(f, l) => ((f, l), Ok (g f)).

(** Reading and updating the state kept beside the file system. *)
Definition gets {A} (g : L -> A) : st oserr (fs * L) A :=
  fun '(f, l) => ((f, l), Ok (g l)).

Definition modify (h : L -> L) : st oserr (fs * L) unit :=
  fun '(f, l) => ((f, h l), Ok tt).

(** A predicate and a relation on the file system, lifted to the state of
    a component. *)
Definition on_fst (P : fs -> Prop) (s : fs * L) : Prop := P (fst s).
Definition fst_rel (R : relation fs) (s s' : fs * L) : Prop := R (fst s) (fst s').

#[export] Instance fst_rel_preorder R `{!PreOrder R} : PreOrder (fst_rel R).
Proof. unfold fst_rel. split; [intros ?; reflexivity | intros ???; apply transitivity]. Qed.
End WithLog.

(** [log(...)]: the event is appended to those already passed. *)
Definition emit {L} (e : L) : st oserr (fs * list L) unit :=
  fun '(f, l) => ((f, l ++ [e]), Ok tt).

(** A call [g(..., log=self._log)] of a logging component from a window
    whose [_log] is [sink]: the component runs with no event passed yet, and
    the window receives its events in order.  The component never reads the
    window, so passing the events after it has run is the same as passing
    each one when it is emitted; an exception that ends the component
    arrives after the events passed before it. *)
Definition run_logged {E G A} (sink : E -> G -> G) (m : st oserr (fs * list E) A)
    : st oserr (fs * G) A :=
  fun '(f, g) => let '((f', evs), r) := m (f, []) in ((f', fold_left (fun g e => sink e g) evs g), r).

(** ** Monotonicity *)

(** [f'] keeps every node of [f] (directory creation only adds). *)
Definition extends (f f' : fs) : Prop :=
  (forall q n, lookup_node f q = Some n -> lookup_node f' q = Some n) /\
  fs_ro f' = fs_ro f.

(** [f'] keeps every directory and every path of [f] (copies may rewrite
    files, never remove anything). *)
Definition keeps (f f' : fs) : Prop :=
  (forall q, lookup_node f q = Some NDir -> lookup_node f' q = Some NDir) /\
  (forall q, path_exists f q = true -> path_exists f' q = true) /\
  fs_ro f' = fs_ro f.

#[export] Instance extends_preorder : PreOrder extends.
Proof.
  split.
  - intros f. by split.
  - intros f1 f2 f3 [H12 R12] [H23 R23]. split; [auto|congruence].
Qed.

#[export] Instance keeps_preorder : PreOrder keeps.
Proof.
  split.
  - intros f. by split.
  - intros f1 f2 f3 (D12 & E12 & R12) (D23 & E23 & R23). split; [auto|split; [auto|congruence]].
Qed.

(** ** Well-formedness

    Paths are listed once, the root is not listed, and the parent of every
    listed path is a directory. *)
Definition wf (f : fs) : Prop :=
  NoDup (map fst (fs_entries f)) /\
  forall p n, In (p, n) (fs_entries f) -> p <> [] /\ lookup_node f (parent p) = Some NDir.

(** The same conditions, decided. *)
Definition wfb (f : fs) : bool :=
  bool_decide (NoDup (map fst (fs_entries f))) &&
  forallb (fun e => negb (bool_decide (e.1 = [])) &&
                    bool_decide (lookup_node f (parent e.1) = Some NDir)) (fs_entries f).

(** ** Lemmas on queries and updates *)

Lemma wfb_sound f : wfb f = true -> wf f.
Proof.
  unfold wfb. rewrite andb_true_iff, bool_decide_eq_true, forallb_forall.
  intros [Hnd Hall]. split; [done|]. intros p n Hin.
  apply Hall, andb_true_iff in Hin as [Hp Hpar]. simpl in *.
  apply negb_true_iff, bool_decide_eq_false in Hp. by apply bool_decide_eq_true in Hpar.
Qed.

Lemma assoc_upsert (p q : path) n l :
  assoc q (upsert p n l) = if decide (q = p) then Some n else assoc q l.
Proof.
  induction l as [|[r m] l IH]; simpl; [by case_decide|].
  repeat (case_decide; simpl); subst; try congruence; rewrite ?IH;
    repeat case_decide; congruence.
Qed.

Lemma lookup_set_node f p q n :
  p <> [] ->
  lookup_node (set_node p n f) q = if decide (q = p) then Some n else lookup_node f q.
Proof.
  intros Hp. unfold lookup_node, set_node. simpl.
  destruct q as [|x q]; [by case_decide|]. apply assoc_upsert.
Qed.

Lemma in_fst_upsert x p n l :
  In x (map fst (upsert p n l)) -> x = p \/ In x (map fst l).
Proof.
  induction l as [|[q m] l IH]; simpl; [naive_solver|].
  case_decide; simpl; [naive_solver|]. intros [?|Hx]; [naive_solver|].
  apply IH in Hx. naive_solver.
Qed.

Lemma NoDup_upsert p n l : NoDup (map fst l) -> NoDup (map fst (upsert p n l)).
Proof.
  induction l as [|[q m] l IH]; simpl; intros Hnd.
  - repeat constructor. by intros ?%elem_of_nil.
  - inversion Hnd as [|? ? Hq Hl]; subst.
    case_decide; simpl; subst; [by constructor|].
    constructor; [|auto]. rewrite list_elem_of_In in Hq |- *.
    intros [->|]%in_fst_upsert; auto.
Qed.

Lemma assoc_In p n l : assoc p l = Some n -> In (p, n) l.
Proof.
  induction l as [|[q m] l IH]; simpl; [done|].
  case_decide; [intros [=]; subst; by left | intros; right; auto].
Qed.

Lemma In_assoc p n l : NoDup (map fst l) -> In (p, n) l -> assoc p l = Some n.
Proof.
  induction l as [|[q m] l IH]; simpl; [done|].
  intros Hnd [[= -> ->] | Hin]; case_decide; subst; try done.
  - inversion Hnd as [|? ? Hnotin]; subst. exfalso. apply Hnotin.
    apply list_elem_of_In, in_map_iff. by exists (q, n).
  - inversion Hnd; auto.
Qed.

Lemma lookup_node_In f p n :
  p <> [] -> lookup_node f p = Some n -> In (p, n) (fs_entries f).
Proof. destruct p; [done|]. intros _. apply assoc_In. Qed.

Lemma In_upsert q m p n l :
  In (q, m) (upsert p n l) -> (q = p /\ m = n) \/ In (q, m) l.
Proof.
  induction l as [|[r k] l IH]; simpl; [naive_solver|].
  case_decide; simpl; [naive_solver|]. intros [Hx|Hx]; [naive_solver|].
  apply IH in Hx. naive_solver.
Qed.

Lemma parent_neq p : p <> [] -> parent p <> p.
Proof.
  intros Hp Heq. apply (f_equal length) in Heq. unfold parent in Heq.
  destruct (exists_last Hp) as (p' & x & ->).
  rewrite removelast_last, length_app in Heq. simpl in Heq. lia.
Qed.

(** Writing a node below a directory, at a path that is not itself a
    directory, keeps the file system well formed. *)
Lemma set_node_wf f p n :
  wf f -> p <> [] -> lookup_node f (parent p) = Some NDir ->
  lookup_node f p <> Some NDir ->
  wf (set_node p n f).
Proof.
  intros [Hnd Hpar] Hp Hpp Hnotdir. split; [by apply NoDup_upsert|].
  intros q m Hin. simpl in Hin. apply In_upsert in Hin as [[-> ->]|Hin].
  - split; [done|]. rewrite lookup_set_node by done.
    rewrite decide_False by (by apply parent_neq). done.
  - destruct (Hpar q m Hin) as [Hq Hqp]. split; [done|].
    rewrite lookup_set_node by done. case_decide as Heq; [|done].
    rewrite Heq in Hqp. contradiction.
Qed.

Lemma os_mkdir_wf p : preserves wf (os_mkdir p).
Proof.
  intros f Hf. unfold os_mkdir.
  destruct (lookup_node f p) as [n|] eqn:Hp; [done|].
  destruct (lookup_node f (parent p)) as [[|]|] eqn:Hpp; try done.
  case_decide; [done|]. simpl. apply set_node_wf; try done.
  - by intros ->.
  - by rewrite Hp.
Qed.

Lemma exist_ok_handler_wf p e : preserves wf (exist_ok_handler p e).
Proof. intros f Hf. unfold exist_ok_handler. by destruct (is_dir f p). Qed.

#[local] Hint Resolve os_mkdir_wf exist_ok_handler_wf : licita.

Lemma mkdir_parents_wf n p : preserves wf (mkdir_parents n p).
Proof.
  revert p. induction n as [|n IH]; intros p; simpl;
    (apply preserves_try; [auto with licita|]); intros []; auto with licita.
  apply preserves_bind; [apply IH|]. intros _.
  apply preserves_try; [auto with licita|]. intros []; auto with licita.
Qed.

(** [shutil.copy2] leaves the file system as it was, or has written one
    node at its target, which is not a directory and whose folder is. *)
Lemma copy2_writes src dst f :
  (copy2 src dst f).1 = f \/
  (lookup_node f (parent (copy_target f src dst)) = Some NDir /\
   lookup_node f (copy_target f src dst) <> Some NDir /\
   exists n, (copy2 src dst f).1 = set_node (copy_target f src dst) n f).
Proof.
  unfold copy2. cbv zeta. set (d := copy_target f src dst).
  destruct (bool_decide (src = d) && path_exists f src); [by left|].
  destruct (lookup_node f src) as [[|data t]|]; try by left.
  destruct (lookup_node f d) as [[|d' t']|] eqn:Hd; try (by left);
  destruct (lookup_node f (parent d)) as [[|]|] eqn:Hpd; try (by left);
  (case_decide; [by left|]); (case_decide; [by left|]);
  right; (split; [done|split; [done|]]);
  destruct (cota f d); try case_decide; by eexists.
Qed.

Lemma set_node_keeps f p n :
  lookup_node f p <> Some NDir -> keeps f (set_node p n f).
Proof.
  intros Hp. assert (Hne : p <> []) by (intros ->; done).
  split; [|split; [|done]]; intros q Hq; unfold path_exists in *;
    rewrite lookup_set_node by done; case_decide; subst; congruence.
Qed.

Lemma copy2_wf src dst : preserves wf (copy2 src dst).
Proof.
  intros f Hf. destruct (copy2_writes src dst f) as [->|(Hpar & Hnd & n & ->)]; [done|].
  apply set_node_wf; try done. by intros Hnil; rewrite Hnil in Hnd.
Qed.

Lemma extends_keeps f f' : extends f f' -> keeps f f'.
Proof.
  intros [H R]. split; [auto|split; [|done]].
  intros q. unfold path_exists. destruct (lookup_node f q) eqn:E; [|done].
  by rewrite (H _ _ E).
Qed.

Lemma os_mkdir_extends p : advances extends (os_mkdir p).
Proof.
  intros f. unfold os_mkdir.
  destruct (lookup_node f p) eqn:Hp; [reflexivity|].
  destruct (lookup_node f (parent p)) as [[|]|]; try reflexivity.
  case_decide; [reflexivity|]. simpl. split; [|done].
  intros q n Hq. assert (p <> []) by (intros ->; discriminate).
  rewrite lookup_set_node by done. case_decide; [subst; congruence|done].
Qed.

Lemma exist_ok_handler_extends p e : advances extends (exist_ok_handler p e).
Proof. intros f. unfold exist_ok_handler. destruct (is_dir f p); reflexivity. Qed.

#[local] Hint Resolve os_mkdir_extends exist_ok_handler_extends extends_preorder : licita.

Lemma mkdir_parents_extends n p : advances extends (mkdir_parents n p).
Proof.
  revert p. induction n as [|n IH]; intros p; simpl;
    (apply advances_try; [typeclasses eauto|auto with licita|]); intros []; auto with licita.
  apply advances_bind; [typeclasses eauto|apply IH|]. intros _.
  apply advances_try; [typeclasses eauto|auto with licita|]. intros []; auto with licita.
Qed.

Lemma copy2_keeps src dst : advances keeps (copy2 src dst).
Proof.
  intros f. destruct (copy2_writes src dst f) as [->|(_ & Hnd & n & ->)];
    [reflexivity|by apply set_node_keeps].
Qed.

(** ** Functional behaviour of [mkdir] *)

Lemma os_mkdir_ok p f f' :
  os_mkdir p f = (f', Ok tt) -> is_dir f' p = true.
Proof.
  unfold os_mkdir. destruct (lookup_node f p) eqn:Hp; [done|].
  destruct (lookup_node f (parent p)) as [[|]|]; try done.
  case_decide; [done|]. intros [= <-].
  unfold is_dir. rewrite lookup_set_node by (intros ->; discriminate).
  by rewrite decide_True.
Qed.

Lemma exist_ok_handler_ok p e f f' :
  exist_ok_handler p e f = (f', Ok tt) -> is_dir f' p = true.
Proof. unfold exist_ok_handler. destruct (is_dir f p) eqn:E; intros [=]; by subst. Qed.

(** [mkdir(parents=True, exist_ok=True)] returns normally only when the path
    is a directory afterwards. *)
Lemma mkdir_parents_ok n p f f' :
  mkdir_parents n p f = (f', Ok tt) -> is_dir f' p = true.
Proof.
  revert p f f'. induction n as [|n IH]; intros p f f'; simpl; unfold try_except;
    destruct (os_mkdir p f) as [f1 [[]|e]] eqn:E1; try (by apply os_mkdir_ok in E1; intros [= <-]);
    destruct e; try (by apply exist_ok_handler_ok); try (by intros [=]).
  unfold bind. destruct (mkdir_parents n (parent p) f1) as [f2 [[]|e2]]; [|by intros [=]].
  destruct (os_mkdir p f2) as [f3 [[]|e3]] eqn:E3; [by apply os_mkdir_ok in E3; intros [= <-]|].
  destruct e3; try (by apply exist_ok_handler_ok); by intros [=].
Qed.

(** On a path that already is a directory, [mkdir] changes nothing and
    returns normally. *)
Lemma mkdir_parents_existing n p f :
  is_dir f p = true -> mkdir_parents n p f = (f, Ok tt).
Proof.
  intros Hd. assert (Hex : exists n0, lookup_node f p = Some n0).
  { unfold is_dir in Hd. destruct (lookup_node f p); [eauto|done]. }
  destruct Hex as [n0 Hn0].
  destruct n; simpl; unfold try_except, os_mkdir; rewrite Hn0;
    unfold exist_ok_handler; by rewrite Hd.
Qed.

(** ** Functional behaviour of [shutil.copy2] *)

(** On its normal path: the target gets the contents and the modification
    time of the source. *)
Lemma copy2_file src dst f data t :
  lookup_node f src = Some (NFile data t) ->
  is_dir f dst = false ->
  src <> dst ->
  lookup_node f (parent dst) = Some NDir ->
  parent dst ∉ fs_ro f -> dst ∉ fs_ro f -> cabe f dst data = true ->
  copy2 src dst f = (set_node dst (NFile data t) f, Ok dst).
Proof.
  intros Hsrc Hdst Hne Hpar Hro Hro' Hc. unfold copy2, copy_target. rewrite Hdst.
  rewrite bool_decide_false by done. simpl. rewrite Hsrc.
  unfold cabe in Hc. destruct (lookup_node f dst) as [[|]|] eqn:Hd;
    [unfold is_dir in Hdst; by rewrite Hd in Hdst|..];
    rewrite Hpar, !decide_False by done;
    (destruct (cota f dst); [|done]); apply bool_decide_eq_true in Hc;
    by rewrite decide_False by lia.
Qed.

(** When the device refuses the write after [n] units: the target holds
    those [n] units, stamped with the clock, and [OSError] (ENOSPC) is
    raised. *)
Lemma copy2_no_space src dst f data t n :
  lookup_node f src = Some (NFile data t) ->
  is_dir f dst = false ->
  src <> dst ->
  lookup_node f (parent dst) = Some NDir ->
  parent dst ∉ fs_ro f -> dst ∉ fs_ro f -> cota f dst = Some n -> n < length data ->
  copy2 src dst f = (set_node dst (NFile (take n data) (fs_agora f)) f, Exc (NoSpaceError src dst)).
Proof.
  intros Hsrc Hdst Hne Hpar Hro Hro' Hc Hn. unfold copy2, copy_target. rewrite Hdst.
  rewrite bool_decide_false by done. simpl. rewrite Hsrc.
  destruct (lookup_node f dst) as [[|]|] eqn:Hd;
    [unfold is_dir in Hdst; by rewrite Hd in Hdst|..];
    by rewrite Hpar, !decide_False, Hc, decide_True.
Qed.

(** [shutil.copy2] that raises has changed nothing, or the device refused
    the write after [dst] was opened: the target then holds a proper prefix
    of the source's data (the empty one for a refusal at the first write),
    whatever it held before. *)
Lemma copy2_exc src dst f f' e : copy2 src dst f = (f', Exc e) ->
  f' = f \/ exists d t n, lookup_node f src = Some (NFile d t) /\ n < length d /\
    cota f (copy_target f src dst) = Some n /\
    f' = set_node (copy_target f src dst) (NFile (take n d) (fs_agora f)) f.
Proof.
  unfold copy2. cbv zeta. set (d := copy_target f src dst).
  destruct (bool_decide (src = d) && path_exists f src); [intros [=]; by left|].
  destruct (lookup_node f src) as [[|data t]|] eqn:Hsrc; try (intros [=]; by left).
  destruct (lookup_node f d) as [[|]|]; try (intros [=]; by left);
  destruct (lookup_node f (parent d)) as [[|]|]; try (intros [=]; by left);
  (case_decide; [intros [=]; by left|]); (case_decide; [intros [=]; by left|]);
  destruct (cota f d) as [n|] eqn:Hc; try case_decide; intros [=]; right; by eexists _, _, n.
Qed.

(** A folder where every file can be created or rewritten in full: it is
    not read-only, and no file in it is read-only or has a write limit. *)
Definition gravavel (f : fs) (dir : path) : Prop :=
  dir ∉ fs_ro f /\ forall p, parent p = dir -> p ∉ fs_ro f /\ cota f p = None.

Lemma gravavel_file f dir p d :
  gravavel f dir -> parent p = dir -> p ∉ fs_ro f /\ cabe f p d = true.
Proof. intros [_ H] Hp. destruct (H p Hp) as [Hro Hc]. unfold cabe. by rewrite Hc. Qed.

Lemma gravavel_mkFs es dir : gravavel (mkFs es []) dir.
Proof. split; [apply not_elem_of_nil|]. intros p _. split; [apply not_elem_of_nil|done]. Qed.

Lemma is_dir_lookup f p : is_dir f p = true -> lookup_node f p = Some NDir.
Proof. unfold is_dir. by destruct (lookup_node f p) as [[|]|]. Qed.

Lemma parent_snoc p x : parent (p ++ [x]) = p.
Proof. apply removelast_last. Qed.

Lemma base_name_snoc p x : base_name (p ++ [x]) = x.
Proof. apply last_last. Qed.

Lemma exists_lookup f p : path_exists f p = false -> lookup_node f p = None.
Proof. unfold path_exists. by destruct (lookup_node f p). Qed.

(** ** Listing *)

Lemma iterdir_spec f p cs c :
  iterdir f p = Ok cs ->
  In c cs <-> c <> [] /\ parent c = p /\ In c (map fst (fs_entries f)).
Proof.
  unfold iterdir. destruct (lookup_node f p) as [[|]|]; intros [= <-].
  rewrite filter_In. unfold is_child_of. rewrite bool_decide_eq_true. tauto.
Qed.

Lemma child_path c p : c <> [] -> parent c = p -> c = p ++ [base_name c].
Proof. intros Hc <-. unfold parent, base_name. by apply app_removelast_last. Qed.

Lemma is_dir_listed f c : c <> [] -> is_dir f c = true -> In c (map fst (fs_entries f)).
Proof.
  intros Hc Hd. unfold is_dir in Hd.
  destruct (lookup_node f c) as [n|] eqn:E; [|done].
  apply lookup_node_In in E; [|done]. apply in_map_iff. by exists (c, n).
Qed.

Lemma mkdir_p_wf p : preserves wf (mkdir_p p).
Proof. apply mkdir_parents_wf. Qed.

Lemma mkdir_p_keeps p : advances keeps (mkdir_p p).
Proof. intros f. apply extends_keeps, mkdir_parents_extends. Qed.

(** ** What [mkdir] touches and when it succeeds *)

(** [f'] keeps every node of [f] and adds only directories. *)
Definition adds_dirs (f f' : fs) : Prop :=
  extends f f' /\ forall q n, lookup_node f' q = Some n -> lookup_node f q = None -> n = NDir.

#[export] Instance adds_dirs_preorder : PreOrder adds_dirs.
Proof.
  split.
  - intros f. split; [reflexivity|]. intros q n H1 H2. congruence.
  - intros f1 f2 f3 [E12 D12] [E23 D23]. split; [by etrans|].
    intros q n H3 H1. destruct (lookup_node f2 q) as [m|] eqn:H2; [|by eapply D23].
    pose proof (D12 q m H2 H1) as ->. apply E23 in H2. congruence.
Qed.

Lemma parent_prefix p : parent p `prefix_of` p.
Proof.
  destruct p as [|x p] using rev_ind; [done|]. rewrite parent_snoc. by exists [x].
Qed.

Lemma os_mkdir_frame p q c : q <> p -> preserves (fun f => lookup_node f q = c) (os_mkdir p).
Proof.
  intros Hq f Hf. unfold os_mkdir. destruct (lookup_node f p) eqn:Hp; [done|].
  assert (p <> []) by (intros ->; discriminate).
  destruct (lookup_node f (parent p)) as [[|]|]; try done. case_decide; [done|].
  simpl. rewrite lookup_set_node by done. by rewrite decide_False.
Qed.

Lemma exist_ok_handler_preserves P p e : preserves P (exist_ok_handler p e).
Proof. intros f Hf. unfold exist_ok_handler. by destruct (is_dir f p). Qed.

Lemma exist_ok_handler_adds p e : advances adds_dirs (exist_ok_handler p e).
Proof. intros f. unfold exist_ok_handler. destruct (is_dir f p); simpl; reflexivity. Qed.

Lemma os_mkdir_adds p : advances adds_dirs (os_mkdir p).
Proof.
  intros f. split; [apply os_mkdir_extends|]. unfold os_mkdir.
  destruct (lookup_node f p) eqn:Hp; [simpl; congruence|].
  assert (p <> []) by (intros ->; discriminate).
  destruct (lookup_node f (parent p)) as [[|]|]; simpl; try congruence.
  case_decide; simpl; [congruence|]. intros q n. rewrite lookup_set_node by done.
  case_decide; congruence.
Qed.

#[local] Hint Resolve exist_ok_handler_preserves exist_ok_handler_adds os_mkdir_adds
  adds_dirs_preorder : licita.

(** [mkdir(p, parents=True)] changes no path that is not a prefix of [p]. *)
Lemma mkdir_parents_frame n p q c :
  ~ q `prefix_of` p -> preserves (fun f => lookup_node f q = c) (mkdir_parents n p).
Proof.
  revert p. induction n as [|n IH]; intros p Hq; simpl; mono;
    try (apply os_mkdir_frame; intros ->; by apply Hq).
  apply IH. intros Hp. apply Hq. etrans; [done|apply parent_prefix].
Qed.

Lemma mkdir_parents_adds n p : advances adds_dirs (mkdir_parents n p).
Proof. revert p. induction n; intros p; simpl; mono. Qed.

Lemma adds_dirs_file f f' q d t :
  adds_dirs f f' -> lookup_node f' q = Some (NFile d t) -> lookup_node f q = Some (NFile d t).
Proof.
  intros [[E R] D] H. destruct (lookup_node f q) as [m|] eqn:Hq.
  - apply E in Hq. congruence.
  - by pose proof (D q _ H Hq).
Qed.

(** No prefix of [p] is a file or a read-only directory. *)
Definition mkdir_clear (f : fs) (p : path) : Prop :=
  forall q, q `prefix_of` p -> (forall d t, lookup_node f q <> Some (NFile d t)) /\ q ∉ fs_ro f.

Lemma mkdir_clear_adds f f' p : adds_dirs f f' -> mkdir_clear f p -> mkdir_clear f' p.
Proof.
  intros Ha Hc q Hq. destruct (Hc q Hq) as [Hf Hr]. destruct Ha as [[E R] D]. split.
  - intros d t Hl. apply (Hf d t). by eapply adds_dirs_file; [split; [split|]|].
  - by rewrite R.
Qed.

Lemma length_parent p : length (parent p) = length p - 1.
Proof. unfold parent. destruct p as [|x p] using rev_ind; [done|]. rewrite removelast_last, length_app. simpl. lia. Qed.

Lemma prefix_length_eq (p q : path) : p `prefix_of` q -> length q <= length p -> p = q.
Proof. intros [r ->] Hl. rewrite length_app in Hl. destruct r; [by rewrite app_nil_r|simpl in Hl; lia]. Qed.

Lemma mkdir_clear_below f p : mkdir_clear f p -> below_file f p = false.
Proof.
  intros Hc. unfold below_file. apply not_true_iff_false. rewrite existsb_exists.
  intros (k & _ & Hk). unfold is_file in Hk.
  destruct (lookup_node f (take k p)) as [[|d t]|] eqn:E; try done.
  by apply (proj1 (Hc (take k p) (prefix_take p k)) d t).
Qed.

(** [mkdir(parents=True, exist_ok=True)] returns normally when no prefix of
    the path is a file or a read-only directory. *)
Lemma mkdir_parents_success n p f :
  length p <= n -> mkdir_clear f p -> exists f', mkdir_parents n p f = (f', Ok tt).
Proof.
  revert p f. induction n as [|n IH]; intros p f Hn Hc.
  - destruct p; [|simpl in Hn; lia]. exists f. by apply mkdir_parents_existing.
  - destruct (lookup_node f p) as [[|d t]|] eqn:Hp.
    + exists f. apply mkdir_parents_existing. unfold is_dir. by rewrite Hp.
    + exfalso. by apply (proj1 (Hc p ltac:(done)) d t).
    + assert (Hp0 : p <> []) by (intros ->; discriminate).
      destruct (Hc (parent p) (parent_prefix p)) as [Hpf Hpr].
      simpl. unfold try_except at 1. unfold os_mkdir at 1. rewrite Hp.
      destruct (lookup_node f (parent p)) as [[|d t]|] eqn:Hpar;
        [rewrite decide_False by done; by eexists | by destruct (Hpf d t) |].
      rewrite (mkdir_clear_below f p Hc).
      destruct (IH (parent p) f) as [f2 E2].
      { rewrite length_parent. lia. }
      { intros q Hq. apply Hc. etrans; [done|apply parent_prefix]. }
      unfold bind. rewrite E2.
      pose proof (mkdir_parents_ok _ _ _ _ E2) as Hd2.
      pose proof (mkdir_parents_adds n (parent p) f) as Ha. rewrite E2 in Ha. simpl in Ha.
      assert (Hp2 : lookup_node f2 p = None).
      { pose proof (mkdir_parents_frame n (parent p) p None) as Hfr.
        specialize (Hfr ltac:(intros Hpre; apply prefix_length_eq in Hpre;
                               [by apply (parent_neq p)| rewrite length_parent; lia]) f Hp).
        by rewrite E2 in Hfr. }
      unfold try_except, os_mkdir. rewrite Hp2, (is_dir_lookup _ _ Hd2).
      destruct Ha as [[_ ->] _]. rewrite decide_False by done. by eexists.
Qed.

Lemma mkdir_p_success p f :
  mkdir_clear f p -> exists f', mkdir_p p f = (f', Ok tt) /\ is_dir f' p = true /\ adds_dirs f f'.
Proof.
  intros Hc. destruct (mkdir_parents_success (length p) p f) as [f' E]; [done|done|].
  exists f'. unfold mkdir_p. rewrite E. split; [done|]. split; [by eapply mkdir_parents_ok|].
  pose proof (mkdir_parents_adds (length p) p f) as Ha. by rewrite E in Ha.
Qed.

(** Below a file nothing is listed (in a well-formed file system). *)
Lemma lookup_under_file f b d t r :
  wf f -> lookup_node f b = Some (NFile d t) -> r <> [] -> lookup_node f (b ++ r) = None.
Proof.
  intros [Hnd Hwf] Hb. induction r as [|x r IH] using rev_ind; [done|]. intros _.
  destruct (lookup_node f (b ++ r ++ [x])) as [n|] eqn:E; [|done]. exfalso.
  assert (Hne : b ++ r ++ [x] <> []) by (destruct b; discriminate).
  destruct (Hwf _ _ (lookup_node_In _ _ _ Hne E)) as [_ Hpar].
  rewrite app_assoc, parent_snoc in Hpar. destruct r as [|y r].
  - rewrite app_nil_r in Hpar. congruence.
  - rewrite IH in Hpar; [discriminate|done].
Qed.

Lemma below_file_prefix f b d t r :
  lookup_node f b = Some (NFile d t) -> r <> [] -> below_file f (b ++ r) = true.
Proof.
  intros Hb Hr. unfold below_file. apply existsb_exists. exists (length b). split.
  - apply in_seq. rewrite length_app. destruct r; [done|simpl; lia].
  - rewrite take_app_length. unfold is_file. by rewrite Hb.
Qed.

(** [os.mkdir] of a path below a file raises [NotADirectoryError] and
    changes nothing. *)
Lemma os_mkdir_under_file f b d t r :
  wf f -> lookup_node f b = Some (NFile d t) -> r <> [] ->
  os_mkdir (b ++ r) f = (f, Exc (NotADirectoryError (b ++ r))).
Proof.
  intros Hwf Hb Hr. unfold os_mkdir. rewrite (lookup_under_file f b d t r Hwf Hb Hr).
  destruct r as [|x r _] using rev_ind; [done|]. rewrite app_assoc, parent_snoc.
  destruct r as [|y r]; [by rewrite app_nil_r, Hb|].
  rewrite (lookup_under_file f b d t) by done. by rewrite <- app_assoc, (below_file_prefix f b d t).
Qed.

(** [mkdir(parents=True, exist_ok=True)] of a path below a file raises and
    changes nothing. *)
Lemma mkdir_parents_under_file n f b d t r :
  wf f -> lookup_node f b = Some (NFile d t) -> r <> [] ->
  exists e, mkdir_parents n (b ++ r) f = (f, Exc e).
Proof.
  intros Hwf Hb Hr. pose proof (lookup_under_file f b d t r Hwf Hb Hr) as Hl.
  destruct n; cbn [mkdir_parents]; unfold try_except; rewrite (os_mkdir_under_file f b d t r) by done;
    unfold exist_ok_handler, is_dir; rewrite Hl; by eexists.
Qed.

(** [mkdir(parents=True, exist_ok=True)] of a path at or below a file
    raises and changes nothing. *)
Lemma mkdir_p_blocked f p b d t :
  wf f -> b `prefix_of` p -> lookup_node f b = Some (NFile d t) -> exists e, mkdir_p p f = (f, Exc e).
Proof.
  intros Hwf [r ->] Hb. unfold mkdir_p. destruct r as [|x r]; [|by apply (mkdir_parents_under_file _ f b d t)].
  rewrite app_nil_r. destruct (length b); cbn [mkdir_parents]; unfold try_except, os_mkdir; rewrite Hb;
    unfold exist_ok_handler, is_dir; rewrite Hb; by eexists.
Qed.

(** [mkdir_clear], decided: the prefixes of [p] are [take k p]. *)
Definition mkdir_clearb (f : fs) (p : path) : bool :=
  forallb (fun k => negb (is_file f (take k p)) && negb (bool_decide (take k p ∈ fs_ro f)))
    (seq 0 (S (length p))).

Lemma mkdir_clearb_sound f p : mkdir_clearb f p = true -> mkdir_clear f p.
Proof.
  unfold mkdir_clearb. rewrite forallb_forall. intros H q [r ->].
  assert (Hk : In (length q) (seq 0 (S (length (q ++ r))))).
  { apply in_seq. rewrite length_app. lia. }
  apply H, andb_true_iff in Hk as [Hf Hr]. rewrite take_app_length in Hf, Hr.
  apply negb_true_iff in Hf, Hr. apply bool_decide_eq_false in Hr. split; [|done].
  intros d t E. unfold is_file in Hf. by rewrite E in Hf.
Qed.

Lemma forallb_mkdir_clear f ps :
  forallb (mkdir_clearb f) ps = true -> Forall (fun p => mkdir_clear f p) ps.
Proof. rewrite forallb_forall, Forall_forall. intros H p Hp. apply mkdir_clearb_sound, H, list_elem_of_In, Hp. Qed.

(** ** Properties *)

(** [mkdir(parents=True, exist_ok=True)] that returns normally leaves a
    directory at the path, and a second call changes nothing and returns
    normally (idempotence). *)
Theorem mkdir_p_postcondition p f f' :
  mkdir_p p f = (f', Ok tt) -> is_dir f' p = true /\ mkdir_p p f' = (f', Ok tt).
Proof.
  intros H. apply mkdir_parents_ok in H. split; [done|]. by apply mkdir_parents_existing.
Qed.

Lemma mkdir_p_postcondition_witness :
  let f0 := mkFs [([u "a"], NDir)] [] in
  let p := [u "a"; u "b"; u "c"] in
  is_dir (fst (mkdir_p p f0)) p = true /\
  mkdir_p p (fst (mkdir_p p f0)) = (fst (mkdir_p p f0), Ok tt).
Proof.
  apply (mkdir_p_postcondition [u "a"; u "b"; u "c"] (mkFs [([u "a"], NDir)] [])).
  vm_compute. reflexivity.
Defined.

(** [mkdir(parents=True, exist_ok=True)] and [shutil.copy2] keep the
    file system well formed, whether they return or raise. *)
Theorem fs_ops_preserve_wf f p src dst :
  wf f -> wf (fst (mkdir_p p f)) /\ wf (fst (copy2 src dst f)).
Proof. intros Hf. split; [by apply mkdir_parents_wf | by apply copy2_wf]. Qed.

Lemma fs_ops_preserve_wf_witness :
  let f0 := mkFs [([u "a"], NDir); ([u "a"; u "x"], NFile (u "1") 0%Z)] [] in
  wf (fst (mkdir_p [u "a"; u "b"] f0)) /\ wf (fst (copy2 [u "a"; u "x"] [u "a"; u "y"] f0)).
Proof.
  apply (fs_ops_preserve_wf (mkFs [([u "a"], NDir); ([u "a"; u "x"], NFile (u "1") 0%Z)] [])).
  apply wfb_sound. vm_compute. reflexivity.
Defined.

(** ** What the operations leave alone *)

Lemma copy_target_prefix f src dst : dst `prefix_of` copy_target f src dst.
Proof. unfold copy_target. destruct (is_dir f dst); [by eexists|done]. Qed.

Lemma join_prefix p rel : p `prefix_of` join p rel.
Proof. by eexists. Qed.

(** [shutil.copy2] into [dst] leaves every path that is not below [dst]
    as it was. *)
Lemma copy2_frame src dst q c :
  ~ dst `prefix_of` q -> preserves (fun f => lookup_node f q = c) (copy2 src dst).
Proof.
  intros Hq f Hf. destruct (copy2_writes src dst f) as [->|(_ & Hnd & m & ->)]; [done|].
  rewrite lookup_set_node by (intros Hnil; by rewrite Hnil in Hnd).
  rewrite decide_False; [done|]. intros ->. apply Hq, copy_target_prefix.
Qed.

(** [mkdir] keeps every node. *)
Lemma mkdir_p_node p q n : preserves (fun f => lookup_node f q = Some n) (mkdir_p p).
Proof. intros f Hf. by apply (proj1 (mkdir_parents_extends (length p) p f)). Qed.

(** ** Lifting to the logging components *)

Section LiftLog.
Context {L : Type}.

Lemma on_fs_preserves {A} (P : fs -> Prop) (m : st oserr fs A) :
  preserves P m -> preserves (@on_fst L P) (on_fs m).
Proof.
  intros Hm [f l] Hf. unfold on_fst in *; simpl in *. specialize (Hm f Hf).
  destruct (m f) as [f' r]. done.
Qed.

Lemma on_fs_advances {A} (R : relation fs) (m : st oserr fs A) :
  advances R m -> advances (@fst_rel L R) (on_fs m).
Proof.
  intros Hm [f l]. unfold fst_rel. simpl. specialize (Hm f). destruct (m f) as [f' r]. done.
Qed.

Lemma query_preserves {A} P (g : fs -> outcome oserr A) :
  preserves (@on_fst L P) (query g).
Proof. by intros [f l]. Qed.

Lemma read_preserves {A} P (g : fs -> A) :
  preserves (@on_fst L P) (read g).
Proof. by intros [f l]. Qed.

Lemma emit_preserves P (e : L) :
  preserves (@on_fst (list L) P) (emit e).
Proof. by intros [f l]. Qed.

Lemma query_advances {A} R `{!Reflexive R} (g : fs -> outcome oserr A) :
  advances (@fst_rel L R) (query g).
Proof. intros [f l]. unfold fst_rel. simpl. reflexivity. Qed.

Lemma read_advances {A} R `{!Reflexive R} (g : fs -> A) :
  advances (@fst_rel L R) (read g).
Proof. intros [f l]. unfold fst_rel. simpl. reflexivity. Qed.

Lemma emit_advances R `{!Reflexive R} (e : L) :
  advances (@fst_rel (list L) R) (emit e).
Proof. intros [f l]. unfold fst_rel. simpl. reflexivity. Qed.

End LiftLog.

#[export] Hint Resolve on_fs_preserves on_fs_advances query_preserves read_preserves
  emit_preserves query_advances read_advances emit_advances
  os_mkdir_wf mkdir_parents_wf copy2_wf mkdir_parents_extends copy2_keeps extends_keeps
  mkdir_p_wf mkdir_p_keeps keeps_preorder extends_preorder fst_rel_preorder : licita.
#[export] Hint Extern 2 (advances _ (read _)) =>
  simple apply read_advances; typeclasses eauto : licita.
#[export] Hint Extern 2 (advances _ (query _)) =>
  simple apply query_advances; typeclasses eauto : licita.
#[export] Hint Extern 2 (advances _ (emit _)) =>
  simple apply emit_advances; typeclasses eauto : licita.

End FileSystem.
