(* ===== verification/Resolver.v ===== *)
(** * PathResolver: listing, fuzzy sub-folder resolution, month folder

    [src/LicitagovLicitacaoMesApp.py]: [_listar_subdirs] (lines 110-111),
    [_resolver_subpasta_flex] (lines 113-129) and [resolver_pasta_mes]
    (lines 90-101); the copies in [LicitagovLicitacaoMesApp_UI.py] (lines
    147-162, 182-215) and [docket.py] (lines 141-183) are the same code,
    except that [_resolver_subpasta_flex] of the Mes and Docket copies
    lists the directory twice, once per loop ([resolve_parts_mes]), and the
    UI copy once ([resolve_parts]); nothing changes the file system in
    between, so the two agree ([resolve_parts_mes_eq]), and the theorems
    are stated of [resolve_parts]. *)

From Stdlib Require Import ZArith Lia.
From Stdlib Require Import Strings.String.
From stdpp Require Import base list sets sorting.
From S2P Require Import Prelude Normalize Fs.
Import NameNormalizer FileSystem.

Local Open Scope py_scope.

Module PathResolver.

(** [sorted(..., key=lambda x: x.name)]: the order of the names. *)
Definition by_name (p q : path) : Prop := ustr_le (base_name p) (base_name q).

#[export] Instance by_name_dec : RelDecision by_name.
Proof. intros p q. unfold by_name. apply _. Defined.

(** [_listar_subdirs(p)]:
    [sorted([c for c in p.iterdir() if c.is_dir()], key=lambda x: x.name)]. *)
Definition _listar_subdirs (f : fs) (p : path) : outcome oserr (list path) :=
  match iterdir f p with
  | Ok cs => Ok (merge_sort by_name (List.filter (is_dir f) cs))
  | Exc e => Exc e
  end.

(** The two tests of [_resolver_subpasta_flex] on a candidate [c] for the
    normalised segment [alvo]. *)
Definition exact_match (alvo : ustr) (c : path) : bool :=
  bool_decide (_normalize_token (base_name c) = alvo).

Definition loose_match (alvo : ustr) (c : path) : bool :=
  let n := _normalize_token (base_name c) in is_substr alvo n || is_substr n alvo.

(** The loop of [_resolver_subpasta_flex] over the remaining segments, as
    the UI copy writes it: [candidatos = _listar_subdirs(current)], exact
    match first, then containment in either direction, first candidate in
    name order; [None] as soon as a segment has no candidate.
    [_listar_subdirs] raising propagates. *)
Fixpoint resolve_parts (f : fs) (current : path) (parts : list name)
    : outcome oserr (option path) :=
  match parts with
  | [] => Ok (Some current)
  | part :: rest =>
      let alvo := _normalize_token part in
      match _listar_subdirs f current with
      | Exc e => Exc e
      | Ok cands =>
          match List.find (exact_match alvo) cands with
          | Some c => resolve_parts f c rest
          | None =>
              match List.find (loose_match alvo) cands with
              | Some c => resolve_parts f c rest
              | None => Ok None
              end
          end
      end
  end.

(** The same loop as the Mes and Docket copies write it: each of the two
    inner loops calls [_listar_subdirs(current)] again. *)
Fixpoint resolve_parts_mes (f : fs) (current : path) (parts : list name)
    : outcome oserr (option path) :=
  match parts with
  | [] => Ok (Some current)
  | part :: rest =>
      let alvo := _normalize_token part in
      match _listar_subdirs f current with
      | Exc e => Exc e
      | Ok cands =>
          match List.find (exact_match alvo) cands with
          | Some c => resolve_parts_mes f c rest
          | None =>
              match _listar_subdirs f current with
              | Exc e => Exc e
              | Ok cands' =>
                  match List.find (loose_match alvo) cands' with
                  | Some c => resolve_parts_mes f c rest
                  | None => Ok None
                  end
              end
          end
      end
  end.

(** [_resolver_subpasta_flex(model_root, rel_path)] of the Mes and Docket
    windows. *)
Definition _resolver_subpasta_flex (f : fs) (model_root : path) (rel_path : ustr)
    : outcome oserr (option path) :=
  resolve_parts_mes f model_root (path_parts rel_path).

(** [_resolver_subpasta_flex(model_root, rel_path)] of the UI window. *)
Definition _resolver_subpasta_flex_ui (f : fs) (model_root : path) (rel_path : ustr)
    : outcome oserr (option path) :=
  resolve_parts f model_root (path_parts rel_path).

(** The month text of [resolver_pasta_mes]:
    [mes_escolhido.split(".")[1].strip()], or the whole label when the split
    has no second element ([IndexError] caught). *)
Definition mes_texto (mes_escolhido : ustr) : ustr :=
  match py_split 46 mes_escolhido with
  | _ :: t :: _ => py_strip t
  | _ => mes_escolhido
  end.

(** [resolver_pasta_mes(base_participar, mes_escolhido)]: the first
    sub-directory, in listing order, whose token contains the month token;
    otherwise [base / mes_escolhido] is created with its parents. *)
Definition resolver_pasta_mes (base_participar : path) (mes_escolhido : ustr)
    : st oserr fs path :=
  let token := _normalize_token (mes_texto mes_escolhido) in
  cs <- (fun f => (f, iterdir f base_participar)) ;;
  found <- (fun f => (f, Ok (List.find (fun c => is_dir f c &&
                             is_substr token (_normalize_token (base_name c))) cs))) ;;
  match found with
  | Some c => ret c
  | None =>
      let pasta := join base_participar mes_escolhido in
      mkdir_p pasta ;; ret pasta
  end.

(** Example file systems of the witnesses: a template folder [T] and the
    folder [P] of the month variants ([01. Participar]). *)
Definition ex_template : fs := mkFs
  [([u "T"], NDir);
   ([u "T"; u "0. OUTROS"], NDir);
   ([u "T"; u "3 EDITAVEIS"], NDir);
   ([u "T"; u "3 EDITAVEIS"; u "1 DECLARACOES"], NDir);
   ([u "T"; u "3 EDITAVEIS"; u "2 PROPOSTAS"], NDir);
   ([u "T"; u "3 EDITAVEIS"; u "1 DECLARACOES"; u "decl.docx"], NFile (u "modelo") 1%Z)] [].

Definition ex_participar : fs := mkFs
  [([u "P"], NDir);
   ([u "P"; u "Docket"], NDir);
   ([u "P"; u "2.FEVEREIRO"], NDir);
   ([u "P"; u "app.py"], NFile [] 0%Z)] [].

(** ** Lemmas *)

#[export] Instance by_name_total : Total by_name.
Proof. intros p q. apply ustr_leb_total. Qed.

#[export] Instance by_name_trans : Transitive by_name.
Proof. intros p q r. apply ustr_leb_trans. Qed.

(** A segment matches a name when the tokens are equal or one contains the
    other. *)
Definition seg_match (part n : name) : Prop :=
  let a := _normalize_token part in
  let b := _normalize_token n in
  a = b \/ is_substr a b = true \/ is_substr b a = true.

Lemma listar_subdirs_mem f p l c :
  _listar_subdirs f p = Ok l ->
  In c l <-> c <> [] /\ parent c = p /\ is_dir f c = true.
Proof.
  unfold _listar_subdirs. destruct (iterdir f p) as [cs|e] eqn:Hit; intros [= <-].
  split.
  - intros Hin. apply (Permutation_in _ (merge_sort_Permutation _ _)) in Hin.
    apply filter_In in Hin as [Hin Hd]. apply (iterdir_spec _ _ _ _ Hit) in Hin. tauto.
  - intros (Hc & Hp & Hd).
    apply (Permutation_in _ (Permutation_sym (merge_sort_Permutation _ _))).
    apply filter_In. split; [|done]. apply (iterdir_spec _ _ _ _ Hit).
    split; [done|split; [done|]]. by apply is_dir_listed.
Qed.

Lemma listar_subdirs_child f p l c :
  _listar_subdirs f p = Ok l -> In c l -> c = p ++ [base_name c] /\ is_dir f c = true.
Proof.
  intros Hl Hin. apply (listar_subdirs_mem _ _ _ _ Hl) in Hin as (Hc & Hp & Hd).
  split; [by apply child_path|done].
Qed.

Lemma find_match_seg alvo_part cands c :
  (List.find (exact_match (_normalize_token alvo_part)) cands = Some c \/
   (List.find (exact_match (_normalize_token alvo_part)) cands = None /\
    List.find (loose_match (_normalize_token alvo_part)) cands = Some c)) ->
  In c cands /\ seg_match alvo_part (base_name c).
Proof.
  intros [Hf|[_ Hf]]; apply find_some in Hf as [Hin Hm]; (split; [done|]);
    unfold exact_match, loose_match, seg_match in *.
  - left. by apply bool_decide_eq_true in Hm.
  - right. by apply orb_true_iff in Hm.
Qed.

(** The resolved folder is reached by one step per segment, each step to a
    sub-directory whose name matches the segment. *)
(** Listing twice is listing once: the file system does not change in
    between. *)
Lemma resolve_parts_mes_eq f cur parts : resolve_parts_mes f cur parts = resolve_parts f cur parts.
Proof.
  revert cur. induction parts as [|part rest IH]; intros cur; [done|]. simpl.
  destruct (_listar_subdirs f cur) as [cands|e]; [|done].
  repeat case_match; auto.
Qed.

Lemma resolver_subpasta_flex_ui_eq f r p : _resolver_subpasta_flex_ui f r p = _resolver_subpasta_flex f r p.
Proof. unfold _resolver_subpasta_flex_ui, _resolver_subpasta_flex. by rewrite resolve_parts_mes_eq. Qed.

Lemma resolve_parts_sound f cur parts p :
  resolve_parts f cur parts = Ok (Some p) ->
  exists names, p = cur ++ names /\ Forall2 seg_match parts names /\
    (parts <> [] -> is_dir f p = true).
Proof.
  revert cur. induction parts as [|part rest IH]; intros cur; simpl.
  - intros [= <-]. exists []. rewrite app_nil_r. by repeat split.
  - destruct (_listar_subdirs f cur) as [cands|e] eqn:Hl; [|done].
    destruct (List.find (exact_match _) cands) as [c|] eqn:He;
      [|destruct (List.find (loose_match _) cands) as [c|] eqn:Hlo; [|done]];
    intros Hr;
    (destruct (find_match_seg part cands c) as [Hin Hm]; [by auto|]);
    destruct (listar_subdirs_child _ _ _ _ Hl Hin) as [Hc Hdir];
    destruct (IH c Hr) as (names & -> & Hf & Hd);
    exists (base_name c :: names);
    (split; [rewrite Hc at 1; by rewrite <- app_assoc|]);
    (split; [by constructor|]);
    intros _; (destruct rest; [inversion Hf; subst; by rewrite app_nil_r | by apply Hd]).
Qed.

(** ** Properties *)

(** [_listar_subdirs] returns the sub-directories of the folder, all of
    them and nothing else, sorted by name. *)
Theorem listar_subdirs_sorted_exact f p l :
  _listar_subdirs f p = Ok l ->
  Sorted by_name l /\ (forall c, In c l <-> c <> [] /\ parent c = p /\ is_dir f c = true).
Proof.
  intros Hl. split; [|by intros c; apply listar_subdirs_mem].
  revert Hl. unfold _listar_subdirs. destruct (iterdir f p); intros [= <-].
  apply Sorted_merge_sort, _.
Qed.

Lemma listar_subdirs_sorted_exact_witness :
  let l := [[u "T"; u "0. OUTROS"]; [u "T"; u "3 EDITAVEIS"]] in
  Sorted by_name l /\
  (forall c, In c l <-> c <> [] /\ parent c = [u "T"] /\ is_dir ex_template c = true).
Proof. apply (listar_subdirs_sorted_exact ex_template [u "T"]). vm_compute. reflexivity. Defined.

(** C12: fuzzy resolution ([_resolver_subpasta_flex]'s loop) that succeeds
    descends exactly one directory level per segment, and the name taken
    at each level matches its segment: the normalised tokens are equal or
    one contains the other.  The result is a directory. *)
Theorem resolve_parts_sound_dir f cur parts p :
  resolve_parts f cur parts = Ok (Some p) ->
  exists names, p = cur ++ names /\ length names = length parts /\
    Forall2 seg_match parts names /\ (parts <> [] -> is_dir f p = true).
Proof.
  intros Hr. destruct (resolve_parts_sound _ _ _ _ Hr) as (names & Hp & Hf & Hd).
  exists names. split; [done|]. split; [|done]. symmetry. by eapply Forall2_length.
Qed.

Lemma resolve_parts_sound_dir_witness :
  exists names, [u "T"; u "3 EDITAVEIS"; u "2 PROPOSTAS"] = [u "T"] ++ names /\
    length names = length [u "3. EDITAVEIS"; u "2. PROPOSTA"] /\
    Forall2 seg_match [u "3. EDITAVEIS"; u "2. PROPOSTA"] names /\
    ([u "3. EDITAVEIS"; u "2. PROPOSTA"] <> [] ->
       is_dir ex_template [u "T"; u "3 EDITAVEIS"; u "2 PROPOSTAS"] = true).
Proof.
  apply (resolve_parts_sound_dir ex_template [u "T"] [u "3. EDITAVEIS"; u "2. PROPOSTA"]).
  vm_compute. reflexivity.
Defined.

(** C13: resolution fails, with no exception, as soon as one segment has no
    matching sub-directory, whatever the later segments: there is no
    backtracking. *)
Theorem resolve_parts_fail_fast f cur part rest cands :
  _listar_subdirs f cur = Ok cands ->
  Forall (fun c => ~ seg_match part (base_name c)) cands ->
  resolve_parts f cur (part :: rest) = Ok None.
Proof.
  intros Hl Hno. simpl. rewrite Hl.
  destruct (List.find (exact_match _) cands) as [c|] eqn:He.
  { destruct (find_match_seg part cands c) as [Hin Hm]; [by left|].
    exfalso. by apply (proj1 (Forall_forall _ _) Hno c); [apply list_elem_of_In|]. }
  destruct (List.find (loose_match _) cands) as [c|] eqn:Hlo; [|done].
  destruct (find_match_seg part cands c) as [Hin Hm]; [by right|].
  exfalso. by apply (proj1 (Forall_forall _ _) Hno c); [apply list_elem_of_In|].
Qed.

Lemma resolve_parts_fail_fast_witness :
  resolve_parts ex_template [u "T"] [u "9. INEXISTENTE"; u "3 EDITAVEIS"] = Ok None.
Proof.
  apply (resolve_parts_fail_fast ex_template [u "T"] _ _
           [[u "T"; u "0. OUTROS"]; [u "T"; u "3 EDITAVEIS"]]).
  - vm_compute. reflexivity.
  - repeat constructor; unfold seg_match; vm_compute; intros [H|[H|H]]; discriminate.
Defined.

(** The example of the specification does not hold.  With
    [T/3 EDITAVEIS/1 DECLARACOES] on disk, ["3. EDITAVEIS/1. DECLARACAO"]
    does NOT resolve: the tokens "declaracao" and "declaracoes" differ in
    the ending (-ao / -oes) and neither contains the other, so the copy of
    that selected folder is skipped with a warning, although the comments
    of [docket.py] (lines 37, 164, 200) say the logic tolerates DECLARACAO
    versus DECLARACOES.  A plural that only adds a suffix is tolerated:
    ["3. EDITAVEIS/2. PROPOSTA"] resolves to [T/3 EDITAVEIS/2 PROPOSTAS]. *)
Example resolver_flex_declaracoes :
  _resolver_subpasta_flex ex_template [u "T"] (u "3. EDITAVEIS/1. DECLARACAO") = Ok None /\
  _resolver_subpasta_flex ex_template [u "T"] (u "3. EDITAVEIS/2. PROPOSTA")
  = Ok (Some [u "T"; u "3 EDITAVEIS"; u "2 PROPOSTAS"]).
Proof. split; vm_compute; reflexivity. Qed.

(** C17: [resolver_pasta_mes] returns normally only with a folder that is a
    directory (an existing sub-directory, or the one it created).  The
    caller's [if not pasta_mes.exists()] branch, with its "Pasta do mes
    criada" log and its error dialog, can never run. *)
Theorem resolver_pasta_mes_is_dir base mes f f' p :
  resolver_pasta_mes base mes f = (f', Ok p) -> is_dir f' p = true.
Proof.
  unfold resolver_pasta_mes, bind; simpl.
  destruct (iterdir f base) as [cs|e]; [|by intros [=]].
  destruct (List.find _ cs) as [c|] eqn:Hf.
  - intros [= <- <-]. apply find_some in Hf as [_ H]. by apply andb_true_iff in H as [H _].
  - unfold mkdir_p. destruct (mkdir_parents _ _ f) as [f1 [[]|e]] eqn:Hm; intros [= <- <-].
    by apply mkdir_parents_ok in Hm.
Qed.

Lemma resolver_pasta_mes_is_dir_witness :
  is_dir ex_participar [u "P"; u "2.FEVEREIRO"] = true.
Proof.
  apply (resolver_pasta_mes_is_dir [u "P"] (u "02. FEVEREIRO") ex_participar).
  vm_compute. reflexivity.
Defined.

(** The example of the specification: with [2.FEVEREIRO] in the
    folder, the label ["02. FEVEREIRO"] finds it and nothing is created. *)
Example resolver_pasta_mes_fevereiro :
  resolver_pasta_mes [u "P"] (u "02. FEVEREIRO") ex_participar
  = (ex_participar, Ok [u "P"; u "2.FEVEREIRO"]).
Proof. vm_compute. reflexivity. Qed.

Lemma find_ext {A} (p q : A -> bool) l : (forall x, p x = q x) -> List.find p l = List.find q l.
Proof. intros H. induction l as [|x l IH]; simpl; [done|]. by rewrite H, IH. Qed.

Lemma is_substr_nil s : is_substr [] s = true.
Proof. destruct s; reflexivity. Qed.

(** C19: a label whose text after the first dot has an empty token (["01."],
    ["05. "], or a year as in ["12. 2024"], which the number prefix removes
    entirely) matches every name: [resolver_pasta_mes] returns the first
    sub-directory in listing order, whatever its name, and creates
    nothing. *)
Theorem resolver_pasta_mes_empty_token base mes f cs c :
  _normalize_token (mes_texto mes) = [] -> iterdir f base = Ok cs ->
  List.find (is_dir f) cs = Some c ->
  resolver_pasta_mes base mes f = (f, Ok c).
Proof.
  intros Htok Hit Hc. unfold resolver_pasta_mes, bind. simpl. rewrite Htok, Hit.
  rewrite (find_ext _ (is_dir f)), Hc; [done|]. intros x. by rewrite is_substr_nil, andb_true_r.
Qed.

Lemma resolver_pasta_mes_empty_token_witness :
  resolver_pasta_mes [u "P"] (u "01.") ex_participar = (ex_participar, Ok [u "P"; u "Docket"]).
Proof.
  apply (resolver_pasta_mes_empty_token _ _ _ [[u "P"; u "Docket"]; [u "P"; u "2.FEVEREIRO"]; [u "P"; u "app.py"]]);
    vm_compute; reflexivity.
Defined.

End PathResolver.
