(* ===== verification/Copier.v ===== *)
(** * ResilientCopier: [_proximo_nome_livre], [copiar_padrao_resiliente], [anexar_arquivos]

    [src/LicitagovLicitacaoMesApp.py] lines 131-189 (the copies in
    [LicitagovLicitacaoMesApp_UI.py] lines 217-308 and [docket.py] lines
    185-252 are the same code; the UI copy adds a [continue] after the
    [pular] log, which changes nothing).

    The copier runs in the state-and-exception monad on the file system and
    the list of events passed to the [log(level, msg)] callback.  An event is
    the level and the message; [render_msg] gives the message's text, as the
    f-strings of the source build it.  The conflict policy is the string the
    GUI passes ("pular", "substituir", anything else duplicates). *)

From Stdlib Require Import ZArith Lia FinFun.
From Stdlib Require Import Strings.String.
From stdpp Require Import base list sets.
From S2P Require Import Prelude Normalize Fs Resolver.
Import FileSystem PathResolver.

Local Open Scope py_scope.

Module ResilientCopier.

(** ** Log events *)

Inductive level := LOk | LInfo | LWarn | LError.

#[export] Instance level_eq_dec : EqDecision level.
Proof. solve_decision. Defined.

Inductive msg :=
| MPular (n : name)                 (** [f"[pular] {destino.name} ja existe."] *)
| MSubstituir (n : name)            (** [f"[substituir] {destino.name}"] *)
| MDuplicar (n : name)              (** [f"[duplicar] {destino.name}"] *)
| MCopiar (n : name)                (** [f"[copiar] {destino.name}"] *)
| MFalhaCopiar (n : name) (e : oserr)  (** [f"Falha ao copiar '{item.name}': {e}"] *)
| MFalhaAnexar (n : name) (e : oserr)  (** [f"Falha ao anexar '{src.name}': {e}"] *)
| MNaoEncontrada (p : path)         (** [f"Pasta modelo nao encontrada: {...}"] *)
| MIgnorado (p : path).             (** [f"Ignorado (nao e arquivo): {src}"] *)

#[export] Instance msg_eq_dec : EqDecision msg.
Proof. solve_decision. Defined.

Definition event := (level * msg)%type.

(** The text of a message; 225 is "a" with acute accent, 227 "a" with tilde. *)
Definition render_msg (m : msg) : ustr :=
  match m with
  | MPular n => u "[pular] " ++ n ++ u " j" ++ [225%Z] ++ u " existe."
  | MSubstituir n => u "[substituir] " ++ n
  | MDuplicar n => u "[duplicar] " ++ n
  | MCopiar n => u "[copiar] " ++ n
  | MFalhaCopiar n e => u "Falha ao copiar '" ++ n ++ u "': " ++ show_err e
  | MFalhaAnexar n e => u "Falha ao anexar '" ++ n ++ u "': " ++ show_err e
  | MNaoEncontrada p => u "Pasta modelo n" ++ [227%Z] ++ u "o encontrada: " ++ show_path p
  | MIgnorado p => u "Ignorado (n" ++ [227%Z] ++ u "o " ++ [233%Z] ++ u " arquivo): " ++ show_path p
  end.

(** ** [_proximo_nome_livre] *)

(** [name.rfind(".")]. *)
Fixpoint rfind (c : Z) (s : ustr) : option nat :=
  match s with
  | [] => None
  | x :: s' =>
      match rfind c s' with
      | Some i => Some (S i)
      | None => if (x =? c)%Z then Some 0 else None
      end
  end.

(** [(Path(nome).stem, Path(nome).suffix)]: split at the last dot when it is
    neither the first nor the last character. *)
Definition split_suffix (nome : name) : ustr * ustr :=
  match rfind 46 nome with
  | Some i =>
      if (0 <? i) && (i <? length nome - 1) then (take i nome, drop i nome)
      else (nome, [])
  | None => (nome, [])
  end.

(** The [k]-th value of [cand]: [pasta / nome], then
    [pasta / f"{stem}_{i}{suf}"] for [i = 1, 2, ...]. *)
Definition candidato (pasta : path) (nome : name) (k : nat) : path :=
  match k with
  | O => pasta ++ [nome]
  | S _ => let '(stem, suf) := split_suffix nome in
           pasta ++ [stem ++ u "_" ++ py_str_nat k ++ suf]
  end.

(** The [while cand.exists()] loop, with Python's variables [i] and [cand],
    run for at most [fuel] tests. *)
Fixpoint proximo_loop (f : fs) (pasta : path) (stem suf : ustr) (fuel i : nat)
    (cand : path) : path :=
  match fuel with
  | O => cand
  | S fuel' =>
      if path_exists f cand then
        proximo_loop f pasta stem suf fuel' (S i) (pasta ++ [stem ++ u "_" ++ py_str_nat i ++ suf])
      else cand
  end.

(** [_proximo_nome_livre(pasta, nome)], with one test more than there are
    paths on disk: enough, since the candidates are pairwise distinct. *)
Definition _proximo_nome_livre (f : fs) (pasta : path) (nome : name) : path :=
  let '(stem, suf) := split_suffix nome in
  proximo_loop f pasta stem suf (S (length (fs_entries f))) 1 (pasta ++ [nome]).

(** ** The per-file step and the two loops *)

Definition CM (A : Type) : Type := st oserr (fs * list event) A.

(** The body of the [for item in ...] loops of [copiar_padrao_resiliente]
    (lines 154-167) and [anexar_arquivos] (lines 176-189): the conflict
    policy inside [try ... except Exception as e], with the failure message
    of each loop. *)
Definition copiar_um (falha : name -> oserr -> msg) (dst_dir item : path)
    (politica : ustr) : CM unit :=
  let destino := dst_dir ++ [base_name item] in
  try_except
    (ex <- read (fun f => path_exists f destino) ;;
     if ex then
       if decide (politica = u "pular") then
         emit (LInfo, MPular (base_name destino))
       else if decide (politica = u "substituir") then
         on_fs (copy2 item destino) ;; emit (LOk, MSubstituir (base_name destino))
       else
         destino' <- read (fun f => _proximo_nome_livre f dst_dir (base_name item)) ;;
         on_fs (copy2 item destino') ;; emit (LOk, MDuplicar (base_name destino'))
     else
       on_fs (copy2 item destino) ;; emit (LOk, MCopiar (base_name destino)))
    (fun e => emit (LError, falha (base_name item) e)).

(** The source folder of one selected path: [raiz / rel] when it exists,
    otherwise [_resolver_subpasta_flex] when it finds an existing folder;
    [None] after the warning. *)
Definition pasta_origem (raiz_modelo_template : path) (rel : ustr) : CM (option path) :=
  let src_dir := join raiz_modelo_template rel in
  ex <- read (fun f => path_exists f src_dir) ;;
  if ex then ret (Some src_dir) else
  alt <- query (fun f => _resolver_subpasta_flex f raiz_modelo_template rel) ;;
  alt_ok <- read (fun f => match alt with Some a => path_exists f a | None => false end) ;;
  match alt with
  | Some a => if alt_ok then ret (Some a) else
                emit (LWarn, MNaoEncontrada src_dir) ;; ret None
  | None => emit (LWarn, MNaoEncontrada src_dir) ;; ret None
  end.

(** [copiar_padrao_resiliente(raiz_modelo_template, raiz_destino,
    subpastas_selecionadas, politica, log)].  [iterdir] is listed once
    before the loop (the eager [os.listdir] of [Path.iterdir]); the
    [mkdir] of the destination and the listing are outside the [try] and
    their exceptions end the whole call. *)
Definition copiar_padrao_resiliente (raiz_modelo_template raiz_destino : path)
    (subpastas_selecionadas : list ustr) (politica : ustr) : CM unit :=
  for_each subpastas_selecionadas (fun rel =>
    src <- pasta_origem raiz_modelo_template rel ;;
    match src with
    | None => ret tt
    | Some src_dir =>
        let dst_dir := join raiz_destino rel in
        on_fs (mkdir_p dst_dir) ;;
        items <- query (fun f => iterdir f src_dir) ;;
        for_each items (fun item =>
          isf <- read (fun f => is_file f item) ;;
          if isf then copiar_um MFalhaCopiar dst_dir item politica else ret tt)
    end).

(** [anexar_arquivos(arquivos, raiz_destino, subpasta_destino_rel, politica,
    log)]. *)
Definition anexar_arquivos (arquivos : list path) (raiz_destino : path)
    (subpasta_destino_rel : ustr) (politica : ustr) : CM unit :=
  let dst_dir := join raiz_destino subpasta_destino_rel in
  on_fs (mkdir_p dst_dir) ;;
  for_each arquivos (fun src =>
    ok <- read (fun f => path_exists f src && is_file f src) ;;
    if ok then copiar_um MFalhaAnexar dst_dir src politica
    else emit (LWarn, MIgnorado src)).

(** Example file systems of the witnesses: a destination [D] that already
    holds [proposta.pdf] and [proposta_1.pdf]; a template [T] with
    [2. PROPOSTA/modelo.docx] and [3 EDITAVEIS/1 DECLARACOES/decl.docx] and an
    empty destination [D]. *)
Definition ex_dest : fs := mkFs
  [([u "D"], NDir);
   ([u "D"; u "proposta.pdf"], NFile (u "v0") 1%Z);
   ([u "D"; u "proposta_1.pdf"], NFile (u "v1") 2%Z);
   ([u "S"], NDir);
   ([u "S"; u "proposta.pdf"], NFile (u "v2") 3%Z)] [].

Definition ex_e2e : fs := mkFs
  [([u "T"], NDir);
   ([u "T"; u "2. PROPOSTA"], NDir);
   ([u "T"; u "2. PROPOSTA"; u "modelo.docx"], NFile (u "conteudo") 7%Z);
   ([u "T"; u "3 EDITAVEIS"], NDir);
   ([u "T"; u "3 EDITAVEIS"; u "1 DECLARACOES"], NDir);
   ([u "T"; u "3 EDITAVEIS"; u "1 DECLARACOES"; u "decl.docx"], NFile (u "d") 8%Z);
   ([u "D"], NDir)] [].

(** ** The free-name search *)

Lemma split_suffix_app nome : (split_suffix nome).1 ++ (split_suffix nome).2 = nome.
Proof.
  unfold split_suffix. destruct (rfind 46 nome); [destruct (_ && _)|]; simpl;
    rewrite ?app_nil_r; auto using take_drop.
Qed.

Lemma candidato_S pasta nome k :
  candidato pasta nome (S k) =
  pasta ++ [(split_suffix nome).1 ++ u "_" ++ py_str_nat (S k) ++ (split_suffix nome).2].
Proof. simpl. by destruct (split_suffix nome). Qed.

Lemma candidato_snoc pasta nome k : exists n, candidato pasta nome k = pasta ++ [n].
Proof. destruct k; [by eexists|]. rewrite candidato_S. by eexists. Qed.

(** Successive values of [cand] are pairwise distinct. *)
Lemma candidato_inj pasta nome : Injective (candidato pasta nome).
Proof.
  intros i j H. pose proof (split_suffix_app nome) as Hsplit.
  unfold candidato in H. destruct (split_suffix nome) as [stem suf]. simpl in Hsplit.
  destruct i as [|i], j as [|j]; [done|..]; apply app_inv_head in H; injection H as H.
  - rewrite <- Hsplit in H. apply app_inv_head in H.
    apply (f_equal length) in H. simpl in H. rewrite ?length_app in H. simpl in H. lia.
  - rewrite <- Hsplit in H. apply app_inv_head in H.
    apply (f_equal length) in H. simpl in H. rewrite ?length_app in H. simpl in H. lia.
  - apply app_inv_head in H. injection H as H. apply app_inv_tail in H.
    apply py_str_nat_inj in H. by injection H.
Qed.

(** The loop started at the [k]-th candidate returns the first candidate
    from [k] on that does not exist, when one exists within the fuel. *)
Lemma proximo_loop_spec f pasta nome fuel k :
  (exists j, k <= j < k + fuel /\ path_exists f (candidato pasta nome j) = false) ->
  exists j, k <= j < k + fuel /\
    proximo_loop f pasta (split_suffix nome).1 (split_suffix nome).2 fuel (S k)
      (candidato pasta nome k) = candidato pasta nome j /\
    path_exists f (candidato pasta nome j) = false /\
    forall i, k <= i < j -> path_exists f (candidato pasta nome i) = true.
Proof.
  revert k. induction fuel as [|fuel IH]; intros k (j & Hj & Hfree); [lia|].
  cbn [proximo_loop]. destruct (path_exists f (candidato pasta nome k)) eqn:Hk.
  - rewrite <- candidato_S. destruct (IH (S k)) as (j' & Hj' & Hloop & Hfree' & Hmin).
    { exists j. split; [|done]. destruct (decide (j = k)); [congruence|lia]. }
    exists j'. split; [lia|]. split; [done|]. split; [done|].
    intros i Hi. destruct (decide (i = k)) as [->|]; [done|]. apply Hmin. lia.
  - exists k. split; [lia|]. split; [done|]. split; [done|]. lia.
Qed.

(** Pigeonhole: of the first [S (length (fs_entries f))] candidates, one
    does not exist. *)
Lemma some_candidate_free f pasta nome :
  exists j, 0 <= j < 0 + S (length (fs_entries f)) /\
    path_exists f (candidato pasta nome j) = false.
Proof.
  set (N := length (fs_entries f)).
  destruct (forallb (fun j => path_exists f (candidato pasta nome j)) (seq 0 (S N))) eqn:E.
  - exfalso. rewrite forallb_forall in E.
    assert (Hincl : incl (map (candidato pasta nome) (seq 0 (S N))) (map fst (fs_entries f))).
    { intros p Hp. apply in_map_iff in Hp as [j [<- Hj]]. specialize (E j Hj).
      destruct (candidato_snoc pasta nome j) as [n Hn].
      unfold path_exists in E. destruct (lookup_node f _) as [nd|] eqn:Hl; [|done].
      apply lookup_node_In in Hl; [|rewrite Hn; by destruct pasta].
      apply in_map_iff. by exists (candidato pasta nome j, nd). }
    apply NoDup_incl_length in Hincl.
    + rewrite length_map, length_seq, length_map in Hincl. unfold N in Hincl. lia.
    + apply Injective_map_NoDup; [apply candidato_inj|apply seq_NoDup].
  - apply forallb_false_exists in E as (j & Hj & Hfree). apply in_seq in Hj.
    exists j. split; [lia|done].
Qed.

Lemma proximo_nome_livre_unfold f pasta nome :
  _proximo_nome_livre f pasta nome =
  proximo_loop f pasta (split_suffix nome).1 (split_suffix nome).2
    (S (length (fs_entries f))) 1 (candidato pasta nome 0).
Proof. unfold _proximo_nome_livre. by destruct (split_suffix nome). Qed.

Lemma proximo_nome_livre_free f pasta nome :
  path_exists f (_proximo_nome_livre f pasta nome) = false /\
  exists n, _proximo_nome_livre f pasta nome = pasta ++ [n].
Proof.
  destruct (proximo_loop_spec f pasta nome (S (length (fs_entries f))) 0
              (some_candidate_free f pasta nome)) as (k & _ & Hloop & Hfree & _).
  rewrite proximo_nome_livre_unfold, Hloop. split; [done|]. apply candidato_snoc.
Qed.

(** ** The per-file step *)

Lemma copy2_into f dst_dir item destino data t :
  lookup_node f item = Some (NFile data t) ->
  is_dir f dst_dir = true -> gravavel f dst_dir ->
  lookup_node f destino <> Some NDir -> item <> destino -> parent destino = dst_dir ->
  copy2 item destino f = (set_node destino (NFile data t) f, Ok destino).
Proof.
  intros Hsrc Hdir Hro Hnd Hne Hpar. destruct (gravavel_file f dst_dir destino data Hro Hpar).
  apply copy2_file; try done.
  - unfold is_dir. by destruct (lookup_node f destino) as [[|]|].
  - rewrite Hpar. by apply is_dir_lookup.
  - rewrite Hpar. apply (proj1 Hro).
Qed.

Lemma file_not_dir f p data t : lookup_node f p = Some (NFile data t) -> lookup_node f p <> Some NDir.
Proof. by intros ->. Qed.

Lemma exists_ne f p q : path_exists f p = true -> path_exists f q = false -> p <> q.
Proof. by intros Hp Hq ->; rewrite Hp in Hq. Qed.

Lemma lookup_exists f p n : lookup_node f p = Some n -> path_exists f p = true.
Proof. unfold path_exists. by intros ->. Qed.

(** ** Properties of the per-file step *)

#[local] Arguments copy2 : simpl never.
#[local] Arguments _proximo_nome_livre : simpl never.

(** C3: under the policy "pular", a file whose destination exists is not
    copied: the file system is unchanged and exactly one [info] event
    "[pular] <name> ja existe." is logged. *)
Theorem copiar_um_pular falha dst_dir item f log :
  path_exists f (dst_dir ++ [base_name item]) = true ->
  copiar_um falha dst_dir item (u "pular") (f, log) =
    ((f, log ++ [(LInfo, MPular (base_name item))]), Ok tt).
Proof.
  intros Hex. unfold copiar_um, try_except, bind, read, emit. simpl.
  by rewrite Hex, base_name_snoc.
Qed.

Lemma copiar_um_pular_witness :
  copiar_um MFalhaCopiar [u "D"] [u "S"; u "proposta.pdf"] (u "pular") (ex_dest, []) =
    ((ex_dest, [] ++ [(LInfo, MPular (base_name [u "S"; u "proposta.pdf"]))]), Ok tt).
Proof. apply copiar_um_pular. vm_compute. reflexivity. Defined.

(** C4: under the policy "substituir", a file whose destination is an
    existing file overwrites it: the destination gets the source's contents
    and modification time ([copy2]), nothing else changes, and one [ok]
    event "[substituir] <name>" is logged. *)
Theorem copiar_um_substituir falha dst_dir item f log data t d0 t0 :
  lookup_node f item = Some (NFile data t) ->
  lookup_node f (dst_dir ++ [base_name item]) = Some (NFile d0 t0) ->
  item <> dst_dir ++ [base_name item] ->
  is_dir f dst_dir = true -> gravavel f dst_dir ->
  copiar_um falha dst_dir item (u "substituir") (f, log) =
    ((set_node (dst_dir ++ [base_name item]) (NFile data t) f,
      log ++ [(LOk, MSubstituir (base_name item))]), Ok tt).
Proof.
  intros Hsrc Hdst Hne Hdir Hro. unfold copiar_um, try_except, bind, read, emit, on_fs.
  simpl. rewrite (lookup_exists _ _ _ Hdst).
  rewrite (copy2_into f dst_dir item _ data t); try done;
    [by rewrite base_name_snoc | by rewrite Hdst | apply parent_snoc].
Qed.

Lemma copiar_um_substituir_witness :
  copiar_um MFalhaCopiar [u "D"] [u "S"; u "proposta.pdf"] (u "substituir") (ex_dest, []) =
    ((set_node ([u "D"] ++ [base_name [u "S"; u "proposta.pdf"]]) (NFile (u "v2") 3%Z) ex_dest,
      [] ++ [(LOk, MSubstituir (base_name [u "S"; u "proposta.pdf"]))]), Ok tt).
Proof.
  apply (copiar_um_substituir _ _ _ _ _ _ _ (u "v0") 1%Z);
    [vm_compute; reflexivity | vm_compute; reflexivity | vm_compute; discriminate
    | vm_compute; reflexivity | apply gravavel_mkFs].
Defined.

(** C6: a file whose destination does not exist is copied whatever the
    policy (the existence test, not the policy, decides), with one [ok]
    event "[copiar] <name>". *)
Theorem copiar_um_copiar falha dst_dir item politica f log data t :
  lookup_node f item = Some (NFile data t) ->
  path_exists f (dst_dir ++ [base_name item]) = false ->
  is_dir f dst_dir = true -> gravavel f dst_dir ->
  copiar_um falha dst_dir item politica (f, log) =
    ((set_node (dst_dir ++ [base_name item]) (NFile data t) f,
      log ++ [(LOk, MCopiar (base_name item))]), Ok tt).
Proof.
  intros Hsrc Hdst Hdir Hro. unfold copiar_um, try_except, bind, read, emit, on_fs.
  simpl. rewrite Hdst.
  rewrite (copy2_into f dst_dir item _ data t); try done;
    [by rewrite base_name_snoc | by rewrite exists_lookup | | apply parent_snoc].
  by apply (exists_ne f); [apply (lookup_exists _ _ _ Hsrc)|].
Qed.

Lemma copiar_um_copiar_witness :
  copiar_um MFalhaCopiar [u "S"] [u "D"; u "proposta_1.pdf"] (u "duplicar") (ex_dest, []) =
    ((set_node ([u "S"] ++ [base_name [u "D"; u "proposta_1.pdf"]]) (NFile (u "v1") 2%Z) ex_dest,
      [] ++ [(LOk, MCopiar (base_name [u "D"; u "proposta_1.pdf"]))]), Ok tt).
Proof.
  apply copiar_um_copiar;
    [vm_compute; reflexivity | vm_compute; reflexivity | vm_compute; reflexivity
    | apply gravavel_mkFs].
Defined.

(** C5: under any other policy ("duplicar"), a file whose destination
    exists is copied to the name [_proximo_nome_livre] chooses, which does
    not exist; the existing destination keeps its node, and one [ok] event
    "[duplicar] <new name>" is logged. *)
Theorem copiar_um_duplicar falha dst_dir item politica f log data t :
  politica <> u "pular" -> politica <> u "substituir" ->
  lookup_node f item = Some (NFile data t) ->
  path_exists f (dst_dir ++ [base_name item]) = true ->
  is_dir f dst_dir = true -> gravavel f dst_dir ->
  let novo := _proximo_nome_livre f dst_dir (base_name item) in
  path_exists f novo = false /\
  lookup_node (set_node novo (NFile data t) f) (dst_dir ++ [base_name item]) =
    lookup_node f (dst_dir ++ [base_name item]) /\
  copiar_um falha dst_dir item politica (f, log) =
    ((set_node novo (NFile data t) f, log ++ [(LOk, MDuplicar (base_name novo))]), Ok tt).
Proof.
  intros Hp Hs Hsrc Hdst Hdir Hro novo.
  destruct (proximo_nome_livre_free f dst_dir (base_name item)) as [Hfree [n Hn]].
  fold novo in Hfree, Hn.
  assert (Hnovo : novo <> []) by (rewrite Hn; by destruct dst_dir).
  split; [done|]. split.
  { rewrite lookup_set_node by done. rewrite decide_False; [done|].
    by apply (exists_ne f). }
  unfold copiar_um, try_except, bind, read, emit, on_fs. simpl. rewrite Hdst.
  rewrite !decide_False by done. fold novo.
  rewrite (copy2_into f dst_dir item novo data t); try done;
    [by rewrite exists_lookup | | rewrite Hn; apply parent_snoc].
  by apply (exists_ne f); [apply (lookup_exists _ _ _ Hsrc)|].
Qed.

Lemma copiar_um_duplicar_witness :
  let novo := _proximo_nome_livre ex_dest [u "D"] (base_name [u "S"; u "proposta.pdf"]) in
  path_exists ex_dest novo = false /\
  lookup_node (set_node novo (NFile (u "v2") 3%Z) ex_dest) ([u "D"] ++ [base_name [u "S"; u "proposta.pdf"]]) =
    lookup_node ex_dest ([u "D"] ++ [base_name [u "S"; u "proposta.pdf"]]) /\
  copiar_um MFalhaCopiar [u "D"] [u "S"; u "proposta.pdf"] (u "duplicar") (ex_dest, []) =
    ((set_node novo (NFile (u "v2") 3%Z) ex_dest, [] ++ [(LOk, MDuplicar (base_name novo))]), Ok tt).
Proof.
  apply copiar_um_duplicar;
    [intros H; vm_compute in H; discriminate H | intros H; vm_compute in H; discriminate H
    | vm_compute; reflexivity | vm_compute; reflexivity | vm_compute; reflexivity
    | apply gravavel_mkFs].
Defined.

(** A failed [shutil.copy2] inside the per-file step has changed nothing,
    or has left one file holding a proper prefix of the source's data. *)
Lemma copy2_exc_partial item destino f f' e :
  copy2 item destino f = (f', Exc e) ->
  f' = f \/ exists p d t n, lookup_node f item = Some (NFile d t) /\ n < length d /\
    f' = set_node p (NFile (take n d) (fs_agora f)) f.
Proof.
  intros Hc. apply copy2_exc in Hc as [->|(d & t & n & Hs & Hn & _ & ->)]; [by left|].
  right. by exists (copy_target f item destino), d, t, n.
Qed.

(** C2: the per-file step never lets an exception escape and logs exactly
    one event; when that event is an [error] (the copy failed), the file
    system is unchanged, or the device refused a write after [copy2] had
    opened its target: then that one file, which under "substituir" is the
    existing destination, holds only a proper prefix of the source's data
    (its previous contents are lost), and nothing else has changed. *)
Theorem copiar_um_one_event falha dst_dir item politica f log :
  exists f' ev, copiar_um falha dst_dir item politica (f, log) = ((f', log ++ [ev]), Ok tt) /\
    (ev.1 = LError -> f' = f \/
       exists p d t n, lookup_node f item = Some (NFile d t) /\ n < length d /\
         f' = set_node p (NFile (take n d) (fs_agora f)) f).
Proof.
  unfold copiar_um, try_except, bind, read, emit, on_fs. simpl.
  destruct (path_exists f _);
    [destruct (decide (politica = u "pular")); [by eexists _, _|];
     destruct (decide (politica = u "substituir"))|];
    match goal with |- context [copy2 ?a ?b f] => destruct (copy2 a b f) as [f1 [p|err]] eqn:Hc end;
    (eexists _, _; split; [reflexivity|]); simpl; try discriminate;
    intros _; by apply copy2_exc_partial in Hc.
Qed.

(** The destination of the witnesses, on a device that takes only one
    more unit of data for [D/proposta.pdf]. *)
Definition ex_cheio : fs :=
  MkFs (fs_entries ex_dest) [] [([u "D"; u "proposta.pdf"], 1)] 9%Z.

(** C9: the data loss of "substituir": when the device refuses the write
    to an existing destination file after [n] units of the source (a full
    disk, section 7's "disk full"), the per-file step reports one [error]
    event "Falha ao copiar '<name>': [Errno 28] No space left on device",
    and the destination, which [shutil.copy2] truncated on opening, holds
    only those [n] units: its previous contents are lost, and nothing else
    has changed. *)
Theorem copiar_um_substituir_perde falha dst_dir item f log data t d0 t0 n :
  lookup_node f item = Some (NFile data t) ->
  lookup_node f (dst_dir ++ [base_name item]) = Some (NFile d0 t0) ->
  item <> dst_dir ++ [base_name item] ->
  is_dir f dst_dir = true -> dst_dir ∉ fs_ro f -> dst_dir ++ [base_name item] ∉ fs_ro f ->
  cota f (dst_dir ++ [base_name item]) = Some n -> n < length data ->
  copiar_um falha dst_dir item (u "substituir") (f, log) =
    ((set_node (dst_dir ++ [base_name item]) (NFile (take n data) (fs_agora f)) f,
      log ++ [(LError, falha (base_name item) (NoSpaceError item (dst_dir ++ [base_name item])))]), Ok tt).
Proof.
  intros Hsrc Hdst Hne Hdir Hro Hro' Hc Hn. unfold copiar_um, try_except, bind, read, emit, on_fs.
  simpl. rewrite (lookup_exists _ _ _ Hdst).
  rewrite (copy2_no_space item _ f data t n); try done.
  - unfold is_dir. by rewrite Hdst.
  - rewrite parent_snoc. by apply is_dir_lookup.
  - by rewrite parent_snoc.
Qed.

Lemma copiar_um_substituir_perde_witness :
  copiar_um MFalhaCopiar [u "D"] [u "S"; u "proposta.pdf"] (u "substituir") (ex_cheio, []) =
    ((set_node ([u "D"] ++ [base_name [u "S"; u "proposta.pdf"]]) (NFile (take 1 (u "v2")) (fs_agora ex_cheio)) ex_cheio,
      [] ++ [(LError, MFalhaCopiar (base_name [u "S"; u "proposta.pdf"])
                        (NoSpaceError [u "S"; u "proposta.pdf"] ([u "D"] ++ [base_name [u "S"; u "proposta.pdf"]])))]),
     Ok tt).
Proof.
  apply (copiar_um_substituir_perde _ _ _ _ _ _ 3%Z (u "v0") 1%Z);
    [vm_compute; reflexivity | vm_compute; reflexivity | vm_compute; discriminate
    | vm_compute; reflexivity | apply not_elem_of_nil | apply not_elem_of_nil
    | vm_compute; reflexivity | vm_compute; lia].
Defined.

(** ** Invariants of the loops *)

Lemma copiar_um_wf falha d i pol : preserves (@on_fst (list event) wf) (copiar_um falha d i pol).
Proof. unfold copiar_um. cbv zeta. mono. Qed.

Lemma copiar_um_keeps falha d i pol : advances (@fst_rel (list event) keeps) (copiar_um falha d i pol).
Proof. unfold copiar_um. cbv zeta. mono. Qed.

Lemma pasta_origem_wf r rel : preserves (@on_fst (list event) wf) (pasta_origem r rel).
Proof. unfold pasta_origem. cbv zeta. mono. Qed.

Lemma pasta_origem_keeps r rel : advances (@fst_rel (list event) keeps) (pasta_origem r rel).
Proof. unfold pasta_origem. cbv zeta. mono. Qed.

#[local] Hint Resolve copiar_um_wf copiar_um_keeps pasta_origem_wf pasta_origem_keeps : licita.

Lemma copiar_padrao_wf r d sel pol :
  preserves (@on_fst (list event) wf) (copiar_padrao_resiliente r d sel pol).
Proof. unfold copiar_padrao_resiliente. cbv zeta. mono. Qed.

Lemma copiar_padrao_keeps r d sel pol :
  advances (@fst_rel (list event) keeps) (copiar_padrao_resiliente r d sel pol).
Proof. unfold copiar_padrao_resiliente. cbv zeta. mono. Qed.

Lemma anexar_wf arqs d rel pol : preserves (@on_fst (list event) wf) (anexar_arquivos arqs d rel pol).
Proof. unfold anexar_arquivos. cbv zeta. mono. Qed.

Lemma anexar_keeps arqs d rel pol :
  advances (@fst_rel (list event) keeps) (anexar_arquivos arqs d rel pol).
Proof. unfold anexar_arquivos. cbv zeta. mono. Qed.

(** ** What the copies leave alone *)

Section Frame.
Variables (d q : path) (n : node).
Hypothesis Hq : ~ d `prefix_of` q.

(** The node of [q], outside the destination [d], is the one it was. *)
Local Definition intacto (s : fs * list event) : Prop := lookup_node s.1 q = Some n.

Lemma below_not_prefix p : d `prefix_of` p -> ~ p `prefix_of` q.
Proof. intros Hd Hp. apply Hq. by etrans. Qed.

Lemma copiar_um_intacto falha dst_dir item pol :
  d `prefix_of` dst_dir -> preserves intacto (copiar_um falha dst_dir item pol).
Proof.
  intros Hd [f l] Hf. unfold intacto in *. simpl in Hf.
  destruct (proximo_nome_livre_free f dst_dir (base_name item)) as [_ [nm Hnm]].
  unfold copiar_um, try_except, bind, read, emit, on_fs. simpl.
  destruct (path_exists f _); [destruct (decide _); [done|]; destruct (decide _)|];
    simpl; rewrite ?Hnm; match goal with |- context [copy2 ?a ?b f] =>
      pose proof (copy2_frame a b q (Some n) (below_not_prefix b ltac:(etrans; [exact Hd|by eexists])) f Hf);
      destruct (copy2 a b f) as [f1 [?|?]] end; done.
Qed.

Lemma pasta_origem_fst P r rel : preserves (@on_fst (list event) P) (pasta_origem r rel).
Proof. unfold pasta_origem. cbv zeta. mono. Qed.

Lemma mkdir_p_intacto p : preserves intacto (on_fs (mkdir_p p)).
Proof. apply (on_fs_preserves (fun f => lookup_node f q = Some n)), mkdir_p_node. Qed.

#[local] Hint Resolve pasta_origem_fst mkdir_p_intacto : licita.
#[local] Hint Extern 1 (preserves intacto (read _)) => apply (read_preserves (fun f => lookup_node f q = Some n)) : licita.
#[local] Hint Extern 1 (preserves intacto (query _)) => apply (query_preserves (fun f => lookup_node f q = Some n)) : licita.
#[local] Hint Extern 1 (preserves intacto (emit _)) => apply (emit_preserves (fun f => lookup_node f q = Some n)) : licita.
#[local] Hint Extern 1 (preserves intacto (pasta_origem _ _)) => apply (pasta_origem_fst (fun f => lookup_node f q = Some n)) : licita.

Lemma copiar_padrao_intacto r sel pol : preserves intacto (copiar_padrao_resiliente r d sel pol).
Proof. unfold copiar_padrao_resiliente. cbv zeta. mono. all: apply copiar_um_intacto, join_prefix. Qed.

Lemma anexar_intacto arqs sub pol : preserves intacto (anexar_arquivos arqs d sub pol).
Proof. unfold anexar_arquivos. cbv zeta. mono. all: apply copiar_um_intacto, join_prefix. Qed.

End Frame.

(** C11: copying the template folders and attaching files never write
    outside the destination: every path that is not below [raiz_destino]
    keeps the node it had, whatever the policy and whether the call ends
    normally or raises; the template files and the attached files are
    read, never written. *)
Theorem copiador_preserva_origem raiz destino sel politica arquivos sub f log q n :
  ~ destino `prefix_of` q -> lookup_node f q = Some n ->
  lookup_node (copiar_padrao_resiliente raiz destino sel politica (f, log)).1.1 q = Some n /\
  lookup_node (anexar_arquivos arquivos destino sub politica (f, log)).1.1 q = Some n.
Proof.
  intros Hq Hn. split;
    [apply (copiar_padrao_intacto destino q n Hq raiz sel politica (f, log))
    |apply (anexar_intacto destino q n Hq arquivos sub politica (f, log))]; exact Hn.
Qed.

Lemma copiador_preserva_origem_witness :
  lookup_node (copiar_padrao_resiliente [u "T"] [u "D"] [u "2. PROPOSTA"] (u "substituir") (ex_e2e, [])).1.1
    [u "T"; u "2. PROPOSTA"; u "modelo.docx"] = Some (NFile (u "conteudo") 7%Z) /\
  lookup_node (anexar_arquivos [[u "T"; u "2. PROPOSTA"; u "modelo.docx"]] [u "D"]
                 (u "0. EDITAL_ANEXOS") (u "substituir") (ex_e2e, [])).1.1
    [u "T"; u "2. PROPOSTA"; u "modelo.docx"] = Some (NFile (u "conteudo") 7%Z).
Proof.
  apply copiador_preserva_origem; [|vm_compute; reflexivity].
  intros [r Hr]. discriminate Hr.
Defined.

(** ** Properties of the free-name search and of the loops *)

(** C1: [_proximo_nome_livre] terminates within its fuel and returns the
    first free name of the sequence [nome], [stem_1suf], [stem_2suf], ...:
    the k-th candidate for some [k] no larger than the number of paths on
    disk, which does not exist, while every earlier candidate exists. *)
Theorem proximo_nome_livre_first_free f pasta nome :
  exists k, k <= length (fs_entries f) /\
    _proximo_nome_livre f pasta nome = candidato pasta nome k /\
    path_exists f (candidato pasta nome k) = false /\
    forall j, j < k -> path_exists f (candidato pasta nome j) = true.
Proof.
  destruct (proximo_loop_spec f pasta nome (S (length (fs_entries f))) 0
              (some_candidate_free f pasta nome)) as (k & Hk & Hloop & Hfree & Hmin).
  exists k. split; [lia|]. rewrite proximo_nome_livre_unfold, Hloop.
  split; [done|]. split; [done|]. intros j Hj. apply Hmin. lia.
Qed.

(** The example of the specification: with [proposta.pdf] and
    [proposta_1.pdf] present, the next free name is [proposta_2.pdf], and
    duplicating another [proposta.pdf] writes it there with one
    "[duplicar] proposta_2.pdf" event. *)
Example duplicar_proposta :
  _proximo_nome_livre ex_dest [u "D"] (u "proposta.pdf") = [u "D"; u "proposta_2.pdf"] /\
  copiar_um MFalhaCopiar [u "D"] [u "S"; u "proposta.pdf"] (u "duplicar") (ex_dest, []) =
  ((set_node [u "D"; u "proposta_2.pdf"] (NFile (u "v2") 3%Z) ex_dest,
    [(LOk, MDuplicar (u "proposta_2.pdf"))]), Ok tt).
Proof. split; vm_compute; reflexivity. Qed.

(** A selected folder that exists neither as written nor by fuzzy
    resolution gives one warning with the path tried, changes nothing, and
    the loop goes on with the next selected folder. *)
Theorem copiar_padrao_fonte_ausente raiz destino rel rest politica f log :
  path_exists f (join raiz rel) = false ->
  _resolver_subpasta_flex f raiz rel = Ok None ->
  copiar_padrao_resiliente raiz destino (rel :: rest) politica (f, log) =
  copiar_padrao_resiliente raiz destino rest politica
    (f, log ++ [(LWarn, MNaoEncontrada (join raiz rel))]).
Proof.
  intros Hex Hres. unfold copiar_padrao_resiliente at 1. simpl.
  unfold bind at 1, pasta_origem, bind, read, query, emit, ret. simpl.
  by rewrite Hex, Hres.
Qed.

Lemma copiar_padrao_fonte_ausente_witness :
  copiar_padrao_resiliente [u "T"] [u "D"] [u "9. NADA"] (u "pular") (ex_e2e, []) =
  copiar_padrao_resiliente [u "T"] [u "D"] [] (u "pular")
    (ex_e2e, [(LWarn, MNaoEncontrada (join [u "T"] (u "9. NADA")))]).
Proof.
  apply (copiar_padrao_fonte_ausente [u "T"] [u "D"] (u "9. NADA") [] (u "pular") ex_e2e []);
    vm_compute; reflexivity.
Defined.

(** The end-to-end scenario of the specification, with the selection
    of the GUI: ["2. PROPOSTA"] is copied into the empty destination with
    the event "[copiar] modelo.docx" although the policy is "substituir"
    (nothing existed), and ["3. EDITAVEIS/1. DECLARACAO"] is skipped with
    the warning "Pasta modelo nao encontrada: /T/3. EDITAVEIS/1. DECLARACAO"
    because the template has [1 DECLARACOES]. *)
Example copiar_padrao_cenario :
  let '((f, log), r) :=
    copiar_padrao_resiliente [u "T"] [u "D"]
      [u "2. PROPOSTA"; u "3. EDITAVEIS/1. DECLARACAO"] (u "substituir") (ex_e2e, []) in
  r = Ok tt /\
  lookup_node f [u "D"; u "2. PROPOSTA"; u "modelo.docx"] = Some (NFile (u "conteudo") 7%Z) /\
  is_dir f [u "D"; u "3. EDITAVEIS"; u "1. DECLARACAO"] = false /\
  map (fun e => (e.1, render_msg e.2)) log =
    [(LOk, u "[copiar] modelo.docx");
     (LWarn, u "Pasta modelo n" ++ [227%Z] ++ u "o encontrada: /T/3. EDITAVEIS/1. DECLARACAO")].
Proof. vm_compute. repeat split. Qed.

End ResilientCopier.
