(* ===== verification/Version.v ===== *)
(** * VersionInfo: the version resource of the structure app

    [src/4-PROJETOS/ADD_NOVO_CLIENTE/version_info.py] is the expression
    PyInstaller evaluates for [--version-file]: a [VSVersionInfo] holding a
    [FixedFileInfo] (the numeric versions, lines 5-13) and the string and
    translation tables (lines 14-28).  The classes are PyInstaller's
    ([PyInstaller.utils.win32.versioninfo]): [FixedFileInfo.__init__]
    packs each version 4-tuple into two 32-bit words
    [(v0 << 16) | (v1 & 0xffff)] and [(v2 << 16) | (v3 & 0xffff)], and
    [toRaw] writes thirteen such words with [struct.pack("<13L", ...)],
    which raises [struct.error] on a word outside [0, 2^32).  Windows reads
    the version back as [(ms >> 16, ms & 0xffff, ls >> 16, ls & 0xffff)].

    Words are [Z] with the masks and shifts written out; bytes are [Z] in
    [0, 256).  The comments of the source ask that the strings
    [FileVersion] and [ProductVersion] stay in sync with the tuples; the
    string table's key ["040904b0"] is the language and code page of the
    [Translation] entry in hexadecimal. *)

From Stdlib Require Import ZArith Lia.
From Stdlib Require Import Strings.String.
From stdpp Require Import base list sets.
From S2P Require Import Prelude.

Local Open Scope py_scope.
Local Open Scope Z_scope.

Module VersionInfo.

(** ** The classes of the resource *)

Definition vers := (Z * Z * Z * Z)%type.

Record FixedFileInfo := mkFixedFileInfo {
  filevers : vers;
  prodvers : vers;
  mask : Z;
  flags : Z;
  OS : Z;
  fileType : Z;
  subtype : Z;
  date : Z * Z
}.

Record StringStruct := mkStringStruct { ss_name : ustr; ss_val : ustr }.

Record StringTable := mkStringTable { st_key : ustr; st_strings : list StringStruct }.

Record VarStruct := mkVarStruct { vs_name : ustr; vs_vals : list Z }.

Record VSVersionInfo := mkVSVersionInfo {
  ffi : FixedFileInfo;
  string_tables : list StringTable;
  var_structs : list VarStruct
}.

(** ** The resource of [version_info.py] *)

Definition version_info : VSVersionInfo :=
  mkVSVersionInfo
    (mkFixedFileInfo (1, 0, 0, 0)%Z (1, 0, 0, 0)%Z 63 0 4 1 0 (0, 0)%Z)
    [mkStringTable (u "040904b0")
       [mkStringStruct (u "CompanyName") (u "LicitaGov");
        mkStringStruct (u "FileDescription") (u "Criador de Estruturas LicitaGov");
        mkStringStruct (u "FileVersion") (u "1.0.0.0");
        mkStringStruct (u "InternalName") (u "LicitagovEstruturas");
        mkStringStruct (u "OriginalFilename") (u "LicitagovEstruturas.exe");
        mkStringStruct (u "ProductName") (u "Licitagov Estruturas");
        mkStringStruct (u "ProductVersion") (u "1.0.0.0")]]
    [mkVarStruct (u "Translation") [1033; 1200]].

(** The same resource with its file version bumped to [1.65536.0.0]. *)
Definition ex_bump : FixedFileInfo :=
  mkFixedFileInfo (1, 65536, 0, 0)%Z (1, 0, 0, 0)%Z 63 0 4 1 0 (0, 0)%Z.

(** ** [FixedFileInfo]: packing and [toRaw] *)

(** [(hi << 16) | (lo & 0xffff)]. *)
Definition pack_ms (hi lo : Z) : Z := Z.lor (Z.shiftl hi 16) (Z.land lo 65535).

(** The thirteen words of [toRaw], in order: [sig], [strucVersion], the
    four version words, [fileFlagsMask], [fileFlags], [fileOS],
    [fileType], [fileSubtype], [fileDateMS], [fileDateLS]. *)
Definition ffi_words (f : FixedFileInfo) : list Z :=
  let '(a, b, c, d) := filevers f in
  let '(p, q, r, s) := prodvers f in
  [4277077181; 65536; pack_ms a b; pack_ms c d; pack_ms p q; pack_ms r s;
   mask f; flags f; OS f; fileType f; subtype f; (date f).1; (date f).2].

(** [struct.pack("<L", x)]: [struct.error] outside [0, 2^32), else
    CPython's [lp_uint] loop [*q++ = x & 0xff; x >>= 8] four times. *)
Definition pack_L (x : Z) : option (list Z) :=
  if (0 <=? x)%Z && (x <? 2 ^ 32)%Z then
    Some [Z.land x 255; Z.land (Z.shiftr x 8) 255; Z.land (Z.shiftr x 16) 255;
          Z.land (Z.shiftr x 24) 255]
  else None.

Fixpoint pack_all (ws : list Z) : option (list Z) :=
  match ws with
  | [] => Some []
  | w :: ws' =>
      match pack_L w, pack_all ws' with
      | Some b, Some bs => Some (b ++ bs)
      | _, _ => None
      end
  end.

(** [FixedFileInfo.toRaw()]. *)
Definition to_raw (f : FixedFileInfo) : option (list Z) := pack_all (ffi_words f).

(** ** Reading the resource back *)

(** [struct.unpack("<L", b)] of four bytes: CPython's [lu_uint] loop
    [x = (x << 8) | p[--i]] from the last byte down. *)
Definition unpack_L (b0 b1 b2 b3 : Z) : Z :=
  Z.lor (Z.shiftl (Z.lor (Z.shiftl (Z.lor (Z.shiftl b3 8) b2) 8) b1) 8) b0.

Fixpoint unpack_all (bs : list Z) : list Z :=
  match bs with
  | b0 :: b1 :: b2 :: b3 :: bs' => unpack_L b0 b1 b2 b3 :: unpack_all bs'
  | _ => []
  end.

(** [(ms >> 16, ms & 0xffff, ls >> 16, ls & 0xffff)]. *)
Definition unpack_vers (ms ls : Z) : vers :=
  (Z.shiftr ms 16, Z.land ms 65535, Z.shiftr ls 16, Z.land ls 65535).

(** The file and product versions a reader of the raw words sees. *)
Definition versions_of_words (ws : list Z) : option (vers * vers) :=
  match ws with
  | _ :: _ :: fms :: fls :: pms :: pls :: _ => Some (unpack_vers fms fls, unpack_vers pms pls)
  | _ => None
  end.

(** ** The strings the comments keep in sync *)

(** [".".join(str(x) for x in v)] for non-negative components. *)
Definition dotted (v : vers) : ustr :=
  let '(a, b, c, d) := v in
  py_str_nat (Z.to_nat a) ++ u "." ++ py_str_nat (Z.to_nat b) ++ u "." ++
  py_str_nat (Z.to_nat c) ++ u "." ++ py_str_nat (Z.to_nat d).

(** [f"{n:04x}"] for [0 <= n < 65536]. *)
Definition hex_digit (n : Z) : Z := if (n <? 10)%Z then 48 + n else 87 + n.

Definition hex4 (n : Z) : ustr :=
  [hex_digit (Z.land (Z.shiftr n 12) 15); hex_digit (Z.land (Z.shiftr n 8) 15);
   hex_digit (Z.land (Z.shiftr n 4) 15); hex_digit (Z.land n 15)].

Definition lookup_string (t : StringTable) (k : ustr) : option ustr :=
  ss_val <$> List.find (fun s => bool_decide (ss_name s = k)) (st_strings t).

(** The well-formedness of a resource: every version component fits in 16
    bits and every other word in 32, the version strings of each table
    spell the tuples, each table's key is the hexadecimal language and
    code page of a [Translation] pair, and no table repeats a name. *)
Definition comp_ok (x : Z) : bool := (0 <=? x)%Z && (x <? 65536)%Z.
Definition word_ok (x : Z) : bool := (0 <=? x)%Z && (x <? 2 ^ 32)%Z.
Definition vers_ok (v : vers) : bool :=
  let '(a, b, c, d) := v in comp_ok a && comp_ok b && comp_ok c && comp_ok d.

Fixpoint translations (l : list Z) : list (Z * Z) :=
  match l with
  | lang :: cp :: l' => (lang, cp) :: translations l'
  | _ => []
  end.

Definition table_ok (vi : VSVersionInfo) (t : StringTable) : bool :=
  bool_decide (lookup_string t (u "FileVersion") = Some (dotted (filevers (ffi vi)))) &&
  bool_decide (lookup_string t (u "ProductVersion") = Some (dotted (prodvers (ffi vi)))) &&
  bool_decide (NoDup (map ss_name (st_strings t))) &&
  existsb (fun vs => bool_decide (vs_name vs = u "Translation") &&
             existsb (fun lc => bool_decide (st_key t = hex4 lc.1 ++ hex4 lc.2))
               (translations (vs_vals vs)))
    (var_structs vi).

Definition wf_version_info (vi : VSVersionInfo) : bool :=
  let f := ffi vi in
  vers_ok (filevers f) && vers_ok (prodvers f) &&
  forallb word_ok [mask f; flags f; OS f; fileType f; subtype f; (date f).1; (date f).2] &&
  forallb (table_ok vi) (string_tables vi).

(** ** Arithmetic of the packed words *)

Lemma lor_shiftl_low x y n :
  0 <= n -> 0 <= y < 2 ^ n -> Z.lor (Z.shiftl x n) y = x * 2 ^ n + y.
Proof.
  intros Hn Hy. rewrite Z.shiftl_mul_pow2 by lia.
  assert (Hd : Z.land (x * 2 ^ n) y = 0).
  { apply Z.bits_inj'; intros m Hm. rewrite Z.land_spec, Z.bits_0.
    destruct (Z.lt_ge_cases m n).
    - by rewrite Z.mul_pow2_bits_low.
    - rewrite <- (Z.mod_small y (2 ^ n)) by lia.
      rewrite Z.mod_pow2_bits_high by lia. apply andb_false_r. }
  rewrite <- Z.lxor_lor by exact Hd. by rewrite Z.add_nocarry_lxor.
Qed.

Lemma land_ones_mod x n m : 0 <= n -> m = 2 ^ n - 1 -> Z.land x m = x mod 2 ^ n.
Proof. intros Hn ->. rewrite Z.sub_1_r, <- Z.ones_equiv. by apply Z.land_ones. Qed.

Lemma pack_ms_eq a b : 0 <= a -> pack_ms a b = a * 65536 + b mod 65536.
Proof.
  intros Ha. unfold pack_ms.
  rewrite (land_ones_mod b 16) by (lia || reflexivity).
  rewrite (lor_shiftl_low a _ 16); [reflexivity|lia|].
  apply Z.mod_pos_bound. lia.
Qed.

Lemma unpack_pack_ms a b c d :
  0 <= a < 65536 -> 0 <= c < 65536 ->
  unpack_vers (pack_ms a b) (pack_ms c d) = (a, b mod 65536, c, d mod 65536).
Proof.
  intros Ha Hc. unfold unpack_vers. rewrite !pack_ms_eq by lia.
  rewrite !Z.shiftr_div_pow2 by lia.
  rewrite !(land_ones_mod _ 16) by (lia || reflexivity). change (2 ^ 16) with 65536.
  assert (Hb := Z.mod_pos_bound b 65536). assert (Hd := Z.mod_pos_bound d 65536).
  rewrite !Z.div_add_l, !(Z.div_small (_ mod 65536)), !Z.add_0_r by lia.
  rewrite !(Z.add_comm (_ * 65536)), !Z.mod_add, !Z.mod_mod by lia.
  reflexivity.
Qed.

Lemma pack_ms_bound a b : 0 <= a < 65536 -> 0 <= pack_ms a b < 2 ^ 32.
Proof.
  intros Ha. rewrite pack_ms_eq by lia.
  assert (Hb := Z.mod_pos_bound b 65536). change (2 ^ 32) with 4294967296. lia.
Qed.

Lemma byte_mod x : 0 <= x mod 256 < 256.
Proof. apply Z.mod_pos_bound. lia. Qed.

Lemma div_mod_256 x : x / 256 * 256 + x mod 256 = x.
Proof. rewrite Z.mul_comm. symmetry. apply Z.div_mod. lia. Qed.

(** Four little-endian bytes read back give the word. *)
Lemma unpack_pack_L x :
  0 <= x < 2 ^ 32 ->
  exists b0 b1 b2 b3, pack_L x = Some [b0; b1; b2; b3] /\ unpack_L b0 b1 b2 b3 = x /\
    Forall (fun b => 0 <= b < 256) [b0; b1; b2; b3].
Proof.
  intros Hx. unfold pack_L. destruct (Z.leb_spec0 0 x), (Z.ltb_spec0 x (2 ^ 32)); try lia.
  simpl. eexists _, _, _, _. split; [reflexivity|].
  rewrite !(land_ones_mod _ 8) by (lia || reflexivity). rewrite !Z.shiftr_div_pow2 by lia.
  change (2 ^ 8) with 256. change (2 ^ 32) with (256 * 256 * 256 * 256) in Hx.
  change (2 ^ 16) with (256 * 256). change (2 ^ 24) with (256 * 256 * 256).
  rewrite <- !Z.div_div by lia.
  set (q3 := x / 256 / 256 / 256).
  assert (Hq3 : 0 <= q3 < 256).
  { subst q3. rewrite !Z.div_div by lia.
    split; [apply Z.div_pos|apply Z.div_lt_upper_bound]; lia. }
  split; [|repeat constructor; apply byte_mod].
  unfold unpack_L. rewrite (Z.mod_small q3) by lia.
  rewrite !lor_shiftl_low by (change (2 ^ 8) with 256; first [lia | apply byte_mod]).
  change (2 ^ 8) with 256.
  subst q3. rewrite !div_mod_256. reflexivity.
Qed.

Lemma pack_all_some ws :
  Forall (fun w => 0 <= w < 2 ^ 32) ws ->
  exists raw, pack_all ws = Some raw /\ unpack_all raw = ws /\ length raw = (4 * length ws)%nat /\
    Forall (fun b => 0 <= b < 256) raw.
Proof.
  induction 1 as [|w ws Hw _ (raw & E & U & L & B)]; [by exists []|].
  destruct (unpack_pack_L w Hw) as (b0 & b1 & b2 & b3 & P & Uw & Bw).
  exists ([b0; b1; b2; b3] ++ raw). simpl. rewrite P, E, U, Uw.
  split_and!; [done|done|simpl; lia|]. by apply (Forall_app_2 _ [b0; b1; b2; b3]).
Qed.

Lemma pack_all_none ws w : w ∈ ws -> ~ (0 <= w < 2 ^ 32) -> pack_all ws = None.
Proof.
  induction ws as [|w' ws IH]; [by intros ?%elem_of_nil|].
  intros [->|Hin]%elem_of_cons Hw; simpl.
  - unfold pack_L. destruct (Z.leb_spec0 0 w'), (Z.ltb_spec0 w' (2 ^ 32)); simpl; [lia|done..].
  - rewrite (IH Hin Hw). by destruct (pack_L w').
Qed.

Lemma pack_ms_overflow a b : 65536 <= a -> ~ (0 <= pack_ms a b < 2 ^ 32).
Proof.
  intros Ha. rewrite pack_ms_eq by lia.
  assert (Hb := Z.mod_pos_bound b 65536). change (2 ^ 32) with 4294967296. lia.
Qed.

(** The words other than the versions. *)
Definition other_words (f : FixedFileInfo) : list Z :=
  [mask f; flags f; OS f; fileType f; subtype f; (date f).1; (date f).2].

Lemma ffi_words_eq f a b c d p q r s :
  filevers f = (a, b, c, d) -> prodvers f = (p, q, r, s) ->
  ffi_words f = [4277077181; 65536; pack_ms a b; pack_ms c d; pack_ms p q; pack_ms r s] ++ other_words f.
Proof. intros Hf Hp. unfold ffi_words. by rewrite Hf, Hp. Qed.

Lemma ffi_words_range f a b c d p q r s :
  filevers f = (a, b, c, d) -> prodvers f = (p, q, r, s) ->
  Forall (fun x => 0 <= x < 65536) [a; c; p; r] ->
  Forall (fun w => 0 <= w < 2 ^ 32) (other_words f) ->
  Forall (fun w => 0 <= w < 2 ^ 32) (ffi_words f).
Proof.
  intros Hf Hp Hv Ho. rewrite (ffi_words_eq f a b c d p q r s Hf Hp).
  apply Forall_app; split; [|done].
  repeat (apply Forall_cons in Hv as [? Hv]).
  repeat constructor; try apply pack_ms_bound; done.
Qed.

(** A version word out of range makes [toRaw] raise [struct.error]. *)
Lemma to_raw_high f a b c d p q r s x :
  filevers f = (a, b, c, d) -> prodvers f = (p, q, r, s) ->
  x ∈ [a; c; p; r] -> 65536 <= x -> to_raw f = None.
Proof.
  intros Hf Hp Hx Hge. unfold to_raw. rewrite (ffi_words_eq f a b c d p q r s Hf Hp).
  assert (Hin : exists y, pack_ms x y ∈ [pack_ms a b; pack_ms c d; pack_ms p q; pack_ms r s]).
  { apply elem_of_cons in Hx as [->|Hx]; [exists b; set_solver|].
    apply elem_of_cons in Hx as [->|Hx]; [exists d; set_solver|].
    apply elem_of_cons in Hx as [->|Hx]; [exists q; set_solver|].
    apply elem_of_cons in Hx as [->|Hx]; [exists s; set_solver|].
    by apply elem_of_nil in Hx. }
  destruct Hin as [y Hin].
  apply (pack_all_none _ (pack_ms x y)); [set_solver|by apply pack_ms_overflow].
Qed.

Lemma to_raw_some f a b c d p q r s :
  filevers f = (a, b, c, d) -> prodvers f = (p, q, r, s) ->
  Forall (fun x => 0 <= x < 65536) [a; c; p; r] ->
  Forall (fun w => 0 <= w < 2 ^ 32) (other_words f) ->
  exists raw, to_raw f = Some raw /\ unpack_all raw = ffi_words f /\ length raw = 52%nat.
Proof.
  intros Hf Hp Hv Ho.
  destruct (pack_all_some (ffi_words f)) as (raw & E & U & L & _);
    [by apply (ffi_words_range f a b c d p q r s)|].
  exists raw. split_and!; [done|done|]. rewrite L, (ffi_words_eq f a b c d p q r s Hf Hp). done.
Qed.

Lemma versions_ffi_words f a b c d p q r s :
  filevers f = (a, b, c, d) -> prodvers f = (p, q, r, s) ->
  Forall (fun x => 0 <= x < 65536) [a; c; p; r] ->
  versions_of_words (ffi_words f) =
    Some ((a, b mod 65536, c, d mod 65536), (p, q mod 65536, r, s mod 65536)).
Proof.
  intros Hf Hp Hv. rewrite (ffi_words_eq f a b c d p q r s Hf Hp). simpl.
  repeat (apply Forall_cons in Hv as [? Hv]). by rewrite !unpack_pack_ms.
Qed.

Lemma Forall_range (l : list Z) lo hi :
  Forall (fun x => lo <= x) l -> Forall (fun x => x < hi) l -> Forall (fun x => lo <= x < hi) l.
Proof. rewrite !Forall_forall. intros H1 H2 x Hx. split; auto. Qed.

Lemma comp_ok_spec x : comp_ok x = true <-> 0 <= x < 65536.
Proof. unfold comp_ok. rewrite andb_true_iff, Z.leb_le, Z.ltb_lt. done. Qed.

Lemma word_ok_spec x : word_ok x = true <-> 0 <= x < 2 ^ 32.
Proof. unfold word_ok. rewrite andb_true_iff, Z.leb_le, Z.ltb_lt. done. Qed.

Lemma vers_ok_spec a b c d :
  vers_ok (a, b, c, d) = true <-> Forall (fun x => 0 <= x < 65536) [a; b; c; d].
Proof.
  unfold vers_ok. rewrite !andb_true_iff, !comp_ok_spec.
  rewrite !Forall_cons, Forall_nil. tauto.
Qed.

Lemma table_ok_strings vi t :
  table_ok vi t = true ->
  lookup_string t (u "FileVersion") = Some (dotted (filevers (ffi vi))) /\
  lookup_string t (u "ProductVersion") = Some (dotted (prodvers (ffi vi))).
Proof. unfold table_ok. rewrite !andb_true_iff, !bool_decide_eq_true. tauto. Qed.

(** ** Properties *)

(** The bounds of the packed versions: with non-negative components
    and the other words in [0, 2^32), [toRaw] succeeds exactly when the
    first and third component of each version tuple are below [2^16]
    (otherwise [struct.error]); the version read back is then the tuple
    with its second and fourth components taken modulo [2^16], so a
    component of [65536] or more is silently wrapped. *)
Theorem to_raw_bounds f a b c d p q r s :
  filevers f = (a, b, c, d) -> prodvers f = (p, q, r, s) ->
  Forall (fun x => 0 <= x) [a; c; p; r] ->
  Forall (fun w => 0 <= w < 2 ^ 32) (other_words f) ->
  (is_Some (to_raw f) <-> Forall (fun x => x < 65536) [a; c; p; r]) /\
  (forall raw, to_raw f = Some raw ->
     versions_of_words (unpack_all raw) =
       Some ((a, b mod 65536, c, d mod 65536), (p, q mod 65536, r, s mod 65536))).
Proof.
  intros Hf Hp Hpos Ho.
  assert (Hiff : is_Some (to_raw f) <-> Forall (fun x => x < 65536) [a; c; p; r]).
  { split.
    - intros [raw E]. apply Forall_forall. intros x Hx.
      destruct (Z.lt_ge_cases x 65536) as [|Hge]; [done|].
      by rewrite (to_raw_high f a b c d p q r s x Hf Hp Hx Hge) in E.
    - intros Hlt. destruct (to_raw_some f a b c d p q r s Hf Hp (Forall_range _ _ _ Hpos Hlt) Ho)
        as (raw & E & _). by eexists. }
  split; [done|]. intros raw E.
  assert (Hv : Forall (fun x => 0 <= x < 65536) [a; c; p; r]).
  { apply Forall_range; [done|]. apply Hiff. by eexists. }
  destruct (to_raw_some f a b c d p q r s Hf Hp Hv Ho) as (raw' & E' & U & _).
  rewrite E in E'. injection E' as <-. rewrite U.
  by apply versions_ffi_words.
Qed.

(** A well-formed resource, such as the one of [version_info.py],
    is written by [toRaw] as 52 bytes from which the file and product
    versions are read back unchanged, and these are the versions its
    [FileVersion] and [ProductVersion] strings spell. *)
Theorem wf_version_info_roundtrip vi :
  wf_version_info vi = true ->
  exists raw, to_raw (ffi vi) = Some raw /\ length raw = 52%nat /\
    versions_of_words (unpack_all raw) = Some (filevers (ffi vi), prodvers (ffi vi)) /\
    Forall (fun t => lookup_string t (u "FileVersion") = Some (dotted (filevers (ffi vi))) /\
                     lookup_string t (u "ProductVersion") = Some (dotted (prodvers (ffi vi))))
      (string_tables vi).
Proof.
  unfold wf_version_info. rewrite !andb_true_iff. intros [[[Hfv Hpv] Ho] Ht].
  destruct (filevers (ffi vi)) as [[[a b] c] d] eqn:Hf.
  destruct (prodvers (ffi vi)) as [[[p q] r] s] eqn:Hp.
  apply vers_ok_spec in Hfv, Hpv. rewrite !Forall_cons in Hfv, Hpv.
  assert (Hv : Forall (fun x => 0 <= x < 65536) [a; c; p; r]) by (repeat constructor; tauto).
  assert (Ho' : Forall (fun w => 0 <= w < 2 ^ 32) (other_words (ffi vi))).
  { apply Forall_forall. intros x Hx. apply word_ok_spec.
    rewrite forallb_forall in Ho. by apply Ho, list_elem_of_In. }
  destruct (to_raw_some _ a b c d p q r s Hf Hp Hv Ho') as (raw & E & U & L).
  exists raw. split_and!; [done|done| |].
  - rewrite U, (versions_ffi_words _ a b c d p q r s Hf Hp Hv), !Z.mod_small by tauto. done.
  - apply Forall_forall. intros t Ht'. rewrite <- Hf, <- Hp. apply table_ok_strings.
    rewrite forallb_forall in Ht. by apply Ht, list_elem_of_In.
Qed.

Lemma wf_version_info_roundtrip_witness :
  wf_version_info version_info = true /\
  exists raw, to_raw (ffi version_info) = Some raw /\ length raw = 52%nat /\
    versions_of_words (unpack_all raw) =
      Some (filevers (ffi version_info), prodvers (ffi version_info)) /\
    Forall (fun t => lookup_string t (u "FileVersion") = Some (dotted (filevers (ffi version_info))) /\
                     lookup_string t (u "ProductVersion") = Some (dotted (prodvers (ffi version_info))))
      (string_tables version_info).
Proof.
  split; [vm_compute; reflexivity|].
  apply wf_version_info_roundtrip. vm_compute. reflexivity.
Defined.

Lemma to_raw_bounds_witness :
  (is_Some (to_raw ex_bump) <-> Forall (fun x => x < 65536) [1; 0; 1; 0]) /\
  (forall raw, to_raw ex_bump = Some raw ->
     versions_of_words (unpack_all raw) =
       Some ((1, 65536 mod 65536, 0, 0 mod 65536), (1, 0 mod 65536, 0, 0 mod 65536))).
Proof.
  apply (to_raw_bounds ex_bump 1 65536 0 0 1 0 0 0); [reflexivity|reflexivity| |].
  - repeat constructor; lia.
  - unfold other_words; simpl. repeat constructor; lia.
Defined.

End VersionInfo.
