(* ===== verification/CopySpec.v ===== *)
(** * CopyContract: the copy engine against the contract of its specification

    The specification of the repository (section 4.4, with the error
    policy of section 7) describes [copy_selected] and [copy_attachments]
    as a contract rather than as code: for each selected relative path,
    find the source folder (as written, else by fuzzy resolution, else a
    warning and the path is skipped), ensure the destination folder, then
    for every regular file directly inside the source apply the conflict
    policy ([skip], [overwrite], [duplicate] with the lowest free suffix),
    copying with the file's metadata, one log event per file, a copy error
    being reported and not stopping the loop.

    This file states that contract as inductive relations over the file
    system of [Fs] and the events of [Copier] ([file_spec], [files_spec],
    [copy_selected_spec], [attach_spec]), including the copy the device
    refuses part way (section 7's "disk full", with "no rollback"), and
    proves that every run of
    [copiar_padrao_resiliente] and [anexar_arquivos]
    ([src/LicitagovLicitacaoMesApp.py] lines 138-189) is a behaviour the
    contract allows.  Two things the contract leaves open are written as
    their own rules: a directory standing where an overwritten file
    should be (section 3 defines the policy for files only), and the
    exceptions raised outside the per-file [try] (source resolution,
    [dst_dir.mkdir], [src_dir.iterdir()]), which end the whole call in
    the code while section 7 asks for per-item errors. *)

From Stdlib Require Import ZArith Lia.
From Stdlib Require Import Strings.String.
From stdpp Require Import base list sets.
From S2P Require Import Prelude Normalize Fs Resolver Copier.
Import FileSystem PathResolver ResilientCopier.

Local Open Scope py_scope.

Module CopyContract.

(** ** The vocabulary of the specification *)

(** [ConflictPolicy] of section 3, and the strings the windows pass for
    it: the [if politica == "pular" ... elif politica == "substituir" ...
    else] of the per-file step. *)
Inductive ConflictPolicy := Skip | Overwrite | Duplicate.

Definition policy_of (politica : ustr) : ConflictPolicy :=
  if decide (politica = u "pular") then Skip
  else if decide (politica = u "substituir") then Overwrite
  else Duplicate.

(** Step 1: [template_root / rel_path] when it exists, else the fuzzy
    resolution when it finds an existing folder, else nothing; an error of
    the fuzzy resolution's listing propagates. *)
Definition source_dir (f : fs) (tpl : path) (rel : ustr) : outcome oserr (option path) :=
  let src := join tpl rel in
  if path_exists f src then Ok (Some src) else
  match _resolver_subpasta_flex f tpl rel with
  | Ok (Some a) => Ok (if path_exists f a then Some a else None)
  | Ok None => Ok None
  | Exc e => Exc e
  end.

(** "copy, preserving file metadata (timestamps)". *)
Definition copy_of (f : fs) (src dst : path) (f' : fs) : Prop :=
  exists d t, lookup_node f src = Some (NFile d t) /\ f' = set_node dst (NFile d t) f.

(** When the operating system lets a file be opened and copied to [dst]:
    the source is another path and a file, [dst] is no directory and no
    read-only file, and its folder is a writable directory. *)
Definition can_write (f : fs) (src dst : path) : Prop :=
  src <> dst /\ is_file f src = true /\ is_dir f dst = false /\
  is_dir f (parent dst) = true /\ parent dst ∉ fs_ro f /\ dst ∉ fs_ro f.

(** "the lowest integer suffix [_1], [_2], ... appended before the file
    extension such that the resulting name does not exist". *)
Definition lowest_free (f : fs) (dir : path) (nome : name) (t : path) : Prop :=
  exists k, 1 <= k /\ t = candidato dir nome k /\ path_exists f t = false /\
    forall j, 1 <= j < k -> path_exists f (candidato dir nome j) = true.

(** The decision for one file: copy to [t] with the message [m], or skip. *)
Inductive escolha := ECopy (t : path) (m : msg) | ESkip (m : msg).

Definition escolha_spec (pol : ConflictPolicy) (f : fs) (dst_dir item : path) (c : escolha) : Prop :=
  let dest := dst_dir ++ [base_name item] in
  match c with
  | ECopy t m =>
      (path_exists f dest = false /\ t = dest /\ m = MCopiar (base_name item)) \/
      (is_file f dest = true /\ pol = Overwrite /\ t = dest /\ m = MSubstituir (base_name item)) \/
      (path_exists f dest = true /\ pol = Duplicate /\ lowest_free f dst_dir (base_name item) t /\
       m = MDuplicar (base_name t))
  | ESkip m => path_exists f dest = true /\ pol = Skip /\ m = MPular (base_name item)
  end.

(** One file: the copy the decision asks for and an [ok] event, or, when
    the copy cannot be made, no change and an [error] event naming the
    file and the cause; a copy the device refuses part way (section 7's
    "disk full, I/O fault", with "no rollback") leaves its target holding a
    proper prefix of the data, stamped with the time of the write, and an
    [error] event; a skip leaves everything and logs [info].  A directory
    where an overwritten file should be is outside the contract: only one
    event and no removal are required. *)
Inductive file_spec (falha : name -> oserr -> msg) (pol : ConflictPolicy) (dst_dir item : path)
    (f : fs) : fs -> event -> Prop :=
| fs_copy t m f' :
    escolha_spec pol f dst_dir item (ECopy t m) -> can_write f item t -> copy_of f item t f' ->
    file_spec falha pol dst_dir item f f' (LOk, m)
| fs_fail t m e :
    escolha_spec pol f dst_dir item (ECopy t m) -> ~ can_write f item t ->
    file_spec falha pol dst_dir item f f (LError, falha (base_name item) e)
| fs_partial t m d tm n e :
    escolha_spec pol f dst_dir item (ECopy t m) -> can_write f item t ->
    lookup_node f item = Some (NFile d tm) -> n < length d ->
    file_spec falha pol dst_dir item f (set_node t (NFile (take n d) (fs_agora f)) f)
      (LError, falha (base_name item) e)
| fs_skip m :
    escolha_spec pol f dst_dir item (ESkip m) ->
    file_spec falha pol dst_dir item f f (LInfo, m)
| fs_dir_overwrite f' ev :
    is_dir f (dst_dir ++ [base_name item]) = true -> pol = Overwrite -> keeps f f' ->
    file_spec falha pol dst_dir item f f' ev.

(** Step 3 over the entries of the source folder: the regular files are
    copied in listing order, anything else is passed over. *)
Inductive files_spec (falha : name -> oserr -> msg) (pol : ConflictPolicy) (dst_dir : path)
    : fs -> list path -> fs -> list event -> Prop :=
| files_nil f : files_spec falha pol dst_dir f [] f []
| files_other f item items f' evs :
    is_file f item = false -> files_spec falha pol dst_dir f items f' evs ->
    files_spec falha pol dst_dir f (item :: items) f' evs
| files_file f item items f1 ev f' evs :
    is_file f item = true -> file_spec falha pol dst_dir item f f1 ev ->
    files_spec falha pol dst_dir f1 items f' evs ->
    files_spec falha pol dst_dir f (item :: items) f' (ev :: evs).

(** [copy_selected]: the selected paths in order, each either skipped with
    a warning or copied into [dest_root / rel]; the last three rules are
    the exceptions that end the whole call. *)
Inductive copy_selected_spec (tpl dst : path) (pol : ConflictPolicy)
    : fs -> list ustr -> fs -> list event -> outcome oserr unit -> Prop :=
| cs_nil f : copy_selected_spec tpl dst pol f [] f [] (Ok tt)
| cs_missing f rel rels f' evs r :
    source_dir f tpl rel = Ok None ->
    copy_selected_spec tpl dst pol f rels f' evs r ->
    copy_selected_spec tpl dst pol f (rel :: rels) f' ((LWarn, MNaoEncontrada (join tpl rel)) :: evs) r
| cs_copy f rel rels src f1 items f2 evs1 f' evs r :
    source_dir f tpl rel = Ok (Some src) ->
    mkdir_p (join dst rel) f = (f1, Ok tt) ->
    iterdir f1 src = Ok items ->
    files_spec MFalhaCopiar pol (join dst rel) f1 items f2 evs1 ->
    copy_selected_spec tpl dst pol f2 rels f' evs r ->
    copy_selected_spec tpl dst pol f (rel :: rels) f' (evs1 ++ evs) r
| cs_abort_source f rel rels e :
    source_dir f tpl rel = Exc e ->
    copy_selected_spec tpl dst pol f (rel :: rels) f [] (Exc e)
| cs_abort_mkdir f rel rels src f1 e :
    source_dir f tpl rel = Ok (Some src) ->
    mkdir_p (join dst rel) f = (f1, Exc e) ->
    copy_selected_spec tpl dst pol f (rel :: rels) f1 [] (Exc e)
| cs_abort_list f rel rels src f1 e :
    source_dir f tpl rel = Ok (Some src) ->
    mkdir_p (join dst rel) f = (f1, Ok tt) ->
    iterdir f1 src = Exc e ->
    copy_selected_spec tpl dst pol f (rel :: rels) f1 [] (Exc e).

(** [copy_attachments]: the same per-file algorithm over an explicit list,
    into one destination folder; a path that is not an existing file is
    passed over with a warning. *)
Inductive attach_items_spec (pol : ConflictPolicy) (dst_dir : path)
    : fs -> list path -> fs -> list event -> Prop :=
| at_nil f : attach_items_spec pol dst_dir f [] f []
| at_ignored f src srcs f' evs :
    path_exists f src && is_file f src = false ->
    attach_items_spec pol dst_dir f srcs f' evs ->
    attach_items_spec pol dst_dir f (src :: srcs) f' ((LWarn, MIgnorado src) :: evs)
| at_file f src srcs f1 ev f' evs :
    path_exists f src && is_file f src = true ->
    file_spec MFalhaAnexar pol dst_dir src f f1 ev ->
    attach_items_spec pol dst_dir f1 srcs f' evs ->
    attach_items_spec pol dst_dir f (src :: srcs) f' (ev :: evs).

Inductive attach_spec (files : list path) (dst : path) (sub : ustr) (pol : ConflictPolicy)
    (f : fs) : fs -> list event -> outcome oserr unit -> Prop :=
| at_run f1 f' evs :
    mkdir_p (join dst sub) f = (f1, Ok tt) ->
    attach_items_spec pol (join dst sub) f1 files f' evs ->
    attach_spec files dst sub pol f f' evs (Ok tt)
| at_abort f1 e :
    mkdir_p (join dst sub) f = (f1, Exc e) ->
    attach_spec files dst sub pol f f1 [] (Exc e).

(** A template [T] with the folders [A] and [B], each holding a file, and
    a destination [D] where [A] is a file. *)
Definition ex_aborta : fs := mkFs
  [([u "T"], NDir); ([u "T"; u "A"], NDir); ([u "T"; u "A"; u "a.docx"], NFile (u "a") 1);
   ([u "T"; u "B"], NDir); ([u "T"; u "B"; u "b.docx"], NFile (u "b") 2);
   ([u "D"], NDir); ([u "D"; u "A"], NFile [] 0)] [].

(** ** Each step of the code against its rule *)

#[local] Arguments copy2 : simpl never.
#[local] Arguments _proximo_nome_livre : simpl never.
#[local] Arguments mkdir_p : simpl never.
#[local] Arguments iterdir : simpl never.
#[local] Arguments _resolver_subpasta_flex : simpl never.

(** [shutil.copy2] to a path that is no directory either copies, when the
    system allows it and the device takes the whole file, or is refused
    part way and leaves a prefix of the data, or raises and changes
    nothing when the system does not allow it. *)
Lemma copy2_cases src dst f :
  is_dir f dst = false ->
  (can_write f src dst /\ exists d t, lookup_node f src = Some (NFile d t) /\
     (copy2 src dst f = (set_node dst (NFile d t) f, Ok dst) \/
      exists n e, n < length d /\
        copy2 src dst f = (set_node dst (NFile (take n d) (fs_agora f)) f, Exc e))) \/
  (~ can_write f src dst /\ exists e, copy2 src dst f = (f, Exc e)).
Proof.
  intros Hd. unfold copy2, copy_target. rewrite Hd.
  destruct (decide (src = dst)) as [->|Hne].
  { right. split; [unfold can_write; tauto|]. rewrite bool_decide_true by done.
    destruct (path_exists f dst) eqn:He; simpl; [by eexists|].
    rewrite exists_lookup by done. by eexists. }
  rewrite bool_decide_false by done. simpl.
  destruct (lookup_node f src) as [[|d t]|] eqn:Hs;
    try (right; split; [unfold can_write, is_file; rewrite Hs; naive_solver|by eexists]).
  destruct (lookup_node f dst) as [[|]|] eqn:Hdl; [unfold is_dir in Hd; by rewrite Hdl in Hd| |];
  (destruct (lookup_node f (parent dst)) as [[|]|] eqn:Hp;
    try (right; split; [unfold can_write, is_dir; rewrite Hp; naive_solver|by eexists]));
  (destruct (decide (parent dst ∈ fs_ro f));
    [right; split; [unfold can_write; naive_solver|by eexists]|]);
  (destruct (decide (dst ∈ fs_ro f)); [right; split; [unfold can_write; naive_solver|by eexists]|]);
  (left; split; [unfold can_write, is_file, is_dir; rewrite Hs, Hp; naive_solver|]);
  exists d, t; (split; [done|]);
  (destruct (cota f dst) as [k|]; [destruct (decide (k < length d))|]);
  first [left; done | right; by eexists _, _].
Qed.

Lemma exists_not_dir f p : path_exists f p = false -> is_dir f p = false.
Proof. unfold path_exists, is_dir. by destruct (lookup_node f p). Qed.

(** When the name itself exists, [_proximo_nome_livre] gives the lowest
    free suffixed name. *)
Lemma proximo_lowest_free f dir nome :
  path_exists f (dir ++ [nome]) = true ->
  lowest_free f dir nome (_proximo_nome_livre f dir nome).
Proof.
  intros Hex.
  destruct (proximo_loop_spec f dir nome (S (length (fs_entries f))) 0
              (some_candidate_free f dir nome)) as (k & _ & Hloop & Hfree & Hmin).
  rewrite proximo_nome_livre_unfold, Hloop. exists k.
  assert (k <> 0) by (intros ->; simpl in Hfree; congruence).
  split; [lia|]. split; [done|]. split; [done|]. intros j Hj. apply Hmin. lia.
Qed.

(** The three copying branches of the per-file step: [copy2] to the
    decided target, then the [ok] event, inside the [try]. *)
Ltac copy_branch t :=
  match goal with
  | Hesc : escolha_spec _ _ _ ?item (ECopy t ?m), Hnd : is_dir ?f t = false |- _ =>
      let Hcw := fresh "Hcw" in let dd := fresh "dd" in let tm := fresh "tm" in
      let Hsrc := fresh "Hsrc" in let Hcp := fresh "Hcp" in let ee := fresh "ee" in
      let n := fresh "n" in let Hn := fresh "Hn" in
      destruct (copy2_cases item t f Hnd)
        as [(Hcw & dd & tm & Hsrc & [Hcp|(n & ee & Hn & Hcp)]) | (Hcw & ee & Hcp)];
      rewrite Hcp; simpl; (eexists _, _; split; [reflexivity|]);
      [eapply fs_copy; [exact Hesc|exact Hcw|by exists dd, tm]
      |eapply fs_partial; [exact Hesc|exact Hcw|exact Hsrc|exact Hn]
      |eapply fs_fail; [exact Hesc|exact Hcw]]
  end.

Lemma copiar_um_spec falha dst_dir item pol f l :
  exists f' ev, copiar_um falha dst_dir item pol (f, l) = ((f', l ++ [ev]), Ok tt) /\
    file_spec falha (policy_of pol) dst_dir item f f' ev.
Proof.
  set (dest := dst_dir ++ [base_name item]).
  unfold copiar_um, try_except, bind, read, emit, on_fs. simpl. fold dest.
  destruct (path_exists f dest) eqn:Hex.
  - destruct (decide (pol = u "pular")) as [Hp|Hp].
    { eexists _, _. split; [reflexivity|]. apply fs_skip.
      unfold policy_of. rewrite decide_True by done. fold dest.
      split_and!; [done|done|]. unfold dest; by rewrite base_name_snoc. }
    destruct (decide (pol = u "substituir")) as [Hs|Hs].
    + destruct (is_dir f dest) eqn:Hd.
      * destruct (copy2 item dest f) as [f1 [p|e]] eqn:Hc; simpl;
          (eexists _, _; split; [reflexivity|]);
          (apply fs_dir_overwrite; [done|unfold policy_of; by rewrite decide_False, decide_True|]);
          pose proof (copy2_keeps item dest f) as Hk; by rewrite Hc in Hk.
      * assert (Hesc : escolha_spec (policy_of pol) f dst_dir item
                         (ECopy dest (MSubstituir (base_name dest)))).
        { right; left. unfold policy_of. rewrite decide_False, decide_True by done.
          unfold is_file. unfold path_exists, is_dir in Hex, Hd.
          split_and!; [fold dest; destruct (lookup_node f dest) as [[|]|]; congruence|done|done|].
          unfold dest; by rewrite base_name_snoc. }
        copy_branch dest.
    + set (t := _proximo_nome_livre f dst_dir (base_name item)).
      destruct (proximo_nome_livre_free f dst_dir (base_name item)) as [Hfree _]. fold t in Hfree.
      pose proof (exists_not_dir f t Hfree) as Hnd.
      assert (Hesc : escolha_spec (policy_of pol) f dst_dir item (ECopy t (MDuplicar (base_name t)))).
      { right; right. unfold policy_of. rewrite !decide_False by done.
        split_and!; [done|done| |done]. by apply proximo_lowest_free. }
      copy_branch t.
  - pose proof (exists_not_dir f dest Hex) as Hnd.
    assert (Hesc : escolha_spec (policy_of pol) f dst_dir item (ECopy dest (MCopiar (base_name dest)))).
    { left. split_and!; [done|done|]. unfold dest; by rewrite base_name_snoc. }
    copy_branch dest.
Qed.

(** The loop over the entries of one source folder. *)
Lemma copiar_files_spec falha pol dst_dir items f l :
  exists f' evs,
    for_each items (fun item =>
      isf <- read (fun f => is_file f item) ;;
      if isf then copiar_um falha dst_dir item pol else ret tt) (f, l) = ((f', l ++ evs), Ok tt) /\
    files_spec falha (policy_of pol) dst_dir f items f' evs.
Proof.
  revert f l. induction items as [|item items IH]; intros f l.
  { exists f, []. rewrite app_nil_r. split; [done|constructor]. }
  cbn [for_each]. destruct (is_file f item) eqn:Hf.
  - destruct (copiar_um_spec falha dst_dir item pol f l) as (f1 & ev & E1 & S1).
    destruct (IH f1 (l ++ [ev])) as (f' & evs & E2 & S2).
    exists f', (ev :: evs). rewrite (bind_Ok _ _ _ (f1, l ++ [ev]) tt).
    + rewrite E2, <- app_assoc. split; [done|]. by eapply files_file.
    + unfold bind, read. simpl. by rewrite Hf, E1.
  - destruct (IH f l) as (f' & evs & E2 & S2). exists f', evs.
    rewrite (bind_Ok _ _ _ (f, l) tt).
    + rewrite E2. split; [done|]. by apply files_other.
    + unfold bind, read. simpl. by rewrite Hf.
Qed.

(** Step 1 of the code ([pasta_origem]) is [source_dir], with the warning
    when nothing is found. *)
Lemma pasta_origem_spec tpl rel f l :
  pasta_origem tpl rel (f, l) =
    match source_dir f tpl rel with
    | Exc e => ((f, l), Exc e)
    | Ok None => ((f, l ++ [(LWarn, MNaoEncontrada (join tpl rel))]), Ok None)
    | Ok (Some a) => ((f, l), Ok (Some a))
    end.
Proof.
  unfold pasta_origem, source_dir, bind, read, query, emit, ret. simpl.
  destruct (path_exists f (join tpl rel)); [done|].
  destruct (_resolver_subpasta_flex f tpl rel) as [[a|]|e]; simpl; [|done|done].
  by destruct (path_exists f a).
Qed.

(** ** Refinement *)

Lemma copiar_padrao_spec tpl dst sel pol f l :
  exists f' evs r, copiar_padrao_resiliente tpl dst sel pol (f, l) = ((f', l ++ evs), r) /\
    copy_selected_spec tpl dst (policy_of pol) f sel f' evs r.
Proof.
  revert f l. induction sel as [|rel rels IH]; intros f l.
  { exists f, [], (Ok tt). rewrite app_nil_r. split; [done|constructor]. }
  unfold copiar_padrao_resiliente. cbn [for_each].
  fold (copiar_padrao_resiliente tpl dst rels pol).
  destruct (source_dir f tpl rel) as [[src|]|e] eqn:Hsrc.
  - assert (Hp : pasta_origem tpl rel (f, l) = ((f, l), Ok (Some src)))
      by (rewrite pasta_origem_spec, Hsrc; reflexivity).
    destruct (mkdir_p (join dst rel) f) as [f1 [[]|e]] eqn:Hmk.
    + assert (Hm : @on_fs (list event) _ (mkdir_p (join dst rel)) (f, l) = ((f1, l), Ok tt))
        by (unfold on_fs; by rewrite Hmk).
      destruct (iterdir f1 src) as [items|e] eqn:Hit.
      * assert (Hq : @query (list event) _ (fun f => iterdir f src) (f1, l) = ((f1, l), Ok items))
          by (unfold query; by rewrite Hit).
        destruct (copiar_files_spec MFalhaCopiar pol (join dst rel) items f1 l) as (f2 & evs1 & E1 & S1).
        destruct (IH f2 (l ++ evs1)) as (f' & evs & r & E2 & S2).
        exists f', (evs1 ++ evs), r.
        rewrite (bind_Ok _ _ _ (f2, l ++ evs1) tt).
        -- rewrite E2, <- app_assoc. split; [done|]. by eapply cs_copy.
        -- rewrite (bind_Ok _ _ _ _ _ Hp), (bind_Ok _ _ _ _ _ Hm), (bind_Ok _ _ _ _ _ Hq). exact E1.
      * exists f1, [], (Exc e). rewrite app_nil_r. split; [|by eapply cs_abort_list].
        apply bind_Exc. rewrite (bind_Ok _ _ _ _ _ Hp), (bind_Ok _ _ _ _ _ Hm).
        apply bind_Exc. unfold query. by rewrite Hit.
    + exists f1, [], (Exc e). rewrite app_nil_r. split; [|by eapply cs_abort_mkdir].
      apply bind_Exc. rewrite (bind_Ok _ _ _ _ _ Hp). apply bind_Exc. unfold on_fs. by rewrite Hmk.
  - destruct (IH f (l ++ [(LWarn, MNaoEncontrada (join tpl rel))])) as (f' & evs & r & E & S).
    exists f', ((LWarn, MNaoEncontrada (join tpl rel)) :: evs), r.
    rewrite (bind_Ok _ _ _ (f, l ++ [(LWarn, MNaoEncontrada (join tpl rel))]) tt).
    + rewrite E, <- app_assoc. split; [done|]. by apply cs_missing.
    + rewrite (bind_Ok _ _ _ (f, l ++ [(LWarn, MNaoEncontrada (join tpl rel))]) None); [done|].
      by rewrite pasta_origem_spec, Hsrc.
  - exists f, [], (Exc e). rewrite app_nil_r. split; [|by apply cs_abort_source].
    apply bind_Exc. apply bind_Exc. by rewrite pasta_origem_spec, Hsrc.
Qed.



Lemma anexar_items_spec pol dst_dir arqs f l :
  exists f' evs,
    for_each arqs (fun src =>
      ok <- read (fun f => path_exists f src && is_file f src) ;;
      if ok then copiar_um MFalhaAnexar dst_dir src pol
      else emit (LWarn, MIgnorado src)) (f, l) = ((f', l ++ evs), Ok tt) /\
    attach_items_spec (policy_of pol) dst_dir f arqs f' evs.
Proof.
  revert f l. induction arqs as [|src arqs IH]; intros f l.
  { exists f, []. rewrite app_nil_r. split; [done|constructor]. }
  cbn [for_each]. destruct (path_exists f src && is_file f src) eqn:Hok.
  - destruct (copiar_um_spec MFalhaAnexar dst_dir src pol f l) as (f1 & ev & E1 & S1).
    destruct (IH f1 (l ++ [ev])) as (f' & evs & E2 & S2).
    exists f', (ev :: evs). rewrite (bind_Ok _ _ _ (f1, l ++ [ev]) tt).
    + rewrite E2, <- app_assoc. split; [done|]. by eapply at_file.
    + unfold bind, read. simpl. by rewrite Hok, E1.
  - destruct (IH f (l ++ [(LWarn, MIgnorado src)])) as (f' & evs & E2 & S2).
    exists f', ((LWarn, MIgnorado src) :: evs).
    rewrite (bind_Ok _ _ _ (f, l ++ [(LWarn, MIgnorado src)]) tt).
    + rewrite E2, <- app_assoc. split; [done|]. by apply at_ignored.
    + unfold bind, read, emit. simpl. by rewrite Hok.
Qed.

Lemma anexar_spec arqs dst sub pol f l :
  exists f' evs r, anexar_arquivos arqs dst sub pol (f, l) = ((f', l ++ evs), r) /\
    attach_spec arqs dst sub (policy_of pol) f f' evs r.
Proof.
  unfold anexar_arquivos.
  destruct (mkdir_p (join dst sub) f) as [f1 [[]|e]] eqn:Hmk.
  - destruct (anexar_items_spec pol (join dst sub) arqs f1 l) as (f' & evs & E & S).
    exists f', evs, (Ok tt). split; [|by eapply at_run].
    rewrite (bind_Ok _ _ _ (f1, l) tt); [done|]. unfold on_fs. by rewrite Hmk.
  - exists f1, [], (Exc e). rewrite app_nil_r. split; [|by apply at_abort].
    apply bind_Exc. unfold on_fs. by rewrite Hmk.
Qed.

(** ** Properties *)

(** C7: the copy engine refines the contract of the specification: every
    run of [copiar_padrao_resiliente] and of [anexar_arquivos], whatever
    the file system, the selection and the policy string, appends to the
    log exactly the events of a behaviour of [copy_selected_spec] (resp.
    [attach_spec]) and ends in its file system and outcome; in particular
    each regular file gets one event, a copy the system does not allow
    changes nothing, a copy the device refuses part way leaves only its
    target changed, holding a proper prefix of the source's data, and a
    missing source folder is skipped with one warning. *)
Theorem copiador_refina_contrato tpl dst sel arqs sub pol f l :
  (exists f' evs r, copiar_padrao_resiliente tpl dst sel pol (f, l) = ((f', l ++ evs), r) /\
     copy_selected_spec tpl dst (policy_of pol) f sel f' evs r) /\
  (exists f' evs r, anexar_arquivos arqs dst sub pol (f, l) = ((f', l ++ evs), r) /\
     attach_spec arqs dst sub (policy_of pol) f f' evs r).
Proof. split; [apply copiar_padrao_spec|apply anexar_spec]. Qed.

(** C10: against section 7 of the specification ("FilesystemError ...
    non-fatal at the per-item granularity ... processing continues with
    the next item"), a destination folder that cannot be created ends the
    whole copy: when the source folder of a selected path is found and its
    destination folder is, or lies below, a file, [copiar_padrao_resiliente]
    raises there, changes nothing, logs nothing, and none of the selected
    paths after it is processed, whatever they are. *)
Theorem copiar_padrao_aborta tpl dst rel rels pol f l src b d t :
  wf f -> source_dir f tpl rel = Ok (Some src) ->
  b `prefix_of` join dst rel -> lookup_node f b = Some (NFile d t) ->
  exists e, copiar_padrao_resiliente tpl dst (rel :: rels) pol (f, l) = ((f, l), Exc e).
Proof.
  intros Hwf Hsrc Hpre Hb. destruct (mkdir_p_blocked f _ b d t Hwf Hpre Hb) as [e He].
  exists e. unfold copiar_padrao_resiliente. cbn [for_each]. apply bind_Exc.
  rewrite (bind_Ok _ _ _ (f, l) (Some src)) by (by rewrite pasta_origem_spec, Hsrc).
  apply bind_Exc. unfold on_fs. by rewrite He.
Qed.

(** With [D/A] a file, selecting [A] and [B] raises at [A], and the file
    of [B] is not copied. *)
Lemma copiar_padrao_aborta_witness :
  exists e, copiar_padrao_resiliente [u "T"] [u "D"] [u "A"; u "B"] (u "duplicar") (ex_aborta, []) =
    ((ex_aborta, []), Exc e).
Proof.
  apply (copiar_padrao_aborta [u "T"] [u "D"] (u "A") [u "B"] (u "duplicar") ex_aborta []
           [u "T"; u "A"] [u "D"; u "A"] [] 0);
    [apply wfb_sound; vm_compute; reflexivity | vm_compute; reflexivity
    | exists []; vm_compute; reflexivity | vm_compute; reflexivity].
Defined.

End CopyContract.
