(* ===== verification/Domain.v ===== *)
(** * Dominio: the constants and the small functions around the copier

    [src/LicitagovLicitacaoMesApp.py]: the constants [MESES],
    [SUBPASTAS_DESTINO], [SUBPASTAS_PADRAO_PRESELECIONADAS] and
    [SUBPASTA_DEFAULT_ANEXOS] (lines 19-48), [caminho_licitacao_raiz]
    (lines 60-64), [detectar_pasta_modelos] (lines 66-72),
    [detectar_pasta_template] (lines 74-88), [montar_nome_licitacao]
    (lines 103-104) and [criar_estrutura_licitacao] (lines 106-108).  The
    UI window's copies (lines 37-66 and 96-180 of
    [LicitagovLicitacaoMesApp_UI.py]) hold the same constants; its
    [detectar_pasta_modelos] is written as a loop (lines 104-119), modelled
    as [detectar_pasta_modelos_ui] and proved equal to the comprehension,
    and it adds the unused [_normalize_path_parts] (lines 88-89).

    [caminho_participar()] is the folder of the script, an absolute path
    ([app_dir]); the detected folders are absolute.  A folder detected
    inside a relative [Path] (the fields of the window hold strings, and
    [Path("")] is the working directory) is relative, as [iterdir] gives
    it. *)

From Stdlib Require Import ZArith Lia.
From Stdlib Require Import Strings.String.
From stdpp Require Import base list sets sorting.
From S2P Require Import Prelude Normalize Fs Resolver.
Import NameNormalizer FileSystem PathResolver.

Local Open Scope py_scope.

Module Dominio.

(** ** Constants *)

Definition MESES : list ustr := map u [
  "01. JANEIRO"; "02. FEVEREIRO"; "03. MARCO"; "04. ABRIL";
  "05. MAIO"; "06. JUNHO"; "07. JULHO"; "08. AGOSTO";
  "09. SETEMBRO"; "10. OUTUBRO"; "11. NOVEMBRO"; "12. DEZEMBRO"]%string.

Definition SUBPASTAS_DESTINO : list ustr := map u [
  "0. EDITAL_ANEXOS";
  "1. HABILITACAO/1. HAB_JURIDICA";
  "1. HABILITACAO/2. HAB_FISCAL";
  "1. HABILITACAO/3. HAB_ECON_FINAN";
  "1. HABILITACAO/4. QUALIFICACAO_TECNICA";
  "1. HABILITACAO/5. ACT_CAT";
  "1. HABILITACAO/6. DECLARACOES";
  "2. PROPOSTA";
  "3. EDITAVEIS/1. DECLARACAO";
  "3. EDITAVEIS/2. PROPOSTA";
  "3. EDITAVEIS/3. PLANILHA"]%string.

(** A Python [set] of strings, used only through [rel in ...]. *)
Definition SUBPASTAS_PADRAO_PRESELECIONADAS : list ustr := map u [
  "1. HABILITACAO/1. HAB_JURIDICA";
  "1. HABILITACAO/3. HAB_ECON_FINAN";
  "1. HABILITACAO/4. QUALIFICACAO_TECNICA";
  "3. EDITAVEIS/1. DECLARACAO";
  "3. EDITAVEIS/2. PROPOSTA";
  "3. EDITAVEIS/3. PLANILHA"]%string.

Definition SUBPASTA_DEFAULT_ANEXOS : ustr := u "0. EDITAL_ANEXOS".

(** ** Paths of the application *)

(** [caminho_licitacao_raiz()]: the parent of the script's folder. *)
Definition caminho_licitacao_raiz (app_dir : path) : path := parent app_dir.

(** The [Path] of an entry [c] listed by [iterdir] on the [Path] value [p]. *)
Definition rel_child (p : ppath) (c : path) : ppath :=
  PPath (pp_abs p) (pp_parts p ++ [base_name c]).

(** [detectar_pasta_modelos()]: the sub-directory of [.../1. Licitacao/]
    with the least name among those whose token contains "modelo". *)
Definition detectar_pasta_modelos (app_dir : path) (f : fs) : outcome oserr (option path) :=
  let lic := caminho_licitacao_raiz app_dir in
  if negb (path_exists f lic) then Ok None else
  match iterdir f lic with
  | Exc e => Exc e
  | Ok cs =>
      let cand := List.filter (fun c => is_dir f c &&
                    is_substr (u "modelo") (_normalize_token (base_name c))) cs in
      Ok (head (merge_sort by_name cand))
  end.

(** The test of [detectar_pasta_template] on a token. *)
Definition is_template_token (n : ustr) : bool :=
  is_substr (u "idlct") n || (is_substr (u "id") n && is_substr (u "lct") n).

(** [detectar_pasta_template(modelos_dir)]: the sub-directories whose token
    contains "idlct", or "id" and "lct"; when there is none, the first
    sub-directory in listing order (the second [iterdir], from which the
    [break] keeps one); the least name of these. *)
Definition detectar_pasta_template (cwd : path) (modelos_dir : ppath) (f : fs)
    : outcome oserr (option ppath) :=
  let d := resolve cwd modelos_dir in
  if negb (path_exists f d) then Ok None else
  match iterdir f d with
  | Exc e => Exc e
  | Ok cs =>
      let cand := List.filter (fun c => is_dir f c && is_template_token (_normalize_token (base_name c))) cs in
      let cand := match cand with
                  | [] => match List.find (is_dir f) cs with Some c => [c] | None => [] end
                  | _ => cand
                  end in
      Ok (option_map (rel_child modelos_dir) (head (merge_sort by_name cand)))
  end.

(** [detectar_pasta_modelos()] of the UI window: the same search written as
    a loop that appends to [candidatos]. *)
Definition detectar_pasta_modelos_ui (app_dir : path) (f : fs) : outcome oserr (option path) :=
  let lic := caminho_licitacao_raiz app_dir in
  if negb (path_exists f lic) then Ok None else
  match iterdir f lic with
  | Exc e => Exc e
  | Ok cs =>
      let candidatos := fold_left (fun acc child =>
        if is_dir f child then
          let norm := _normalize_token (base_name child) in
          if is_substr (u "modelo") norm then acc ++ [child] else acc
        else acc) cs [] in
      Ok (head (merge_sort by_name candidatos))
  end.

(** [_normalize_path_parts(rel_path)] of the UI window. *)
Definition _normalize_path_parts (rel_path : ustr) : list ustr :=
  map _normalize_token (path_parts rel_path).

(** ** The name of a bid and its folders *)

(** [montar_nome_licitacao(dia, id_lct, portal, gp, cidade_uf)]:
    [f"{dia.strip()}_{id_lct.strip()}_{portal.strip()}{token_gp}_{cidade_uf.strip()}"]. *)
Definition montar_nome_licitacao (dia id_lct portal : ustr) (gp : bool) (cidade_uf : ustr) : ustr :=
  let token_gp := if gp then u "_GP" else [] in
  py_strip dia ++ u "_" ++ py_strip id_lct ++ u "_" ++ py_strip portal ++ token_gp ++
  u "_" ++ py_strip cidade_uf.

(** Reading the fields back from a name, splitting at the underscores. *)
Definition ler_nome_licitacao (nome : ustr) : option (ustr * ustr * ustr * bool * ustr) :=
  match py_split 95 nome with
  | [dia; id_lct; portal; g; cidade_uf] =>
      if decide (g = u "GP") then Some (dia, id_lct, portal, true, cidade_uf) else None
  | [dia; id_lct; portal; cidade_uf] => Some (dia, id_lct, portal, false, cidade_uf)
  | _ => None
  end.

(** [criar_estrutura_licitacao(destino_raiz)]: the first [mkdir] that
    raises ends the loop. *)
Definition criar_estrutura_licitacao (destino_raiz : path) : st oserr fs unit :=
  for_each SUBPASTAS_DESTINO (fun rel => mkdir_p (join destino_raiz rel)).

(** ** Example file systems *)

(** A MODELOS folder holding two folders without "id"/"lct" in their
    names, listed in either order. *)
Definition ex_modelos (primeiro segundo : string) : fs := mkFs
  [([u "M"], NDir); ([u "M"; u primeiro], NDir); ([u "M"; u segundo], NDir)] [].

(** A folder [P] of month folders named as the window names them, and
    a file beside them. *)
Definition ex_meses : fs := mkFs
  [([u "P"], NDir); ([u "P"; u "05. MAIO"], NDir); ([u "P"; u "03. MARCO"], NDir);
   ([u "P"; u "notas.txt"], NFile [] 0); ([u "P"; u "02. FEVEREIRO"], NDir)] [].

(** ** Lemmas *)

Lemma fold_left_snoc_filter {A} (g : A -> bool) (l acc : list A) :
  fold_left (fun acc x => if g x then acc ++ [x] else acc) l acc = acc ++ List.filter g l.
Proof.
  revert acc. induction l as [|x l IH]; intros acc; simpl; [by rewrite app_nil_r|].
  rewrite IH. destruct (g x); [by rewrite <- app_assoc|done].
Qed.

Lemma fold_left_ext' {A B} (g h : A -> B -> A) (l : list B) (a : A) :
  (forall x y, g x y = h x y) -> fold_left g l a = fold_left h l a.
Proof. intros E. revert a. induction l as [|y l IH]; intros a; simpl; [done|]. by rewrite E, IH. Qed.

(** The loop of the UI window computes the comprehension of the Mes and
    Docket windows. *)
Lemma detectar_pasta_modelos_ui_eq app_dir f :
  detectar_pasta_modelos_ui app_dir f = detectar_pasta_modelos app_dir f.
Proof.
  unfold detectar_pasta_modelos_ui, detectar_pasta_modelos.
  destruct (path_exists f _); [|done]. destruct (iterdir f _) as [cs|]; [|done].
  rewrite (fold_left_ext' _ (fun acc x => if is_dir f x && is_substr (u "modelo")
             (_normalize_token (base_name x)) then acc ++ [x] else acc)).
  - by rewrite fold_left_snoc_filter.
  - intros acc x. by destruct (is_dir f x).
Qed.

(** The month token of a label occurs in the normalised name of that
    label and of no other. *)
Lemma meses_tokens_separados :
  Forall (fun mi => Forall (fun mj =>
    is_substr (_normalize_token (mes_texto mi)) (_normalize_token mj) = bool_decide (mi = mj))
    MESES) MESES.
Proof. refine (bool_decide_unpack _ _). vm_compute. exact I. Qed.

Lemma meses_match mi mj :
  mi ∈ MESES -> mj ∈ MESES ->
  is_substr (_normalize_token (mes_texto mi)) (_normalize_token mj) = bool_decide (mi = mj).
Proof.
  intros Hi Hj. pose proof meses_tokens_separados as H.
  rewrite Forall_forall in H. specialize (H mi Hi). rewrite Forall_forall in H. auto.
Qed.

Lemma iterdir_dir f p :
  is_dir f p = true -> iterdir f p = Ok (List.filter (is_child_of p) (map fst (fs_entries f))).
Proof. unfold is_dir, iterdir. by destruct (lookup_node f p) as [[|]|]. Qed.

(** ** Properties *)

(** C28: the name of a bid reads back into its fields: when none of the
    stripped fields holds an underscore, splitting
    [montar_nome_licitacao dia id_lct portal gp cidade_uf] at the
    underscores gives the stripped fields and the [GP] flag. *)
Theorem montar_nome_licitacao_roundtrip dia id_lct portal gp cidade_uf :
  ~ In 95%Z (py_strip dia) -> ~ In 95%Z (py_strip id_lct) -> ~ In 95%Z (py_strip portal) ->
  ~ In 95%Z (py_strip cidade_uf) ->
  ler_nome_licitacao (montar_nome_licitacao dia id_lct portal gp cidade_uf) =
    Some (py_strip dia, py_strip id_lct, py_strip portal, gp, py_strip cidade_uf).
Proof.
  intros Hd Hi Hp Hc. unfold ler_nome_licitacao, montar_nome_licitacao.
  change (u "_") with [95%Z]. change (u "_GP") with [95%Z; 71%Z; 80%Z]. cbn [app].
  rewrite !(py_split_app_sep 95) by done.
  destruct gp; cbn [app].
  - rewrite (py_split_app_sep 95 _ (71%Z :: _)) by done.
    cbn [py_split Z.eqb Pos.eqb]. rewrite py_split_no_sep by done. simpl. done.
  - rewrite (py_split_app_sep 95), py_split_no_sep by done. done.
Qed.

Lemma montar_nome_licitacao_roundtrip_witness :
  ler_nome_licitacao (montar_nome_licitacao (u "18") (u " CE004") (u "BLL") true (u "Salvador-BA")) =
    Some (py_strip (u "18"), py_strip (u " CE004"), py_strip (u "BLL"), true, py_strip (u "Salvador-BA")).
Proof. apply montar_nome_licitacao_roundtrip; vm_compute; intuition discriminate. Defined.

Lemma filter_none {A} (p : A -> bool) l : (forall x, In x l -> p x = false) -> List.filter p l = [].
Proof. induction l as [|x l IH]; intros H; simpl; [done|]. rewrite H by (by left). apply IH. intros y Hy. apply H. by right. Qed.

(** C29: when no sub-folder of MODELOS looks like a template,
    [detectar_pasta_template] returns the first sub-directory in listing
    order, whatever its name: the [break] of the second loop keeps one
    candidate, so the sort by name that follows decides nothing, and the
    folder the window proposes depends on the order the operating system
    lists the folder in (the non-determinism of the specification's
    design notes). *)
Theorem detectar_pasta_template_ordem cwd m f cs c :
  path_exists f (resolve cwd m) = true -> iterdir f (resolve cwd m) = Ok cs ->
  (forall x, In x cs -> is_dir f x = true -> is_template_token (_normalize_token (base_name x)) = false) ->
  List.find (is_dir f) cs = Some c ->
  detectar_pasta_template cwd m f = Ok (Some (rel_child m c)).
Proof.
  intros He Hit Hno Hc. unfold detectar_pasta_template. rewrite He, Hit. simpl.
  rewrite filter_none, Hc; [done|]. intros x Hx. destruct (is_dir f x) eqn:Hd; [|done]. by apply Hno.
Qed.

(** The same two folders, without "id" and "lct" in their names, listed in
    the two orders give two different templates. *)
Lemma detectar_pasta_template_ordem_witness :
  detectar_pasta_template [] (abs_path [u "M"]) (ex_modelos "B_modelos" "A_outros") =
    Ok (Some (rel_child (abs_path [u "M"]) [u "M"; u "B_modelos"])) /\
  detectar_pasta_template [] (abs_path [u "M"]) (ex_modelos "A_outros" "B_modelos") =
    Ok (Some (rel_child (abs_path [u "M"]) [u "M"; u "A_outros"])).
Proof.
  split.
  - apply (detectar_pasta_template_ordem _ _ _ [[u "M"; u "B_modelos"]; [u "M"; u "A_outros"]]);
      [vm_compute; reflexivity | vm_compute; reflexivity | | vm_compute; reflexivity].
    intros x [<-|[<-|[]]] _; vm_compute; reflexivity.
  - apply (detectar_pasta_template_ordem _ _ _ [[u "M"; u "A_outros"]; [u "M"; u "B_modelos"]]);
      [vm_compute; reflexivity | vm_compute; reflexivity | | vm_compute; reflexivity].
    intros x [<-|[<-|[]]] _; vm_compute; reflexivity.
Defined.

(** C30: [criar_estrutura_licitacao] is not best-effort (against the tree
    builder of section 4.3): when one of the eleven sub-folders lies at or
    below a file, the call raises there, with the file system as the
    sub-folders before it left it; none of the sub-folders after it is
    created. *)
Theorem criar_estrutura_licitacao_aborta root pre rel post f f1 b d t :
  SUBPASTAS_DESTINO = pre ++ rel :: post -> wf f ->
  for_each pre (fun r => mkdir_p (join root r)) f = (f1, Ok tt) ->
  b `prefix_of` join root rel -> lookup_node f b = Some (NFile d t) ->
  exists e, criar_estrutura_licitacao root f = (f1, Exc e).
Proof.
  intros Hsub Hwf Hpre Hb Hl.
  pose proof (preserves_for_each wf pre (fun r => mkdir_p (join root r)) (fun r => mkdir_p_wf _) f Hwf) as Hwf1.
  pose proof (advances_for_each adds_dirs pre (fun r => mkdir_p (join root r))
                (fun r => mkdir_parents_adds _ _) f) as [[Hext _] _].
  rewrite Hpre in Hwf1, Hext. simpl in Hwf1, Hext.
  destruct (mkdir_p_blocked f1 _ b d t Hwf1 Hb (Hext _ _ Hl)) as [e He]. exists e.
  unfold criar_estrutura_licitacao. rewrite Hsub, for_each_app, (bind_Ok _ _ _ _ _ Hpre). simpl.
  by apply bind_Exc.
Qed.

(** With [D/0. EDITAL_ANEXOS] a file, nothing is created. *)
Lemma criar_estrutura_licitacao_aborta_witness :
  exists e, criar_estrutura_licitacao [u "D"]
    (mkFs [([u "D"], NDir); ([u "D"; u "0. EDITAL_ANEXOS"], NFile [] 0)] []) =
    (mkFs [([u "D"], NDir); ([u "D"; u "0. EDITAL_ANEXOS"], NFile [] 0)] [], Exc e).
Proof.
  apply (criar_estrutura_licitacao_aborta [u "D"] [] (u "0. EDITAL_ANEXOS") (tail SUBPASTAS_DESTINO) _ _
           [u "D"; u "0. EDITAL_ANEXOS"] [] 0);
    [reflexivity | apply wfb_sound; vm_compute; reflexivity | reflexivity
    | exists []; vm_compute; reflexivity | vm_compute; reflexivity].
Defined.

(** The configuration of the windows is well formed: twelve distinct
    month labels, the month token of each ([_normalize_token] of the text
    after the first dot) occurring in the normalised name of that label
    and of no other; eleven distinct sub-folders, among which are the
    pre-selected ones and the default folder of the attachments. *)
Theorem configuracao_bem_formada :
  length MESES = 12%nat /\ NoDup MESES /\
  (forall mi mj, mi ∈ MESES -> mj ∈ MESES ->
     is_substr (_normalize_token (mes_texto mi)) (_normalize_token mj) = true <-> mi = mj) /\
  length SUBPASTAS_DESTINO = 11%nat /\ NoDup SUBPASTAS_DESTINO /\
  Forall (fun s => s ∈ SUBPASTAS_DESTINO) SUBPASTAS_PADRAO_PRESELECIONADAS /\
  SUBPASTA_DEFAULT_ANEXOS ∈ SUBPASTAS_DESTINO.
Proof.
  split_and!; [reflexivity| |intros mi mj Hi Hj; rewrite meses_match by done;
               apply bool_decide_eq_true|reflexivity| | |];
    refine (bool_decide_unpack _ _); vm_compute; exact I.
Qed.

(** C18: in a folder whose sub-directories are month folders named as the
    window names them, [resolver_pasta_mes] finds, for each label, the
    folder of that label, whatever the listing order and whatever other
    files the folder holds, and creates nothing. *)
Theorem resolver_pasta_mes_meses f base mi :
  mi ∈ MESES -> is_dir f base = true -> is_dir f (base ++ [mi]) = true ->
  (forall c, is_child_of base c = true -> is_dir f c = true -> base_name c ∈ MESES) ->
  resolver_pasta_mes base mi f = (f, Ok (base ++ [mi])).
Proof.
  intros Hmi Hb Hd Hall. unfold resolver_pasta_mes, bind, ret.
  rewrite (iterdir_dir f base Hb).
  set (P := fun c => is_dir f c && is_substr (_normalize_token (mes_texto mi))
                                    (_normalize_token (base_name c))).
  assert (HP : forall c, is_child_of base c = true -> P c = true -> c = base ++ [mi]).
  { intros c Hc. subst P. cbn beta. rewrite andb_true_iff. intros [Hdc Hs].
    pose proof (Hall c Hc Hdc) as Hn.
    rewrite (meses_match mi _ Hmi Hn), bool_decide_eq_true in Hs.
    unfold is_child_of in Hc. rewrite bool_decide_eq_true in Hc. destruct Hc as [Hne Hpar].
    rewrite (child_path c base Hne Hpar). by rewrite <- Hs. }
  destruct (List.find P _) as [c|] eqn:E.
  - apply find_some in E as [Hin HPc]. apply filter_In in Hin as [_ Hc].
    by rewrite (HP c Hc HPc).
  - exfalso. eapply find_none in E.
    + subst P. cbn beta in E. rewrite Hd in E. simpl in E.
      rewrite base_name_snoc, (meses_match mi mi Hmi Hmi), bool_decide_eq_true_2 in E; done.
    + apply filter_In. split.
      * apply is_dir_listed; [by destruct base|done].
      * unfold is_child_of. apply bool_decide_eq_true. split; [by destruct base|].
        unfold parent. by rewrite removelast_last.
Qed.

Lemma resolver_pasta_mes_meses_witness :
  resolver_pasta_mes [u "P"] (u "03. MARCO") ex_meses = (ex_meses, Ok [u "P"; u "03. MARCO"]).
Proof.
  apply (resolver_pasta_mes_meses ex_meses [u "P"] (u "03. MARCO")).
  - refine (bool_decide_unpack _ _). vm_compute. exact I.
  - reflexivity.
  - reflexivity.
  - intros c Hc Hd. unfold is_child_of in Hc. rewrite bool_decide_eq_true in Hc.
    destruct Hc as [Hne Hpar]. rewrite (child_path c [u "P"] Hne Hpar) in Hd |- *.
    rewrite base_name_snoc. revert Hd. generalize (base_name c) as n. intros n Hd.
    unfold is_dir, lookup_node in Hd. simpl in Hd.
    repeat (case_decide as Heq; simpl in Hd;
            [simplify_eq; first [discriminate | refine (bool_decide_unpack _ _); vm_compute; exact I] |clear Heq]).
    by simpl in Hd.
Defined.

End Dominio.
