(* ===== verification/Console.v ===== *)
(** * LogConsole: the log box, the status badge and the toast of the windows

    The three windows that create a bid folder keep, beside their widgets,
    a warning counter, an error counter and the last status, shown in a
    badge and a counter label; their [_log(level, msg)] appends a line
    [f"[{level.upper()}] {msg}\n"] to the log box and updates them:
    - [src/LicitagovLicitacaoMesApp.py]: [_log] (lines 411-421),
      [_log_clear] (lines 423-427), [_toast] (lines 429-433);
    - [src/4-PROJETOS/Docket/docket.py]: [_log] (lines 501-513, with an
      [else] branch of its own), [_log_clear] (lines 515-519), [_toast]
      (lines 521-525);
    - [src/LicitagovLicitacaoMesApp_UI.py]: [_set_status] (lines 555-571),
      [_toast] (lines 573-578), [_log_line] and [_log] (lines 580-592),
      [_log_clear] (lines 594-600) and the level filter
      [_apply_log_filter] (lines 602-623).

    The log box is its text ([txt_log]); the UI window's filter adds the
    ranges tagged "hidden" (line, from column to the end of the line, lines
    counted from 1 as Tk does) and whether that tag elides.  The colours of
    the tags, the scrolling ([see("end")]) and the timer that blanks the
    toast after a few seconds ([after(3500, ...)]) are not modelled. *)

From Stdlib Require Import ZArith Lia.
From Stdlib Require Import Strings.String.
From stdpp Require Import base list.
From S2P Require Import Prelude Fs Copier.
Import FileSystem ResilientCopier.

Local Open Scope py_scope.

Module LogConsole.

(** [last_status]: "ok", "warn" or "error". *)
Inductive status := SOk | SWarn | SError.

#[export] Instance status_eq_dec : EqDecision status.
Proof. solve_decision. Defined.

(** The colours of the toast: [ACCENT] (the [OK] colour of the UI
    window), [PRIMARY], [WARN], [ERROR]; [MUTED] is the default. *)
Inductive color := COk | CPrimary | CWarn | CError | CMuted.

(** The message boxes: [showwarning], [showerror], [showinfo]. *)
Inductive dialog :=
| ShowWarning (title message : ustr)
| ShowError (title message : ustr)
| ShowInfo (title message : ustr).

Record console := mkConsole {
  txt_log : ustr;
  warn_count : nat;
  error_count : nat;
  last_status : status;
  badge : ustr;
  counts : ustr;
  toast : ustr;
  toast_color : color;
  log_filter : ustr;
  hidden : list (nat * nat);
  elide : bool
}.

(** [level] as the code passes it, and [level.upper()]. *)
Definition level_str (l : level) : ustr :=
  match l with LOk => u "ok" | LInfo => u "info" | LWarn => u "warn" | LError => u "error" end.

Definition level_upper (l : level) : ustr :=
  match l with LOk => u "OK" | LInfo => u "INFO" | LWarn => u "WARN" | LError => u "ERROR" end.

(** [f"[{level.upper()}] {msg}\n"]. *)
Definition linha (l : level) (msg : ustr) : ustr :=
  u "[" ++ level_upper l ++ u "] " ++ msg ++ [10%Z].

(** The badge texts; 128994, 128993 and 128308 are the green, yellow and
    red circles. *)
Definition badge_of (s : status) : ustr :=
  match s with
  | SOk => [128994%Z] ++ u " OK"
  | SWarn => [128993%Z] ++ u " Avisos"
  | SError => [128308%Z] ++ u " Erros"
  end.

(** [f"Avisos: {self.warn_count}  |  Erros: {self.error_count}"]. *)
Definition counts_text (w e : nat) : ustr :=
  u "Avisos: " ++ py_str_nat w ++ u "  |  Erros: " ++ py_str_nat e.

(** The toast colours of [{"ok": ..., "info": ..., "warn": ..., "error": ...}]. *)
Definition color_of (l : level) : color :=
  match l with LOk => COk | LInfo => CPrimary | LWarn => CWarn | LError => CError end.

(** The state after [__init__]: empty log, counters at zero, badge
    "OK", the filter "all". *)
Definition console_init : console :=
  mkConsole [] 0 0 SOk (badge_of SOk) (u "Avisos: 0  |  Erros: 0") [] CMuted (u "all") [] false.

(** Writing the status fields and the text. *)
Definition with_status (c : console) (txt : ustr) (w e : nat) (s : status) (b k : ustr) : console :=
  mkConsole txt w e s b k (toast c) (toast_color c) (log_filter c) (hidden c) (elide c).

(** ** The Mes window *)

(** [_log(level, msg)] of [LicitagovLicitacaoMesApp.py]. *)
Definition mes_log (l : level) (msg : ustr) (c : console) : console :=
  let txt := txt_log c ++ linha l msg in
  let '(w, e, s) :=
    match l with
    | LWarn => (S (warn_count c), error_count c,
                if decide (last_status c <> SError) then SWarn else SError)
    | LError => (warn_count c, S (error_count c), SError)
    | _ => (warn_count c, error_count c, last_status c)
    end in
  with_status c txt w e s (badge_of s) (counts_text w e).

(** [_log_clear()] of the Mes and Docket windows. *)
Definition mes_log_clear (c : console) : console :=
  mkConsole [] 0 0 SOk (badge_of SOk) (u "Avisos: 0  |  Erros: 0") [] (toast_color c)
    (log_filter c) [] (elide c).

(** [_toast(msg, level)]. *)
Definition _toast (msg : ustr) (l : level) (c : console) : console :=
  mkConsole (txt_log c) (warn_count c) (error_count c) (last_status c) (badge c) (counts c)
    msg (color_of l) (log_filter c) (hidden c) (elide c).

(** ** The Docket window *)

(** [_log(level, msg)] of [docket.py]: an [ok] or [info] line sets the
    status back to "ok" when both counters are zero. *)
Definition docket_log (l : level) (msg : ustr) (c : console) : console :=
  let txt := txt_log c ++ linha l msg in
  let '(w, e, s) :=
    match l with
    | LWarn => (S (warn_count c), error_count c,
                if decide (last_status c <> SError) then SWarn else SError)
    | LError => (warn_count c, S (error_count c), SError)
    | _ => (warn_count c, error_count c,
            if decide (warn_count c = 0 /\ error_count c = 0) then SOk else last_status c)
    end in
  with_status c txt w e s (badge_of s) (counts_text w e).

(** ** The UI window *)

(** [_set_status(level)]. *)
Definition _set_status (l : level) (c : console) : console :=
  let '(w, e, s) :=
    match l with
    | LError => (warn_count c, S (error_count c), SError)
    | LWarn => (S (warn_count c), error_count c,
                if decide (last_status c <> SError) then SWarn else last_status c)
    | _ => (warn_count c, error_count c, last_status c)
    end in
  with_status c (txt_log c) w e s (badge_of s) (counts_text w e).

(** [txt_log.search(pattern, start)] on one line: the column of the first
    occurrence. *)
Fixpoint find_sub (pat s : ustr) : option nat :=
  if is_prefix pat s then Some 0 else
  match s with
  | [] => None
  | _ :: s' => option_map S (find_sub pat s')
  end.

(** The [while True] loop of [_apply_log_filter] for one level: each
    search finds the first occurrence at or after [start], tags it to the
    end of its line, and goes on from the end of that line. *)
Fixpoint ranges_from (pat : ustr) (i : nat) (ls : list ustr) : list (nat * nat) :=
  match ls with
  | [] => []
  | l :: ls' =>
      match find_sub pat l with
      | Some col => [(i, col)]
      | None => []
      end ++ ranges_from pat (S i) ls'
  end.

(** [rf"\[{lvl.upper()}\]"], a regular expression matching the literal
    text [[LEVEL]]. *)
Definition pattern (l : level) : ustr := u "[" ++ level_upper l ++ u "]".

Definition ranges (l : level) (txt : ustr) : list (nat * nat) :=
  ranges_from (pattern l) 1 (py_split 10 txt).

(** [_apply_log_filter()]: for each level in [("ok", "info", "warn",
    "error")] the tag "hidden" is first removed from the whole text, then
    the lines of that level are tagged when it is not the chosen one. *)
Definition _apply_log_filter (c : console) : console :=
  let show := log_filter c in
  let '(h, el) :=
    if decide (show = u "all") then (hidden c, false)
    else (fold_left (fun h lvl => if decide (level_str lvl <> show) then ranges lvl (txt_log c) else [])
            [LOk; LInfo; LWarn; LError] (hidden c), true) in
  mkConsole (txt_log c) (warn_count c) (error_count c) (last_status c) (badge c) (counts c)
    (toast c) (toast_color c) show h el.

(** The radio buttons: [log_filter.set(val)] then [_apply_log_filter()]. *)
Definition set_filter (val : ustr) (c : console) : console :=
  _apply_log_filter (mkConsole (txt_log c) (warn_count c) (error_count c) (last_status c)
    (badge c) (counts c) (toast c) (toast_color c) val (hidden c) (elide c)).

(** [_log_line(level, msg)] (and [_log], which calls it). *)
Definition ui_log (l : level) (msg : ustr) (c : console) : console :=
  let c1 := _apply_log_filter (with_status c (txt_log c ++ linha l msg) (warn_count c)
                                 (error_count c) (last_status c) (badge c) (counts c)) in
  match l with
  | LWarn | LError => _set_status l c1
  | _ => c1
  end.

(** [_log_clear()] of the UI window: the text (and its tags) deleted, the
    toast blanked, the counters reset, then [_set_status("ok")]. *)
Definition ui_log_clear (c : console) : console :=
  _set_status LOk (mkConsole [] 0 0 SOk (badge c) (counts c) [] (toast_color c)
                     (log_filter c) [] (elide c)).

(** What the log box shows: the lines of its text, cut where an elided
    "hidden" range starts. *)
Definition visible (c : console) : list ustr :=
  imap (fun i l => if elide c then
                     match list_find (fun r => r.1 = S i) (hidden c) with
                     | Some (_, (_, col)) => take col l
                     | None => l
                     end
                   else l) (py_split 10 (txt_log c)).

(** ** The status machine *)

(** The status the counters call for: "error" once an error was logged,
    else "warn" once a warning was, else "ok". *)
Definition status_of (w e : nat) : status :=
  if decide (0 < e) then SError else if decide (0 < w) then SWarn else SOk.

(** The status fields agree: the last status is the one the counters call
    for, and the badge and the counter label show them. *)
Definition status_ok (c : console) : Prop :=
  last_status c = status_of (warn_count c) (error_count c) /\
  badge c = badge_of (last_status c) /\
  counts c = counts_text (warn_count c) (error_count c).

Inductive window := WMes | WDocket | WUi.

#[export] Instance window_eq_dec : EqDecision window.
Proof. solve_decision. Defined.

Definition w_log (w : window) : level -> ustr -> console -> console :=
  match w with WMes => mes_log | WDocket => docket_log | WUi => ui_log end.

Definition w_clear (w : window) : console -> console :=
  match w with WUi => ui_log_clear | _ => mes_log_clear end.

(** The states a window's console can reach from [__init__] through its
    handlers: a log line (from the window or from a component it passed
    [self._log] to), "Limpar log", a toast, and in the UI window a click
    on a filter. *)
Inductive reachable (w : window) : console -> Prop :=
| r_init : reachable w console_init
| r_log c l msg : reachable w c -> reachable w (w_log w l msg c)
| r_clear c : reachable w c -> reachable w (w_clear w c)
| r_toast c msg l : reachable w c -> reachable w (_toast msg l c)
| r_filter c val : w = WUi -> reachable w c -> reachable w (set_filter val c).

(** The number of events of a level. *)
Definition count_lvl (l : level) (evs : list (level * ustr)) : nat :=
  length (List.filter (fun e => bool_decide (e.1 = l)) evs).

(** The part of the console the status machine writes. *)
Definition view (c : console) : ustr * nat * nat * status * ustr * ustr :=
  (txt_log c, warn_count c, error_count c, last_status c, badge c, counts c).

Lemma status_of_error w e : status_of w e = SError <-> 0 < e.
Proof. unfold status_of. repeat case_decide; naive_solver lia. Qed.

Lemma status_of_ok w e : status_of w e = SOk <-> w = 0 /\ e = 0.
Proof. unfold status_of. repeat case_decide; naive_solver lia. Qed.

Ltac status_solve :=
  intros; unfold status_ok, status_of in *; simpl in *;
  repeat (case_decide || match goal with H : _ /\ _ |- _ => destruct H end);
  subst; simpl in *; repeat split; try done; try congruence; try lia.

Lemma mes_log_ok l msg c : status_ok c -> status_ok (mes_log l msg c).
Proof. destruct l; status_solve. Qed.

Lemma docket_log_ok l msg c : status_ok c -> status_ok (docket_log l msg c).
Proof. destruct l; status_solve. Qed.

Lemma apply_log_filter_view c : view (_apply_log_filter c) = view c.
Proof. unfold _apply_log_filter. by destruct (decide _). Qed.

Lemma set_filter_view val c : view (set_filter val c) = view c.
Proof. unfold set_filter. by rewrite apply_log_filter_view. Qed.

Lemma status_ok_view c c' : view c = view c' -> status_ok c -> status_ok c'.
Proof. unfold view, status_ok. intros [=]. congruence. Qed.

(** The UI window's [_log] writes the same status fields as the Mes
    window's. *)
Lemma ui_log_view l msg c : status_ok c -> view (ui_log l msg c) = view (mes_log l msg c).
Proof.
  intros Hc. unfold ui_log. pose proof (apply_log_filter_view
    (with_status c (txt_log c ++ linha l msg) (warn_count c) (error_count c) (last_status c)
       (badge c) (counts c))) as Hv.
  destruct (_apply_log_filter _) as [t w e s b k ? ? ? ? ?]. unfold view in Hv |- *. simpl in Hv.
  injection Hv as -> -> -> -> -> ->. destruct Hc as (Hs & Hb & Hk).
  destruct l; simpl; unfold with_status; simpl; rewrite ?Hb, ?Hk; try done;
    repeat case_decide; simpl; try done;
    by match goal with H : last_status _ = _ |- _ => rewrite H end.
Qed.

Lemma ui_log_ok l msg c : status_ok c -> status_ok (ui_log l msg c).
Proof. intros Hc. apply (status_ok_view (mes_log l msg c)); [by rewrite ui_log_view|]. by apply mes_log_ok. Qed.

Lemma w_log_ok w l msg c : status_ok c -> status_ok (w_log w l msg c).
Proof. destruct w; [apply mes_log_ok|apply docket_log_ok|apply ui_log_ok]. Qed.

Lemma w_clear_ok w c : status_ok (w_clear w c).
Proof. by destruct w. Qed.

Lemma toast_ok msg l c : status_ok c -> status_ok (_toast msg l c).
Proof. done. Qed.

Lemma set_filter_ok val c : status_ok c -> status_ok (set_filter val c).
Proof. apply status_ok_view. by rewrite set_filter_view. Qed.

(** The [else] branch of the Docket window's [_log] changes nothing on a
    console whose status fields agree. *)
Lemma docket_log_mes l msg c : status_ok c -> docket_log l msg c = mes_log l msg c.
Proof.
  intros [Hs _]. destruct l; unfold docket_log, mes_log; simpl; try done;
    case_decide as Hz; try done; destruct Hz as [Hw He]; rewrite Hs; unfold status_of;
    by rewrite Hw, He.
Qed.

(** What one log line does to the status fields, in every window. *)
Lemma w_log_view w l msg c : status_ok c ->
  view (w_log w l msg c) =
    (txt_log c ++ linha l msg,
     warn_count c + (if decide (l = LWarn) then 1 else 0),
     error_count c + (if decide (l = LError) then 1 else 0),
     status_of (warn_count c + (if decide (l = LWarn) then 1 else 0))
               (error_count c + (if decide (l = LError) then 1 else 0)),
     badge_of (status_of (warn_count c + (if decide (l = LWarn) then 1 else 0))
               (error_count c + (if decide (l = LError) then 1 else 0))),
     counts_text (warn_count c + (if decide (l = LWarn) then 1 else 0))
                 (error_count c + (if decide (l = LError) then 1 else 0))).
Proof.
  intros Hc. assert (Hm : view (w_log w l msg c) = view (mes_log l msg c)).
  { destruct w; simpl; [done|by rewrite docket_log_mes|by apply ui_log_view]. }
  rewrite Hm. pose proof (mes_log_ok l msg c Hc) as (Hs & Hb & Hk).
  unfold view in *. rewrite Hk, Hb, Hs.
  destruct l; unfold mes_log; simpl; rewrite ?Nat.add_0_r, ?Nat.add_1_r; done.
Qed.

Lemma console_init_ok : status_ok console_init.
Proof. done. Qed.


Lemma w_clear_view w c : view (w_clear w c) = ([], 0, 0, SOk, badge_of SOk, counts_text 0 0).
Proof. by destruct w. Qed.

Lemma count_lvl_cons l e evs :
  count_lvl l (e :: evs) = (if decide (e.1 = l) then 1 else 0) + count_lvl l evs.
Proof. unfold count_lvl. simpl. by case_bool_decide; case_decide. Qed.

Lemma fold_w_log_view w evs c : status_ok c ->
  view (fold_left (fun c e => w_log w e.1 e.2 c) evs c) =
    (txt_log c ++ concat (map (fun e => linha e.1 e.2) evs),
     warn_count c + count_lvl LWarn evs, error_count c + count_lvl LError evs,
     status_of (warn_count c + count_lvl LWarn evs) (error_count c + count_lvl LError evs),
     badge_of (status_of (warn_count c + count_lvl LWarn evs) (error_count c + count_lvl LError evs)),
     counts_text (warn_count c + count_lvl LWarn evs) (error_count c + count_lvl LError evs)).
Proof.
  revert c. induction evs as [|[l m] evs IH]; intros c Hc; cbn [fold_left].
  - destruct Hc as (Hs & Hb & Hk). unfold view. cbn [map concat].
    unfold count_lvl. cbn [List.filter length]. rewrite !app_nil_r, !Nat.add_0_r, Hk, Hb, Hs. done.
  - rewrite IH by (by apply w_log_ok). pose proof (w_log_view w l m c Hc) as Hv.
    unfold view in Hv. injection Hv as Ht Hw He _ _ _.
    cbn [fst snd]. rewrite Ht, Hw, He, !count_lvl_cons. cbn [fst snd concat map].
    by rewrite <- !app_assoc, <- !Nat.add_assoc.
Qed.

(** ** Properties *)

(** C25: in each of the three windows, every reachable console has its
    status fields in agreement: the last status is "error" exactly when the
    error counter is positive, else "warn" exactly when the warning counter
    is, and the badge and the counter label show them. *)
Theorem console_reachable_ok w c : reachable w c -> status_ok c.
Proof.
  induction 1;
    [apply console_init_ok|apply w_log_ok|apply w_clear_ok|apply toast_ok|apply set_filter_ok];
    assumption.
Qed.

Lemma console_reachable_ok_witness :
  let c := ui_log LWarn (u "x") (set_filter (u "warn") console_init) in
  reachable WUi c /\ status_ok c.
Proof.
  assert (H : reachable WUi (ui_log LWarn (u "x") (set_filter (u "warn") console_init))).
  { apply (r_log WUi). apply r_filter; [done|]. apply r_init. }
  split; [exact H|]. exact (console_reachable_ok _ _ H).
Defined.

(** After "Limpar log", logging a sequence of events in any of the
    three windows leaves in the log box their lines in order, counts the
    warnings and the errors of the sequence, and sets the status and the
    badge from those counts. *)
Theorem console_counts w c0 evs :
  view (fold_left (fun c e => w_log w e.1 e.2 c) evs (w_clear w c0)) =
    (concat (map (fun e => linha e.1 e.2) evs), count_lvl LWarn evs, count_lvl LError evs,
     status_of (count_lvl LWarn evs) (count_lvl LError evs),
     badge_of (status_of (count_lvl LWarn evs) (count_lvl LError evs)),
     counts_text (count_lvl LWarn evs) (count_lvl LError evs)).
Proof.
  rewrite fold_w_log_view by apply w_clear_ok.
  pose proof (w_clear_view w c0) as Hv. unfold view in Hv. injection Hv as -> -> -> _ _ _. done.
Qed.

(** C26: the three [_log] methods agree: on a console whose status fields
    agree, the Docket window's extra [else] branch changes nothing, and the
    UI window's [_log_line] (which updates the status through
    [_set_status] only on warnings and errors) writes the same text,
    counters, status, badge and label as the Mes window's [_log]. *)
Theorem log_variants_agree l msg c :
  status_ok c ->
  docket_log l msg c = mes_log l msg c /\ view (ui_log l msg c) = view (mes_log l msg c).
Proof. intros Hc. split; [by apply docket_log_mes|by apply ui_log_view]. Qed.

Lemma log_variants_agree_witness :
  docket_log LInfo (u "x") console_init = mes_log LInfo (u "x") console_init /\
  view (ui_log LInfo (u "x") console_init) = view (mes_log LInfo (u "x") console_init).
Proof. apply log_variants_agree. apply console_init_ok. Defined.

Lemma visible_no_hidden c : hidden c = [] -> visible c = py_split 10 (txt_log c).
Proof.
  intros Hh. unfold visible. rewrite Hh. apply list_eq. intros i.
  rewrite list_lookup_imap. destruct (_ !! i); simpl; [by destruct (elide c)|done].
Qed.

(** C27: the level filter of the UI window does not do what its labels
    say: "Erros" hides nothing (the last pass of the loop, for "error",
    removes the tags the earlier passes set), while "Avisos" and "Info"
    hide exactly the lines that contain "[ERROR]" (each from that text to
    the end of the line), whatever the other lines are. *)
Theorem ui_filtro_erros c :
  visible (set_filter (u "error") c) = py_split 10 (txt_log c) /\
  hidden (set_filter (u "warn") c) = ranges LError (txt_log c) /\
  hidden (set_filter (u "info") c) = ranges LError (txt_log c).
Proof.
  split; [|split]; [|reflexivity..].
  rewrite visible_no_hidden; [|reflexivity]. unfold set_filter, _apply_log_filter.
  by destruct (decide _).
Qed.

(** With the filter "Avisos", after an [info] line and an [error]
    line the log box still shows the [info] line and hides the [error]
    one; with "Erros" it shows both. *)
Example ui_filtro_exemplo :
  let c := ui_log LError (u "b") (ui_log LInfo (u "a") console_init) in
  visible (set_filter (u "warn") c) = [u "[INFO] a"; []; []] /\
  visible (set_filter (u "error") c) = [u "[INFO] a"; u "[ERROR] b"; []].
Proof. split; vm_compute; reflexivity. Qed.

End LogConsole.
