(* ===== verification/Estruturas.v ===== *)
(** * EstruturasApp: the folder-tree creator of a new client

    [src/4-PROJETOS/ADD_NOVO_CLIENTE/LicitagovEstruturasApp.py]: the model
    of the tree [ESTRUTURA_PADRAO] (lines 30-100), [criar_arvore] (lines
    106-145) and the window's state and handlers [log], [limpar_log],
    [selecionar_pasta] and [acao_criar] (lines 184-204 and 222-278).

    [criar_arvore] runs in the state-and-exception monad on the file system
    and the lines passed to its [log] callback; the window keeps the text of
    its log box, the state of its button and the dialogs it has shown.
    [Path(caminho)] is relative to the working directory [cwd] of the
    process when [caminho] does not start with a slash. *)

From Stdlib Require Import ZArith Lia.
From Stdlib Require Import Strings.String.
From stdpp Require Import base list sets.
From S2P Require Import Prelude Normalize Fs Copier Console.
Import NameNormalizer FileSystem LogConsole.

Local Open Scope py_scope.

Module EstruturasApp.

(** ** The model of the tree *)

(** A [dict] from folder names to sub-models ([{}] is a leaf), or a [list]
    of leaf names. *)
Inductive modelo :=
| MDict (itens : list (ustr * modelo))
| MList (nomes : list ustr).

(** [isinstance(sub, (Mapping, list)) and sub]: a non-empty sub-model. *)
Definition nonempty (m : modelo) : bool :=
  match m with
  | MDict [] | MList [] => false
  | _ => true
  end.

Definition folha (s : string) : ustr * modelo := (u s, MDict []).
Definition pasta (s : string) (l : list (ustr * modelo)) : ustr * modelo := (u s, MDict l).

Definition ESTRUTURA_PADRAO : modelo := MDict [
  folha "00. Editais_ANALISAR";
  pasta "01. Licitacao" [
    pasta "01. Participar" [
      folha "01. JANEIRO"; folha "02. FEVEREIRO"; folha "03. MARCO"; folha "04. ABRIL";
      folha "05. MAIO"; folha "06. JUNHO"; folha "07. JULHO"; folha "08. AGOSTO";
      folha "09. SETEMBRO"; folha "10. OUTUBRO"; folha "11. NOVEMBRO"; folha "12. DEZEMBRO"];
    folha "02. Vencedora"; folha "03. Declinada"; folha "04. Suspensa";
    pasta "05. Modelos_Padrao" [folha "DECLARACAO"; folha "PROPOSTA"; folha "PLANILHA"]];
  pasta "02. Empresa" [
    folha "01. CNPJ"; folha "02. Socios"; folha "03. Alvara"; folha "04. Dados_Bancarios";
    folha "05. Contrato_Social"; folha "06. Balanco_Patrimonial"; folha "07. Certidoes";
    folha "08. Acessos"; folha "09. CAF_Digital_BA"; folha "10. SICAF";
    folha "11. Compras_Salvador"; folha "12. Encargos_Tributacao"; folha "13. SMS";
    folha "14. Compras_FIEB"; folha "15. Impostos"; folha "16. Juridico";
    folha "17. Financeiro"; folha "18. Antecipa_EMBASA"; folha "19. Inscricao_Estadual";
    folha "20. Inscricao_Municipal"];
  pasta "03. Qualificacao_Tecnica" [
    folha "01. RT"; folha "02. ACT"; folha "03. CAT"; folha "04. CAO";
    folha "05. CREA_PJ"; folha "06. CREA_PF"; folha "07. ART_CONTRATOS"];
  folha "04. Orcamentos_Propostas";
  folha "05. Planejamento_Gestao";
  pasta "06. Biblioteca" [
    folha "01. Logo_Marca"; folha "02. Carimbos"; folha "03. Assinatura";
    pasta "04. Modelos_Administrativos" [
      folha "01. Recurso"; folha "02. Contrarrazao"; folha "03. Impugnacao";
      folha "04. Esclarecimento"]]].

(** ** [criar_arvore] *)

Definition TM (A : Type) : Type := st oserr (fs * list ustr) A.

(** [f"{'  ' * nivel}"]. *)
Definition indent (nivel : nat) : ustr := concat (repeat (u "  ") nivel).

Section Tree.
Variable cwd : path.

(** One iteration of the [for nome, sub in itens] loop, before the
    recursive call: [destino.mkdir(parents=True, exist_ok=True)] and the
    log line, or the error line. *)
Definition criar_no (base : ppath) (nome : ustr) (nivel : nat) : TM unit :=
  let destino := pjoin base nome in
  try_except
    (on_fs (mkdir_p (resolve cwd destino)) ;;
     emit (indent nivel ++ u "Criado: " ++ show_ppath destino))
    (fun e => emit (indent nivel ++ u "[ERRO] " ++ show_ppath destino ++ u " -> " ++ show_err e)).

(** [criar_arvore(base, modelo, log, nivel)]: a list becomes leaves
    ([(nome, {})]); a non-empty sub-model is created below [destino]. *)
Fixpoint criar_arvore (base : ppath) (m : modelo) (nivel : nat) : TM unit :=
  match m with
  | MDict itens =>
      (fix go (l : list (ustr * modelo)) : TM unit :=
         match l with
         | [] => ret tt
         | (nome, sub) :: l' =>
             criar_no base nome nivel ;;
             (if nonempty sub then criar_arvore (pjoin base nome) sub (S nivel) else ret tt) ;;
             go l'
         end) itens
  | MList nomes => for_each nomes (fun nome => criar_no base nome nivel)
  end.

End Tree.

(** ** What [criar_arvore] should do *)

Section Spec.
Variable cwd : path.

(** The folders [criar_arvore] creates, in the order it creates them. *)
Fixpoint tree_paths (base : ppath) (m : modelo) : list path :=
  match m with
  | MDict itens =>
      (fix go (l : list (ustr * modelo)) : list path :=
         match l with
         | [] => []
         | (nome, sub) :: l' =>
             resolve cwd (pjoin base nome) ::
             (if nonempty sub then tree_paths (pjoin base nome) sub else []) ++ go l'
         end) itens
  | MList nomes => map (fun nome => resolve cwd (pjoin base nome)) nomes
  end.

Definition linha_criado (base : ppath) (nome : ustr) (nivel : nat) : ustr :=
  indent nivel ++ u "Criado: " ++ show_ppath (pjoin base nome).

(** The lines it logs when every folder is created. *)
Fixpoint criados (base : ppath) (m : modelo) (nivel : nat) : list ustr :=
  match m with
  | MDict itens =>
      (fix go (l : list (ustr * modelo)) : list ustr :=
         match l with
         | [] => []
         | (nome, sub) :: l' =>
             linha_criado base nome nivel ::
             (if nonempty sub then criados (pjoin base nome) sub (S nivel) else []) ++ go l'
         end) itens
  | MList nomes => map (fun nome => linha_criado base nome nivel) nomes
  end.

End Spec.

(** The number of folders of a model. *)
Fixpoint n_pastas (m : modelo) : nat :=
  match m with
  | MDict itens =>
      (fix go (l : list (ustr * modelo)) : nat :=
         match l with
         | [] => 0
         | (_, sub) :: l' => S ((if nonempty sub then n_pastas sub else 0) + go l')
         end) itens
  | MList nomes => length nomes
  end.

(** Every folder name of a model satisfies [ok]. *)
Fixpoint all_names (ok : ustr -> bool) (m : modelo) : bool :=
  match m with
  | MDict itens =>
      (fix go (l : list (ustr * modelo)) : bool :=
         match l with
         | [] => true
         | (nome, sub) :: l' => ok nome && all_names ok sub && go l'
         end) itens
  | MList nomes => forallb ok nomes
  end.

(** A step that never raises and logs [n] lines satisfying [Q], from a
    file system satisfying [Pre] to one related by [R] (and satisfying
    [Pre]). *)
Definition logs (Pre : fs -> Prop) (R : relation fs) (Q : ustr -> Prop) (n : nat)
    (m : TM unit) : Prop :=
  forall f l, Pre f -> exists f' ms,
    m (f, l) = ((f', l ++ ms), Ok tt) /\ Pre f' /\ R f f' /\ length ms = n /\ Forall Q ms.

(** A step that never raises, logs exactly [out] and leaves the folders
    [ps] as directories, from a file system where each of [ps] satisfies
    [P], to one related by [R]. *)
Definition runs (P : path -> fs -> Prop) (R : relation fs) (ps : list path)
    (out : list ustr) (m : TM unit) : Prop :=
  forall f l, Forall (fun p => P p f) ps -> exists f',
    m (f, l) = ((f', l ++ out), Ok tt) /\ R f f' /\ Forall (fun p => is_dir f' p = true) ps.

(** ** The window *)

(** [var_path], the lines of [txt_log], whether [btn_criar] is enabled, and
    the message boxes shown so far. *)
Record gui := mkGui {
  var_path : ustr;
  txt_log : list ustr;
  btn_criar_normal : bool;
  dialogs : list dialog
}.

(** The state after [__init__]: an empty path, an empty log, the button
    enabled. *)
Definition gui_init : gui := mkGui [] [] true [].

(** [log(msg)]: [txt_log.insert("end", msg + "\n")]. *)
Definition log (msg : ustr) (g : gui) : gui :=
  mkGui (var_path g) (txt_log g ++ [msg]) (btn_criar_normal g) (dialogs g).

(** [limpar_log()]: [txt_log.delete("1.0", "end")]. *)
Definition limpar_log (g : gui) : gui :=
  mkGui (var_path g) [] (btn_criar_normal g) (dialogs g).

(** [selecionar_pasta()]: [pasta] is what [askdirectory] returned (the
    empty string when the dialog is cancelled). *)
Definition selecionar_pasta (pasta : ustr) (g : gui) : gui :=
  if bool_decide (pasta = []) then g
  else mkGui pasta (txt_log g) (btn_criar_normal g) (dialogs g).

Definition show_dialog (d : dialog) (g : gui) : gui :=
  mkGui (var_path g) (txt_log g) (btn_criar_normal g) (dialogs g ++ [d]).

Definition set_btn (normal : bool) (g : gui) : gui :=
  mkGui (var_path g) (txt_log g) normal (dialogs g).

Definition GM (A : Type) : Type := st oserr (fs * gui) A.

(** Code points of the accented letters of the messages. *)
Definition c_cedil : Z := 231.   (* c with cedilla *)
Definition a_tilde : Z := 227.   (* a with tilde *)
Definition i_acute : Z := 237.   (* i with acute *)
Definition em_dash : Z := 8212.
Definition newline : Z := 10.

Definition txt_atencao : ustr := u "Aten" ++ [c_cedil; a_tilde] ++ u "o".
Definition txt_informe : ustr := u "Informe ou selecione a pasta do cliente.".
Definition txt_pronto : ustr := u "Estrutura criada com sucesso!".

(** The lines [acao_criar] logs itself. *)
Definition linha_base_criada (base : ppath) : ustr :=
  u "Pasta base inexistente " ++ [em_dash] ++ u " criada: " ++ show_ppath base.
Definition linha_iniciando (base : ppath) : ustr :=
  u "Iniciando cria" ++ [c_cedil; a_tilde] ++ u "o em: " ++ show_ppath base.
Definition linha_concluido : ustr := u "Conclu" ++ [i_acute] ++ u "do.".

Section Window.
Variable cwd : path.

(** [acao_criar()]. *)
Definition acao_criar : GM unit :=
  caminho <- gets (fun g => py_strip (var_path g)) ;;
  if bool_decide (caminho = []) then
    modify (show_dialog (ShowWarning txt_atencao txt_informe))
  else
  let base := py_path caminho in
  ex <- read (fun f => path_exists f (resolve cwd base)) ;;
  continua <- (if ex then ret true else
    try_except
      (on_fs (mkdir_p (resolve cwd base)) ;;
       modify (log (linha_base_criada base)) ;;
       ret true)
      (fun e =>
         modify (show_dialog (ShowError (u "Erro")
           (u "N" ++ [a_tilde] ++ u "o foi poss" ++ [i_acute] ++ u "vel criar a pasta base:" ++
            [newline] ++ show_err e))) ;;
         ret false)) ;;
  if continua then
    modify (set_btn false) ;;
    modify (log (linha_iniciando base)) ;;
    try_finally
      (try_except
         (run_logged log (criar_arvore cwd base ESTRUTURA_PADRAO 0) ;;
          modify (log linha_concluido) ;;
          modify (show_dialog (ShowInfo (u "Pronto") txt_pronto)))
         (fun e =>
            modify (log (u "[ERRO] " ++ show_err e)) ;;
            modify (show_dialog (ShowError (u "Erro") (u "Ocorreu um erro:" ++ [newline] ++ show_err e)))))
      (modify (set_btn true))
  else ret tt.

End Window.

(** ** Example file systems of the witnesses

    The working directory [/home]; an empty one, and one where [/home/c]
    is a file. *)
Definition ex_cwd : path := [u "home"].
Definition ex_vazio : fs := mkFs [([u "home"], NDir)] [].
Definition ex_arquivo : fs := mkFs [([u "home"], NDir); ([u "home"; u "c"], NFile (u "x") 0)] [].
Definition ex_gui (caminho : string) : gui := mkGui (u caminho) [] true [].

(** ** Induction on models *)

Lemma modelo_ind' (P : modelo -> Prop) :
  (forall l, Forall (fun p => P p.2) l -> P (MDict l)) -> (forall ns, P (MList ns)) ->
  forall m, P m.
Proof.
  intros HD HL. refine (fix F m := match m with
    | MDict l => HD l ((fix G (l : list (ustr * modelo)) : Forall (fun p => P p.2) l :=
                         match l with
                         | [] => List.Forall_nil _
                         | (n, s) :: l' => @List.Forall_cons _ (fun p => P p.2) (n, s) l' (F s) (G l')
                         end) l)
    | MList ns => HL ns end).
Qed.

Section Unfold.
Variable cwd : path.
Variables (base : ppath) (nome : ustr) (sub : modelo) (l : list (ustr * modelo)) (nivel : nat).

Lemma criar_arvore_cons :
  criar_arvore cwd base (MDict ((nome, sub) :: l)) nivel =
    (criar_no cwd base nome nivel ;;
     (if nonempty sub then criar_arvore cwd (pjoin base nome) sub (S nivel) else ret tt) ;;
     criar_arvore cwd base (MDict l) nivel).
Proof. reflexivity. Qed.

Lemma tree_paths_cons :
  tree_paths cwd base (MDict ((nome, sub) :: l)) =
    [resolve cwd (pjoin base nome)] ++
    ((if nonempty sub then tree_paths cwd (pjoin base nome) sub else []) ++ tree_paths cwd base (MDict l)).
Proof. reflexivity. Qed.

Lemma criados_cons :
  criados base (MDict ((nome, sub) :: l)) nivel =
    [linha_criado base nome nivel] ++
    ((if nonempty sub then criados (pjoin base nome) sub (S nivel) else []) ++ criados base (MDict l) nivel).
Proof. reflexivity. Qed.

Lemma n_pastas_cons :
  n_pastas (MDict ((nome, sub) :: l)) =
    1 + ((if nonempty sub then n_pastas sub else 0) + n_pastas (MDict l)).
Proof. reflexivity. Qed.

Lemma all_names_cons ok :
  all_names ok (MDict ((nome, sub) :: l)) = ok nome && all_names ok sub && all_names ok (MDict l).
Proof. reflexivity. Qed.
End Unfold.

Create Rewrite HintDb estruturas_rw.
#[local] Hint Rewrite criar_arvore_cons tree_paths_cons criados_cons n_pastas_cons all_names_cons
  : estruturas_rw.

Lemma all_names_true m : all_names (fun _ => true) m = true.
Proof.
  induction m as [l Hl|ns] using modelo_ind'; [|by induction ns].
  induction l as [|[n s] l IHl]; [done|]. inversion Hl; subst.
  autorewrite with estruturas_rw. simpl in *. rewrite H1. auto.
Qed.

Lemma resolve_pjoin cwd base nome :
  is_prefix (u "/") nome = false ->
  resolve cwd (pjoin base nome) = resolve cwd base ++ path_parts nome.
Proof.
  intros Hn. unfold resolve, pjoin, join. rewrite Hn. simpl.
  destruct (pp_abs base); [done|by rewrite app_assoc].
Qed.

(** ** Steps that log *)

Section Logs.
Context (Pre : fs -> Prop) (R : relation fs) `{!PreOrder R} (Q : ustr -> Prop).

Lemma logs_ret : logs Pre R Q 0 (ret tt).
Proof. intros f l Hf. exists f, []. rewrite app_nil_r. repeat split; [done|reflexivity|constructor]. Qed.

Lemma logs_bind n1 n2 (m k : TM unit) :
  logs Pre R Q n1 m -> logs Pre R Q n2 k -> logs Pre R Q (n1 + n2) (m ;; k).
Proof.
  intros Hm Hk f l Hf. destruct (Hm f l Hf) as (f1 & ms1 & E1 & P1 & R1 & L1 & Q1).
  destruct (Hk f1 (l ++ ms1) P1) as (f2 & ms2 & E2 & P2 & R2 & L2 & Q2).
  exists f2, (ms1 ++ ms2). rewrite (bind_Ok _ _ _ _ _ E1), E2, app_assoc.
  repeat split; [done|by etrans|rewrite length_app; lia|by apply Forall_app].
Qed.

Lemma logs_for_each {A} k (xs : list A) (body : A -> TM unit) :
  (forall x, In x xs -> logs Pre R Q k (body x)) -> logs Pre R Q (length xs * k) (for_each xs body).
Proof.
  induction xs as [|x xs IH]; intros Hb; [apply logs_ret|]. simpl.
  apply logs_bind; [apply Hb; by left|]. apply IH. intros y Hy. apply Hb. by right.
Qed.

Variable cwd : path.
Variables (Inv : ppath -> Prop) (ok : ustr -> bool).
Hypothesis no_logs : forall base nome nivel,
  Inv base -> ok nome = true -> logs Pre R Q 1 (criar_no cwd base nome nivel).
Hypothesis inv_step : forall base nome, Inv base -> ok nome = true -> Inv (pjoin base nome).

(** [criar_arvore] logs one line per folder when each folder's step does. *)
Lemma criar_arvore_logs m : forall base nivel,
  Inv base -> all_names ok m = true -> logs Pre R Q (n_pastas m) (criar_arvore cwd base m nivel).
Proof.
  induction m as [l Hl|ns] using modelo_ind'; intros base nivel Hb Hn.
  - induction l as [|[nome sub] l IHl]; [apply logs_ret|]. inversion Hl as [|? ? Hsub Hl']; subst.
    autorewrite with estruturas_rw in *. apply andb_true_iff in Hn as [[Hnm Hs]%andb_true_iff Hr].
    apply logs_bind; [by apply no_logs|]. apply logs_bind; [|by apply IHl].
    destruct (nonempty sub); [apply Hsub; auto|apply logs_ret].
  - simpl. rewrite <- (Nat.mul_1_r (length ns)). apply logs_for_each.
    intros x Hx. apply no_logs; [done|]. simpl in Hn. by eapply forallb_forall in Hn.
Qed.
End Logs.

(** ** Steps that create their folders *)

Section Runs.
Context (P : path -> fs -> Prop) (R : relation fs) `{!PreOrder R}.
Hypothesis P_stable : forall p f f', R f f' -> P p f -> P p f'.
Hypothesis dir_stable : forall p f f', R f f' -> is_dir f p = true -> is_dir f' p = true.

Lemma runs_ret : runs P R [] [] (ret tt).
Proof. intros f l _. exists f. rewrite app_nil_r. repeat split; [reflexivity|constructor]. Qed.

Lemma runs_bind ps1 ps2 o1 o2 (m k : TM unit) :
  runs P R ps1 o1 m -> runs P R ps2 o2 k -> runs P R (ps1 ++ ps2) (o1 ++ o2) (m ;; k).
Proof.
  intros Hm Hk f l [H1 H2]%Forall_app. destruct (Hm f l H1) as (f1 & E1 & R1 & D1).
  destruct (Hk f1 (l ++ o1)) as (f2 & E2 & R2 & D2).
  { eapply Forall_impl; [done|]. intros p. by apply P_stable. }
  exists f2. rewrite (bind_Ok _ _ _ _ _ E1), E2, app_assoc. split; [done|]. split; [by etrans|].
  apply Forall_app. split; [|done]. eapply Forall_impl; [done|]. intros p. by apply dir_stable.
Qed.

Lemma runs_for_each {A} (xs : list A) (g : A -> path) (h : A -> ustr) (body : A -> TM unit) :
  (forall x, runs P R [g x] [h x] (body x)) -> runs P R (map g xs) (map h xs) (for_each xs body).
Proof.
  intros Hb. induction xs as [|x xs IH]; [apply runs_ret|]. simpl.
  apply (runs_bind [g x] _ [h x]); [apply Hb|apply IH].
Qed.

Variable cwd : path.
Hypothesis no_runs : forall base nome nivel,
  runs P R [resolve cwd (pjoin base nome)] [linha_criado base nome nivel] (criar_no cwd base nome nivel).

(** [criar_arvore] creates [tree_paths] and logs [criados] when each
    folder's step creates its folder. *)
Lemma criar_arvore_runs m : forall base nivel,
  runs P R (tree_paths cwd base m) (criados base m nivel) (criar_arvore cwd base m nivel).
Proof.
  induction m as [l Hl|ns] using modelo_ind'; intros base nivel.
  - induction l as [|[nome sub] l IHl]; [apply runs_ret|]. inversion Hl as [|? ? Hsub Hl']; subst.
    autorewrite with estruturas_rw. apply runs_bind; [apply no_runs|].
    apply runs_bind; [|by apply IHl]. destruct (nonempty sub); [apply Hsub|apply runs_ret].
  - by apply runs_for_each.
Qed.
End Runs.

(** ** One folder *)

Lemma is_dir_extends f f' p : extends f f' -> is_dir f p = true -> is_dir f' p = true.
Proof.
  intros [E _] H. apply is_dir_lookup in H. unfold is_dir. by rewrite (E _ _ H).
Qed.

Lemma criar_no_clear cwd base nome nivel :
  runs (fun p f => mkdir_clear f p) adds_dirs
    [resolve cwd (pjoin base nome)] [linha_criado base nome nivel] (criar_no cwd base nome nivel).
Proof.
  intros f l [Hc _]%Forall_cons. destruct (mkdir_p_success _ _ Hc) as (f' & E & Hd & Ha).
  exists f'. unfold criar_no, try_except, bind, on_fs, emit. rewrite E.
  split; [done|]. split; [done|]. by apply Forall_singleton.
Qed.

Lemma criar_no_existing cwd base nome nivel :
  runs (fun p f => is_dir f p = true) eq
    [resolve cwd (pjoin base nome)] [linha_criado base nome nivel] (criar_no cwd base nome nivel).
Proof.
  intros f l [Hd _]%Forall_cons. exists f. unfold criar_no, try_except, bind, on_fs, emit, mkdir_p.
  rewrite mkdir_parents_existing by done. split; [done|]. split; [done|]. by apply Forall_singleton.
Qed.

Lemma criar_no_one_line cwd base nome nivel :
  logs (fun _ => True) (fun _ _ => True) (fun _ => True) 1 (criar_no cwd base nome nivel).
Proof.
  intros f l _. unfold criar_no, try_except, bind, on_fs, emit.
  destruct (mkdir_p _ f) as [f1 [[]|e]]; (eexists _, _; split; [reflexivity|]); by repeat constructor.
Qed.

Lemma is_substr_mid (p a b : ustr) : is_substr p (a ++ p ++ b) = true.
Proof. apply is_substr_spec. eauto. Qed.

(** The file system a tree is created in when the chosen base is a file
    [b] (or lies below one). *)
Definition under_file (b : path) (d : ustr) (t : Z) (f : fs) : Prop :=
  wf f /\ lookup_node f b = Some (NFile d t).

Definition erro (s : ustr) : Prop := is_substr (u "[ERRO]") s = true.

Lemma criar_no_under_file cwd b d t base nome nivel :
  (exists r, resolve cwd base = b ++ r) -> path_parts nome <> [] -> is_prefix (u "/") nome = false ->
  logs (under_file b d t) eq erro 1 (criar_no cwd base nome nivel).
Proof.
  intros [r Hr] Hn Ha f l [Hwf Hb].
  destruct (mkdir_parents_under_file (length (b ++ r ++ path_parts nome)) f b d t
              (r ++ path_parts nome) Hwf Hb) as [e E].
  { intros [_ ?]%app_eq_nil. by apply Hn. }
  unfold criar_no, try_except, bind, on_fs, emit, mkdir_p. rewrite resolve_pjoin, Hr, <- app_assoc, E by done.
  eexists _, _. split; [reflexivity|]. split; [done|]. split; [done|]. split; [done|].
  apply Forall_singleton. unfold erro. change (u "[ERRO] ") with (u "[ERRO]" ++ u " "). rewrite <- app_assoc.
  apply is_substr_mid.
Qed.

#[local] Instance any_rel_preorder : PreOrder (fun _ _ : fs => True).
Proof. split; red; auto. Qed.

Lemma mkdir_clear_stable p f f' : adds_dirs f f' -> mkdir_clear f p -> mkdir_clear f' p.
Proof. apply mkdir_clear_adds. Qed.

Lemma adds_dirs_is_dir p f f' : adds_dirs f f' -> is_dir f p = true -> is_dir f' p = true.
Proof. intros [E _]. by apply is_dir_extends. Qed.

Lemma fold_log ms g :
  fold_left (fun g e => log e g) ms g = mkGui (var_path g) (txt_log g ++ ms) (btn_criar_normal g) (dialogs g).
Proof.
  revert g. induction ms as [|m ms IH]; intros g; simpl.
  - rewrite app_nil_r. by destruct g.
  - rewrite IH. simpl. by rewrite <- app_assoc.
Qed.

Lemma run_logged_log (m : TM unit) f g f' ms r :
  m (f, []) = ((f', ms), r) ->
  run_logged log m (f, g) = ((f', mkGui (var_path g) (txt_log g ++ ms) (btn_criar_normal g) (dialogs g)), r).
Proof. intros E. unfold run_logged. by rewrite E, fold_log. Qed.

(** ** Properties of [criar_arvore] *)

(** C20: [criar_arvore] never raises: an error on one folder is logged and
    the loop goes on ("Registra e continua"), so each folder of the model
    gives exactly one log line, whatever the file system. *)
Theorem criar_arvore_resiliente cwd m base nivel f l :
  exists f' ms, criar_arvore cwd base m nivel (f, l) = ((f', l ++ ms), Ok tt) /\
    length ms = n_pastas m.
Proof.
  destruct (criar_arvore_logs (fun _ => True) (fun _ _ => True) (fun _ => True) cwd
              (fun _ => True) (fun _ => true) (fun _ _ _ _ _ => criar_no_one_line _ _ _ _)
              (fun _ _ _ _ => I) m base nivel I (all_names_true m) f l I)
    as (f' & ms & E & _ & _ & Hl & _).
  eauto.
Qed.

(** C21: on a file system where no prefix of a folder of the model is a
    file or a read-only directory, [criar_arvore] creates every folder of
    the model, in [tree_paths] order, adds nothing but directories, and logs
    exactly the "Criado: <folder>" lines of [criados], indented by depth. *)
Theorem criar_arvore_cria cwd m base nivel f l :
  Forall (fun p => mkdir_clear f p) (tree_paths cwd base m) ->
  exists f', criar_arvore cwd base m nivel (f, l) = ((f', l ++ criados base m nivel), Ok tt) /\
    adds_dirs f f' /\ Forall (fun p => is_dir f' p = true) (tree_paths cwd base m).
Proof.
  intros Hc. apply (criar_arvore_runs (fun p f => mkdir_clear f p) adds_dirs
    (fun p => mkdir_clear_stable p) (fun p => adds_dirs_is_dir p) cwd (criar_no_clear cwd)); done.
Qed.

(** C22: [criar_arvore] is idempotent: run again on the tree it has just
    created, it changes nothing and logs the same lines. *)
Theorem criar_arvore_idempotente cwd m base nivel f l l' :
  Forall (fun p => mkdir_clear f p) (tree_paths cwd base m) ->
  let f' := fst (fst (criar_arvore cwd base m nivel (f, l))) in
  criar_arvore cwd base m nivel (f', l') = ((f', l' ++ criados base m nivel), Ok tt).
Proof.
  intros Hc f'. destruct (criar_arvore_cria cwd m base nivel f l Hc) as (f1 & E & _ & Hd).
  subst f'. rewrite E. simpl.
  destruct (criar_arvore_runs (fun p f => is_dir f p = true) eq ltac:(by intros ??? ->)
              ltac:(by intros ??? ->) cwd (criar_no_existing cwd) m base nivel f1 l' Hd)
    as (f2 & E2 & <- & _).
  done.
Qed.

(** ** [acao_criar] *)

#[local] Arguments criar_arvore : simpl never.
#[local] Arguments py_strip : simpl never.
#[local] Arguments show_ppath : simpl never.
#[local] Arguments resolve : simpl never.
#[local] Arguments py_path : simpl never.
#[local] Arguments run_logged : simpl never.
#[local] Arguments u : simpl never.
#[local] Arguments mkdir_p : simpl never.

(** The window after the tree has been built from [f1] into [f'] with the
    lines [ms], [pre] being the lines logged before "Iniciando". *)
Definition gui_fim (g : gui) (base : ppath) (pre ms : list ustr) : gui :=
  mkGui (var_path g) (txt_log g ++ pre ++ [linha_iniciando base] ++ ms ++ [linha_concluido]) true
    (dialogs g ++ [ShowInfo (u "Pronto") txt_pronto]).

Lemma acao_criar_continua cwd f g f1 f' ms pre :
  let base := py_path (py_strip (var_path g)) in
  py_strip (var_path g) <> [] ->
  (path_exists f (resolve cwd base) = true /\ f1 = f /\ pre = [] \/
   path_exists f (resolve cwd base) = false /\ mkdir_p (resolve cwd base) f = (f1, Ok tt) /\
   pre = [linha_base_criada base]) ->
  criar_arvore cwd base ESTRUTURA_PADRAO 0 (f1, []) = ((f', ms), Ok tt) ->
  acao_criar cwd (f, g) = ((f', gui_fim g base pre ms), Ok tt).
Proof.
  intros base Hc Hpre Hrun. unfold acao_criar, gets, read, modify, bind, ret, try_finally, try_except.
  simpl. rewrite bool_decide_eq_false_2 by done. fold base.
  destruct Hpre as [(-> & -> & ->) | (-> & Hmk & ->)]; simpl; [|unfold on_fs; rewrite Hmk; simpl];
    erewrite run_logged_log by (simpl; exact Hrun); simpl;
    unfold set_btn, show_dialog, log, gui_fim; simpl; by rewrite <- !app_assoc.
Qed.

(** C23: [acao_criar] reports success even when no folder could be
    created: when the chosen path is an existing file, each of the 62
    folders of [ESTRUTURA_PADRAO] fails with an "[ERRO]" line, nothing is
    created, and the window still logs "Concluido." and shows the dialog
    "Estrutura criada com sucesso!". *)
Theorem acao_criar_sucesso_em_arquivo cwd f g d t :
  let base := py_path (py_strip (var_path g)) in
  py_strip (var_path g) <> [] ->
  under_file (resolve cwd base) d t f ->
  exists ms, acao_criar cwd (f, g) = ((f, gui_fim g base [] ms), Ok tt) /\
    length ms = 62 /\ Forall erro ms.
Proof.
  intros base Hc Hf.
  assert (Hlogs : logs (under_file (resolve cwd base) d t) eq erro (n_pastas ESTRUTURA_PADRAO)
                    (criar_arvore cwd base ESTRUTURA_PADRAO 0)).
  { apply (criar_arvore_logs _ _ _ cwd (fun b => exists r, resolve cwd b = resolve cwd base ++ r)
             (fun n => negb (bool_decide (path_parts n = [])) && negb (is_prefix (u "/") n))).
    - intros b n nivel Hb [Hn Ha]%andb_true_iff. apply criar_no_under_file; [done| |by apply negb_true_iff].
      by apply negb_true_iff, bool_decide_eq_false in Hn.
    - intros b n [r Hr] [_ Ha]%andb_true_iff. exists (r ++ path_parts n).
      apply negb_true_iff in Ha. by rewrite resolve_pjoin, Hr, app_assoc.
    - exists []. by rewrite app_nil_r.
    - vm_compute. reflexivity. }
  destruct (Hlogs f [] Hf) as (f' & ms & E & _ & <- & Hl & Hq).
  exists ms. split; [|done]. apply (acao_criar_continua _ _ _ f); [done| |done].
  left. split; [|done]. destruct Hf as [_ Hb]. unfold path_exists. fold base. by rewrite Hb.
Qed.

(** C24: [acao_criar] on a path where no prefix of the base folder or of a
    folder of [ESTRUTURA_PADRAO] is a file or a read-only directory creates
    the base folder when missing (logging "Pasta base inexistente"), then
    every folder of the model, logs "Iniciando", the "Criado" lines of
    [criados] and "Concluido.", shows the success dialog and re-enables the
    button. *)
Theorem acao_criar_cria cwd f g :
  let base := py_path (py_strip (var_path g)) in
  py_strip (var_path g) <> [] ->
  Forall (fun p => mkdir_clear f p) (resolve cwd base :: tree_paths cwd base ESTRUTURA_PADRAO) ->
  exists f', acao_criar cwd (f, g) =
    ((f', gui_fim g base (if path_exists f (resolve cwd base) then [] else [linha_base_criada base])
                  (criados base ESTRUTURA_PADRAO 0)), Ok tt) /\
    Forall (fun p => is_dir f' p = true) (resolve cwd base :: tree_paths cwd base ESTRUTURA_PADRAO).
Proof.
  intros base Hc [Hb Ht]%Forall_cons.
  destruct (path_exists f (resolve cwd base)) eqn:Hex.
  - destruct (criar_arvore_cria cwd ESTRUTURA_PADRAO base 0 f [] Ht) as (f' & E & Ha & Hd).
    exists f'. split; [by eapply acao_criar_continua; [| left |]|].
    constructor; [|done]. eapply adds_dirs_is_dir; [done|].
    unfold path_exists in Hex. unfold is_dir.
    destruct (lookup_node f _) as [[|d t]|] eqn:El; try done. exfalso.
    by apply (proj1 (Hb (resolve cwd base) ltac:(done)) d t).
  - destruct (mkdir_p_success _ _ Hb) as (f1 & E1 & Hd1 & Ha1).
    destruct (criar_arvore_cria cwd ESTRUTURA_PADRAO base 0 f1 [])
      as (f' & E & Ha & Hd).
    { eapply Forall_impl; [done|]. intros p. by apply mkdir_clear_stable. }
    exists f'. split; [by eapply acao_criar_continua; [| right |]|].
    constructor; [by eapply adds_dirs_is_dir|done].
Qed.

Lemma criar_arvore_cria_witness :
  exists f', criar_arvore ex_cwd (py_path (u "cliente")) ESTRUTURA_PADRAO 0 (ex_vazio, []) =
    ((f', [] ++ criados (py_path (u "cliente")) ESTRUTURA_PADRAO 0), Ok tt) /\
    adds_dirs ex_vazio f' /\
    Forall (fun p => is_dir f' p = true) (tree_paths ex_cwd (py_path (u "cliente")) ESTRUTURA_PADRAO).
Proof. apply criar_arvore_cria. apply forallb_mkdir_clear. vm_compute. reflexivity. Defined.

Lemma criar_arvore_idempotente_witness :
  let f' := fst (fst (criar_arvore ex_cwd (py_path (u "cliente")) ESTRUTURA_PADRAO 0 (ex_vazio, []))) in
  criar_arvore ex_cwd (py_path (u "cliente")) ESTRUTURA_PADRAO 0 (f', []) =
    ((f', [] ++ criados (py_path (u "cliente")) ESTRUTURA_PADRAO 0), Ok tt).
Proof. apply criar_arvore_idempotente. apply forallb_mkdir_clear. vm_compute. reflexivity. Defined.

Lemma acao_criar_sucesso_em_arquivo_witness :
  let g := ex_gui "c" in
  let base := py_path (py_strip (var_path g)) in
  exists ms, acao_criar ex_cwd (ex_arquivo, g) = ((ex_arquivo, gui_fim g base [] ms), Ok tt) /\
    length ms = 62 /\ Forall erro ms.
Proof.
  apply (acao_criar_sucesso_em_arquivo ex_cwd ex_arquivo (ex_gui "c") (u "x") 0).
  - vm_compute. discriminate.
  - split; [apply wfb_sound|]; vm_compute; reflexivity.
Defined.

Lemma acao_criar_cria_witness :
  let g := ex_gui " /home/cliente " in
  let base := py_path (py_strip (var_path g)) in
  exists f', acao_criar ex_cwd (ex_vazio, g) =
    ((f', gui_fim g base (if path_exists ex_vazio (resolve ex_cwd base) then [] else [linha_base_criada base])
                  (criados base ESTRUTURA_PADRAO 0)), Ok tt) /\
    Forall (fun p => is_dir f' p = true) (resolve ex_cwd base :: tree_paths ex_cwd base ESTRUTURA_PADRAO).
Proof.
  apply (acao_criar_cria ex_cwd ex_vazio (ex_gui " /home/cliente ")).
  - vm_compute. discriminate.
  - apply forallb_mkdir_clear. vm_compute. reflexivity.
Defined.

End EstruturasApp.
