(* ===== verification/App.v ===== *)
(** * The bid-folder windows: state, handlers and the [_criar] pipeline

    The three windows [App] of [src/LicitagovLicitacaoMesApp.py],
    [StyledApp] of [src/LicitagovLicitacaoMesApp_UI.py] and [App] of
    [src/4-PROJETOS/Docket/docket.py] keep the same state: the form's
    variables, the console ([LogConsole]), the attachment list, the folder
    created last, the Criar button(s), the progress bar and the message
    boxes shown.  Their handlers are the same code up to the console they
    log to, a few message texts and, in the Docket window, the sub-folders
    step of [_criar] (only the ticked ones are created).  [_criar_pipeline]
    is the body of [_criar] with those differences as parameters.

    The process's working directory [cwd] and the script's folder
    [app_dir] ([caminho_participar()]) are the parameters of the handlers.
    The components a handler calls with [log=self._log] run through
    [run_logged] with the window's [_log] as sink.  The widgets' layout,
    colours and the Tk event loop are not modelled. *)

From Stdlib Require Import ZArith Lia.
From Stdlib Require Import Strings.String.
From stdpp Require Import base list.
From S2P Require Import Prelude Normalize Fs Resolver Copier Domain Console.
Import NameNormalizer FileSystem PathResolver ResilientCopier Dominio LogConsole.

Local Open Scope py_scope.

Module Janela.

(** The variables of the form ([tk.StringVar] and [tk.BooleanVar]) and
    the text of the name preview. *)
Record form := mkForm {
  var_mes : ustr;
  var_dia : ustr;
  var_idlct : ustr;
  var_portal : ustr;
  var_gp : bool;
  var_cidadeuf : ustr;
  var_modelos_path : ustr;
  var_template_path : ustr;
  var_politica : ustr;
  var_anexos_destino : ustr;
  vars_subpastas : list (ustr * bool);
  lbl_preview : ustr
}.

(** The window: its console, form, [anexos_arquivos] and the lines of
    [lst_anexos], [destino_criado], whether the Criar button(s) are enabled,
    the progress bar ([None] while it runs indeterminate, [Some v] when it
    is determinate at [v]), the message boxes shown and the folders opened
    in the file manager. *)
Record janela := mkJanela {
  con : console;
  form_ : form;
  anexos_arquivos : list ppath;
  lst_anexos : list ustr;
  destino_criado : option path;
  btn_normal : bool;
  progresso : option nat;
  dialogs : list dialog;
  abertos : list ustr
}.

Definition set_con (c : console) (j : janela) : janela :=
  mkJanela c (form_ j) (anexos_arquivos j) (lst_anexos j) (destino_criado j) (btn_normal j)
    (progresso j) (dialogs j) (abertos j).
Definition set_form (fm : form) (j : janela) : janela :=
  mkJanela (con j) fm (anexos_arquivos j) (lst_anexos j) (destino_criado j) (btn_normal j)
    (progresso j) (dialogs j) (abertos j).
Definition set_anexos (a : list ppath) (l : list ustr) (j : janela) : janela :=
  mkJanela (con j) (form_ j) a l (destino_criado j) (btn_normal j) (progresso j) (dialogs j) (abertos j).
Definition set_destino (d : option path) (j : janela) : janela :=
  mkJanela (con j) (form_ j) (anexos_arquivos j) (lst_anexos j) d (btn_normal j) (progresso j)
    (dialogs j) (abertos j).
Definition set_botao (normal : bool) (p : option nat) (j : janela) : janela :=
  mkJanela (con j) (form_ j) (anexos_arquivos j) (lst_anexos j) (destino_criado j) normal p
    (dialogs j) (abertos j).
Definition add_dialog (d : dialog) (j : janela) : janela :=
  mkJanela (con j) (form_ j) (anexos_arquivos j) (lst_anexos j) (destino_criado j) (btn_normal j)
    (progresso j) (dialogs j ++ [d]) (abertos j).
Definition add_aberto (s : ustr) (j : janela) : janela :=
  mkJanela (con j) (form_ j) (anexos_arquivos j) (lst_anexos j) (destino_criado j) (btn_normal j)
    (progresso j) (dialogs j) (abertos j ++ [s]).

Definition set_modelos_path (s : ustr) (fm : form) : form :=
  mkForm (var_mes fm) (var_dia fm) (var_idlct fm) (var_portal fm) (var_gp fm) (var_cidadeuf fm)
    s (var_template_path fm) (var_politica fm) (var_anexos_destino fm) (vars_subpastas fm) (lbl_preview fm).
Definition set_template_path (s : ustr) (fm : form) : form :=
  mkForm (var_mes fm) (var_dia fm) (var_idlct fm) (var_portal fm) (var_gp fm) (var_cidadeuf fm)
    (var_modelos_path fm) s (var_politica fm) (var_anexos_destino fm) (vars_subpastas fm) (lbl_preview fm).
Definition set_preview (s : ustr) (fm : form) : form :=
  mkForm (var_mes fm) (var_dia fm) (var_idlct fm) (var_portal fm) (var_gp fm) (var_cidadeuf fm)
    (var_modelos_path fm) (var_template_path fm) (var_politica fm) (var_anexos_destino fm)
    (vars_subpastas fm) s.

Definition GM (A : Type) : Type := st oserr (fs * janela) A.

Definition on_form (h : form -> form) : GM unit := modify (fun j => set_form (h (form_ j)) j).

(** [self._log(level, msg)], [self._toast(msg, level)],
    [messagebox.show...(title, msg)]. *)
Definition jlog (w : window) (l : level) (msg : ustr) : GM unit :=
  modify (fun j => set_con (w_log w l msg (con j)) j).
Definition jtoast (msg : ustr) (l : level) : GM unit :=
  modify (fun j => set_con (_toast msg l (con j)) j).
Definition jdialog (d : dialog) : GM unit := modify (add_dialog d).

(** [self._log] passed as [log]: an event of the copier becomes a line. *)
Definition sink (w : window) (ev : event) (j : janela) : janela :=
  set_con (w_log w ev.1 (render_msg ev.2) (con j)) j.

Definition nl : ustr := [10%Z].

(** A step of [_criar] inside [try: ... except Exception as e:
    self._log("error", ...); messagebox.showerror("Erro", ...); return]:
    [true] when it went through. *)
Definition etapa (w : window) (m : GM unit) (falha : ustr) (dlg : ustr) : GM bool :=
  try_except (m ;; ret true)
    (fun e => jlog w LError (falha ++ show_err e) ;;
              jdialog (ShowError (u "Erro") (dlg ++ nl ++ show_err e)) ;; ret false).

(** [pasta_mes / nome]. *)
Definition barra (p : path) (nome : ustr) : path := pp_parts (pjoin (abs_path p) nome).

Section Pipeline.
Variables (cwd app_dir : path).

(** The MODELOS and TEMPLATE step of [_criar]: the paths typed in the form
    ([Path(var.get().strip())]), detected again when they do not exist;
    [Some template] when the copy goes on, [None] after the warning. *)
Definition localizar_modelos (w : window) : GM (option ppath) :=
  fm <- gets form_ ;;
  let modelos := py_path (py_strip (var_modelos_path fm)) in
  let template := py_path (py_strip (var_template_path fm)) in
  m_ex <- read (fun f => path_exists f (resolve cwd modelos)) ;;
  modelos <- (if m_ex then ret modelos else
                det <- query (detectar_pasta_modelos app_dir) ;;
                let m := match det with Some p => abs_path p | None => modelos end in
                on_form (set_modelos_path (show_ppath m)) ;; ret m) ;;
  m_ex <- read (fun f => path_exists f (resolve cwd modelos)) ;;
  t_ex <- read (fun f => path_exists f (resolve cwd template)) ;;
  template <- (if m_ex && negb t_ex then
                 det <- query (detectar_pasta_template cwd modelos) ;;
                 let t := match det with Some p => p | None => template end in
                 on_form (set_template_path (show_ppath t)) ;; ret t
               else ret template) ;;
  m_ex <- read (fun f => path_exists f (resolve cwd modelos)) ;;
  t_ex <- read (fun f => path_exists f (resolve cwd template)) ;;
  if negb m_ex then
    jlog w LWarn (tx "Pasta MODELOS (raiz) não encontrada. Selecione manualmente.") ;; ret None
  else if negb t_ex then
    jlog w LWarn (tx "Subpasta TEMPLATE não encontrada dentro da pasta MODELOS.") ;; ret None
  else ret (Some template).

(** [selecionadas = [rel for rel, var in self.vars_subpastas.items() if var.get()]]
    and the call of [copiar_padrao_resiliente]. *)
Definition copiar_selecionadas (w : window) (template : ppath) (destino_raiz : path) : GM bool :=
  fm <- gets form_ ;;
  let selecionadas := map fst (List.filter snd (vars_subpastas fm)) in
  if bool_decide (selecionadas = []) then ret true else
  jlog w LInfo (tx "Copiando padrões de: " ++ show_ppath template) ;;
  etapa w (run_logged (sink w) (copiar_padrao_resiliente (resolve cwd template) destino_raiz
                                  selecionadas (var_politica fm)))
    (tx "Falha ao copiar padrões: ") (tx "Falha ao copiar padrões:").

(** The attachments step: [anexar_arquivos] when the list is not empty. *)
Definition anexar (w : window) (destino_raiz : path) : GM bool :=
  j <- gets id ;;
  if bool_decide (anexos_arquivos j = []) then ret true else
  etapa w (run_logged (sink w) (anexar_arquivos (map (resolve cwd) (anexos_arquivos j)) destino_raiz
                                  (var_anexos_destino (form_ j)) (var_politica (form_ j))))
    (tx "Falha ao anexar arquivos: ") (tx "Falha ao anexar arquivos:").

(** The end of [_criar]: [destino_criado] and the toast chosen from the
    counters; [onde] is "console" or "log". *)
Definition concluir (onde : ustr) (destino_raiz : path) : GM unit :=
  modify (set_destino (Some destino_raiz)) ;;
  c <- gets con ;;
  if bool_decide (0 < error_count c) then
    jtoast (tx "Concluído com erros. Verifique o " ++ onde ++ u ".") LError
  else if bool_decide (0 < warn_count c) then
    jtoast (tx "Concluído com avisos. Verifique o " ++ onde ++ u ".") LWarn
  else jtoast (tx "Licitação criada com sucesso!") LOk.

(** [_criar()]: [w] is the window (its [_log] and [_log_clear]), [onde] the
    word of its final toasts, [dlg_licitacao] the text of its error box
    when the bid folder cannot be created, and [subpastas] its sub-folder
    step. *)
Definition _criar_pipeline (w : window) (onde dlg_licitacao : ustr)
    (subpastas : path -> GM unit) : GM unit :=
  modify (fun j => set_con (_toast (tx "Iniciando criação…") LInfo (w_clear w (con j))) j) ;;
  modify (set_botao false None) ;;
  try_finally
    (mes <- gets (fun j => var_mes (form_ j)) ;;
     pasta_mes <- on_fs (resolver_pasta_mes app_dir mes) ;;
     ex <- read (fun f => path_exists f pasta_mes) ;;
     ok <- (if ex then ret true else
              etapa w (on_fs (mkdir_p pasta_mes) ;;
                       jlog w LInfo (tx "Pasta do mês criada: " ++ show_path pasta_mes))
                (tx "Falha ao criar pasta do mês: ") (tx "Não foi possível criar a pasta do mês:")) ;;
     if negb ok then ret tt else
     nome <- gets (fun j => lbl_preview (form_ j)) ;;
     let destino_raiz := barra pasta_mes nome in
     ok <- etapa w (on_fs (mkdir_p destino_raiz) ;;
                    jlog w LOk (tx "Licitação: " ++ show_path destino_raiz))
             (tx "Falha ao criar pasta da licitação: ") dlg_licitacao ;;
     if negb ok then ret tt else
     ok <- etapa w (subpastas destino_raiz) (tx "Falha ao criar subpastas: ") (tx "Falha ao criar subpastas:") ;;
     if negb ok then ret tt else
     tpl <- localizar_modelos w ;;
     ok <- (match tpl with
            | Some template => copiar_selecionadas w template destino_raiz
            | None => ret true
            end) ;;
     if negb ok then ret tt else
     ok <- anexar w destino_raiz ;;
     if negb ok then ret tt else
     concluir onde destino_raiz)
    (modify (set_botao true (Some 100))).

(** ** The other handlers *)

(** [_update_preview()], called by the traces of the five name fields. *)
Definition _update_preview : GM unit :=
  on_form (fun fm => set_preview (montar_nome_licitacao (var_dia fm) (var_idlct fm) (var_portal fm)
                                    (var_gp fm) (var_cidadeuf fm)) fm).

(** [_detectar_template()]; [ok_text] is the window's success toast. *)
Definition _detectar_template (ok_text : ustr) : GM unit :=
  fm <- gets form_ ;;
  let modelos := py_path (py_strip (var_modelos_path fm)) in
  ex <- read (fun f => path_exists f (resolve cwd modelos)) ;;
  modelos <- (if ex then ret modelos else
                det <- query (detectar_pasta_modelos app_dir) ;;
                let m := match det with Some p => abs_path p | None => modelos end in
                on_form (set_modelos_path (show_ppath m)) ;; ret m) ;;
  template <- query (detectar_pasta_template cwd modelos) ;;
  on_form (set_template_path (match template with Some t => show_ppath t | None => [] end)) ;;
  t_ok <- read (fun f => match template with Some t => path_exists f (resolve cwd t) | None => false end) ;;
  if t_ok then jtoast ok_text LOk
  else jtoast (tx "Não foi possível detectar o template.") LWarn.

(** [_escolher_modelos()]: [p] is what [askdirectory] returned. *)
Definition _escolher_modelos (ok_text p : ustr) : GM unit :=
  if bool_decide (p = []) then ret tt else
  on_form (set_modelos_path p) ;; _detectar_template ok_text.

End Pipeline.

(** [_add_anexos()]: [files] is what [askopenfilenames] returned; a path
    already in the list is not added again. *)
Definition _add_anexos (files : list ustr) : GM unit :=
  for_each files (fun f =>
    let p := py_path f in
    modify (fun j => if decide (p ∈ anexos_arquivos j) then j
                     else set_anexos (anexos_arquivos j ++ [p]) (lst_anexos j ++ [show_ppath p]) j)).

(** [_limpar_anexos()]. *)
Definition _limpar_anexos : GM unit := modify (set_anexos [] []).

(** [_abrir_destino()]: the folder is handed to the file manager
    ([os.startfile], [open] or [xdg-open]); [falha] is the exception that
    call raises, if any, caught into an error box. *)
Definition _abrir_destino (falha : option oserr) : GM unit :=
  d <- gets destino_criado ;;
  match d with
  | None => jdialog (ShowInfo (u "Info") (tx "Crie uma licitação primeiro."))
  | Some p =>
      match falha with
      | None => modify (add_aberto (show_path p))
      | Some e => jdialog (ShowError (u "Erro") (tx "Não foi possível abrir a pasta:" ++ nl ++ show_err e))
      end
  end.

(** The fields the user edits; the five name fields have a trace that
    calls [_update_preview]. *)
Inductive campo :=
| CMes (s : ustr) | CDia (s : ustr) | CIdLct (s : ustr) | CPortal (s : ustr) | CGp (b : bool)
| CCidadeUf (s : ustr) | CModelosPath (s : ustr) | CTemplatePath (s : ustr)
| CPolitica (s : ustr) | CAnexosDestino (s : ustr) | CSubpasta (rel : ustr) (b : bool).

Definition editar_form (c : campo) (fm : form) : form :=
  let '(mkForm m d i p g cu mp tp pol ad vs lp) := fm in
  match c with
  | CMes s => mkForm s d i p g cu mp tp pol ad vs lp
  | CDia s => mkForm m s i p g cu mp tp pol ad vs lp
  | CIdLct s => mkForm m d s p g cu mp tp pol ad vs lp
  | CPortal s => mkForm m d i s g cu mp tp pol ad vs lp
  | CGp b => mkForm m d i p b cu mp tp pol ad vs lp
  | CCidadeUf s => mkForm m d i p g s mp tp pol ad vs lp
  | CModelosPath s => mkForm m d i p g cu s tp pol ad vs lp
  | CTemplatePath s => mkForm m d i p g cu mp s pol ad vs lp
  | CPolitica s => mkForm m d i p g cu mp tp s ad vs lp
  | CAnexosDestino s => mkForm m d i p g cu mp tp pol s vs lp
  | CSubpasta rel b => mkForm m d i p g cu mp tp pol ad
                         (map (fun e => if decide (e.1 = rel) then (rel, b) else e) vs) lp
  end.

Definition tem_trace (c : campo) : bool :=
  match c with CDia _ | CIdLct _ | CPortal _ | CGp _ | CCidadeUf _ => true | _ => false end.

Definition editar (c : campo) : GM unit :=
  on_form (editar_form c) ;; if tem_trace c then _update_preview else ret tt.

(** ** A window as a configuration of the shared handlers *)

Record variante := mkVariante {
  v_janela : window;
  v_onde : ustr;
  v_dlg_licitacao : ustr;
  v_subpastas : path -> GM unit;
  v_template_ok : ustr;
  v_subpastas_init : list (ustr * bool)
}.

(** [__init__]: the default values of the form, the MODELOS and TEMPLATE
    folders detected at start, then [_update_preview()]. *)
Definition janela_init (v : variante) (cwd app_dir : path) (f : fs) : outcome oserr janela :=
  match detectar_pasta_modelos app_dir f with
  | Exc e => Exc e
  | Ok modelos_auto =>
      match match modelos_auto with
            | Some m => detectar_pasta_template cwd (abs_path m) f
            | None => Ok None
            end with
      | Exc e => Exc e
      | Ok template_auto =>
          let fm := mkForm (hd [] MESES) (u "01") (u "CE001") (u "BLL") false (u "Salvador-BA")
                      (match modelos_auto with Some m => show_path m | None => [] end)
                      (match template_auto with Some t => show_ppath t | None => [] end)
                      (u "duplicar") SUBPASTA_DEFAULT_ANEXOS (v_subpastas_init v) [] in
          Ok (mkJanela console_init
                (set_preview (montar_nome_licitacao (var_dia fm) (var_idlct fm) (var_portal fm)
                                (var_gp fm) (var_cidadeuf fm)) fm)
                [] [] None true (Some 0) [] [])
      end
  end.

(** The events of a window. *)
Inductive evento :=
| EEditar (c : campo)
| EEscolherModelos (p : ustr)
| EDetectarTemplate
| EAddAnexos (files : list ustr)
| ELimparAnexos
| EAbrirDestino (falha : option oserr)
| ECriar
| ELimparLog
| EFiltro (val : ustr).

Definition handler (v : variante) (cwd app_dir : path) (e : evento) : GM unit :=
  match e with
  | EEditar c => editar c
  | EEscolherModelos p => _escolher_modelos cwd app_dir (v_template_ok v) p
  | EDetectarTemplate => _detectar_template cwd app_dir (v_template_ok v)
  | EAddAnexos files => _add_anexos files
  | ELimparAnexos => _limpar_anexos
  | EAbrirDestino falha => _abrir_destino falha
  | ECriar => _criar_pipeline cwd app_dir (v_janela v) (v_onde v) (v_dlg_licitacao v) (v_subpastas v)
  | ELimparLog => modify (fun j => set_con (w_clear (v_janela v) (con j)) j)
  | EFiltro val =>
      if bool_decide (v_janela v = WUi) then modify (fun j => set_con (set_filter val (con j)) j)
      else ret tt
  end.

(** The states a window reaches from its start: its handlers, and any
    change other programs make to the file system between two events. *)
Inductive alcancavel (v : variante) (cwd app_dir : path) : fs * janela -> Prop :=
| a_init f j : janela_init v cwd app_dir f = Ok j -> alcancavel v cwd app_dir (f, j)
| a_evento s e : alcancavel v cwd app_dir s -> alcancavel v cwd app_dir (fst (handler v cwd app_dir e s))
| a_externo f f' j : alcancavel v cwd app_dir (f, j) -> alcancavel v cwd app_dir (f', j).

End Janela.

(** ** The three windows *)

Module MesApp.
Import Janela.

(** [App._criar()] of [LicitagovLicitacaoMesApp.py]. *)
Definition _criar (cwd app_dir : path) : GM unit :=
  _criar_pipeline cwd app_dir WMes (u "console") (tx "Não foi possível criar a pasta da licitação:")
    (fun d => on_fs (criar_estrutura_licitacao d)).

Definition variante_mes : variante :=
  mkVariante WMes (u "console") (tx "Não foi possível criar a pasta da licitação:")
    (fun d => on_fs (criar_estrutura_licitacao d)) (tx "Template detectado.")
    (map (fun rel => (rel, bool_decide (rel ∈ SUBPASTAS_PADRAO_PRESELECIONADAS))) SUBPASTAS_DESTINO).

End MesApp.

Module UiApp.
Import Janela.

(** [StyledApp._criar()] of [LicitagovLicitacaoMesApp_UI.py]: the same
    pipeline on the UI console, whose toasts say "log". *)
Definition _criar (cwd app_dir : path) : GM unit :=
  _criar_pipeline cwd app_dir WUi (u "log") (tx "Não foi possível criar a pasta da licitação:")
    (fun d => on_fs (criar_estrutura_licitacao d)).

Definition variante_ui : variante :=
  mkVariante WUi (u "log") (tx "Não foi possível criar a pasta da licitação:")
    (fun d => on_fs (criar_estrutura_licitacao d)) (tx "Template detectado com sucesso.")
    (map (fun rel => (rel, bool_decide (rel ∈ SUBPASTAS_PADRAO_PRESELECIONADAS))) SUBPASTAS_DESTINO).

(** The handlers of [StyledApp] ([_update_preview], [_escolher_modelos],
    [_detectar_template], [_add_anexos], [_limpar_anexos],
    [_abrir_destino]): the shared ones, with the UI window's toast. *)
Definition handlers (cwd app_dir : path) : evento -> GM unit := handler variante_ui cwd app_dir.

End UiApp.

Module DocketApp.
Import Janela.

(** [SUBPASTAS_PRESELECIONADAS] of [docket.py]: every sub-folder with its
    default tick; [SUBPASTAS_DESTINO] is the list of its keys. *)
Definition SUBPASTAS_PRESELECIONADAS : list (ustr * bool) := [
  (u "0. EDITAL_ANEXOS", false);
  (u "1. HABILITACAO/1. HAB_JURIDICA", true);
  (u "1. HABILITACAO/2. HAB_FISCAL", false);
  (u "1. HABILITACAO/3. HAB_ECON_FINAN", true);
  (u "1. HABILITACAO/4. QUALIFICACAO_TECNICA", true);
  (u "1. HABILITACAO/5. ACT_CAT", false);
  (u "1. HABILITACAO/6. DECLARACOES", false);
  (u "2. PROPOSTA", false);
  (u "3. EDITAVEIS/1. DECLARACAO", true);
  (u "3. EDITAVEIS/2. PROPOSTA", true);
  (u "3. EDITAVEIS/3. PLANILHA", true)].

Definition SUBPASTAS_DESTINO : list ustr := map fst SUBPASTAS_PRESELECIONADAS.

(** The sub-folder step of the Docket window's [_criar]: only the ticked
    sub-folders are created. *)
Definition criar_subpastas_marcadas (destino_raiz : path) : GM unit :=
  vs <- gets (fun j => vars_subpastas (form_ j)) ;;
  on_fs (for_each (List.filter snd vs) (fun e => mkdir_p (join destino_raiz e.1))).

(** [App._criar()] of [docket.py]. *)
Definition _criar (cwd app_dir : path) : GM unit :=
  _criar_pipeline cwd app_dir WDocket (u "console") (tx "Falha ao criar pasta da licitação:")
    criar_subpastas_marcadas.

Definition variante_docket : variante :=
  mkVariante WDocket (u "console") (tx "Falha ao criar pasta da licitação:")
    criar_subpastas_marcadas (tx "Template detectado.") SUBPASTAS_PRESELECIONADAS.

(** The handlers of the Docket window ([_update_preview] ...
    [_abrir_destino]), the same code as the Mes window's. *)
Definition handlers (cwd app_dir : path) : evento -> GM unit := handler variante_docket cwd app_dir.

End DocketApp.


(** ** Invariants of the windows *)

Module JanelaProps.
Import Janela MesApp UiApp DocketApp.

Definition on_snd (P : janela -> Prop) (s : fs * janela) : Prop := P s.2.

(** What every handler keeps: the console is one the console's own
    operations reach, and the attachment list has no duplicates and is the
    list box's content. *)
Definition inv0 (w : window) (j : janela) : Prop :=
  reachable w (con j) /\ NoDup (anexos_arquivos j) /\ lst_anexos j = map show_ppath (anexos_arquivos j).

(** Between two events the Criar button is enabled and the progress bar
    is not running. *)
Definition parado (j : janela) : Prop := btn_normal j = true /\ progresso j <> None.

(** ** Example of the witnesses

    [ex_lic]: the folder [Lic] of the bids with the window's folder
    [Participar] (holding the month folder [2.FEVEREIRO]) and MODELOS
    [5. Modelos_Padrao], whose template [00_ID-LCT_Modelo] has
    [3. EDITAVEIS/2. PROPOSTA/proposta.docx] and
    [3. EDITAVEIS/3 PLANILHAS/planilha.xlsx]. *)
Definition ex_app : path := [u "Lic"; u "Participar"].
Definition ex_tpl : path := [u "Lic"; u "5. Modelos_Padrao"; u "00_ID-LCT_Modelo"].
Definition ex_lic : fs := mkFs
  [([u "Lic"], NDir); (ex_app, NDir); (ex_app ++ [u "2.FEVEREIRO"], NDir);
   ([u "Lic"; u "5. Modelos_Padrao"], NDir); (ex_tpl, NDir);
   (ex_tpl ++ [u "3. EDITAVEIS"], NDir); (ex_tpl ++ [u "3. EDITAVEIS"; u "2. PROPOSTA"], NDir);
   (ex_tpl ++ [u "3. EDITAVEIS"; u "2. PROPOSTA"; u "proposta.docx"], NFile (u "p") 5);
   (ex_tpl ++ [u "3. EDITAVEIS"; u "3 PLANILHAS"], NDir);
   (ex_tpl ++ [u "3. EDITAVEIS"; u "3 PLANILHAS"; u "planilha.xlsx"], NFile (u "x") 6)] [].

(** A window whose MODELOS and TEMPLATE fields are empty. *)
Definition ex_janela_vazia : janela :=
  mkJanela console_init
    (mkForm (u "01. JANEIRO") (u "01") (u "CE001") (u "BLL") false (u "Salvador-BA") [] []
       (u "duplicar") SUBPASTA_DEFAULT_ANEXOS [] (u "01_CE001_BLL_Salvador-BA"))
    [] [] None true (Some 0) [] [].

(** The window of [ex_lic] after [__init__]. *)
Definition ex_j0 (v : variante) : janela :=
  match janela_init v ex_app ex_app ex_lic with Ok j => j | Exc _ => ex_janela_vazia end.

(** Choosing the month "02. FEVEREIRO", then clicking Criar. *)
Definition ex_criar (v : variante) : fs * janela * outcome oserr unit :=
  let '(s, r) := (editar (CMes (u "02. FEVEREIRO")) ;; handler v ex_app ex_app ECriar) (ex_lic, ex_j0 v) in
  (s, r).

Definition ex_destino : path := ex_app ++ [u "2.FEVEREIRO"; u "01_CE001_BLL_Salvador-BA"].

Section Lifts.
Context (P : janela -> Prop).

Lemma on_fs_snd {A} (m : st oserr fs A) : preserves (on_snd P) (on_fs m).
Proof. intros [f j] H. unfold on_fs. simpl. by destruct (m f). Qed.

Lemma read_snd {A} (g : fs -> A) : preserves (on_snd P) (read g).
Proof. by intros [f j]. Qed.

Lemma query_snd {A} (g : fs -> outcome oserr A) : preserves (on_snd P) (query g).
Proof. by intros [f j]. Qed.

Lemma gets_snd {A} (g : janela -> A) : preserves (on_snd P) (gets g).
Proof. by intros [f j]. Qed.

Lemma modify_snd (h : janela -> janela) : (forall j, P j -> P (h j)) -> preserves (on_snd P) (modify h).
Proof. intros Hh [f j] H. by apply Hh. Qed.

Lemma run_logged_snd {E A} (sk : E -> janela -> janela) (m : st oserr (fs * list E) A) :
  (forall e j, P j -> P (sk e j)) -> preserves (on_snd P) (run_logged sk m).
Proof.
  intros Hs [f j] H. unfold run_logged. destruct (m (f, [])) as [[f' evs] r]. unfold on_snd. simpl.
  revert j H. induction evs as [|e evs IH]; intros j H; simpl; [done|]. apply IH. by apply Hs.
Qed.
End Lifts.

#[local] Hint Resolve on_fs_snd read_snd query_snd gets_snd : licita.

Section Window.
Variable w : window.

Lemma inv0_con j c : inv0 w j -> reachable w c -> inv0 w (set_con c j).
Proof. intros (_ & Hn & Hl) Hc. done. Qed.

Lemma jlog_inv0 l msg : preserves (on_snd (inv0 w)) (jlog w l msg).
Proof. apply modify_snd. intros j Hj. apply inv0_con; [done|]. apply r_log, Hj. Qed.

Lemma jtoast_inv0 msg l : preserves (on_snd (inv0 w)) (jtoast msg l).
Proof. apply modify_snd. intros j Hj. apply inv0_con; [done|]. apply r_toast, Hj. Qed.

Lemma jdialog_inv0 d : preserves (on_snd (inv0 w)) (jdialog d).
Proof. by apply modify_snd. Qed.

Lemma on_form_inv0 h : preserves (on_snd (inv0 w)) (on_form h).
Proof. by apply modify_snd. Qed.

Lemma run_logged_inv0 {A} (m : st oserr (fs * list event) A) :
  preserves (on_snd (inv0 w)) (run_logged (sink w) m).
Proof. apply run_logged_snd. intros e j Hj. apply inv0_con; [done|]. apply r_log, Hj. Qed.

Lemma etapa_inv0 m falha dlg :
  preserves (on_snd (inv0 w)) m -> preserves (on_snd (inv0 w)) (etapa w m falha dlg).
Proof. intros Hm. unfold etapa. mono; auto using jlog_inv0, jdialog_inv0. Qed.

End Window.

#[local] Hint Resolve jlog_inv0 jtoast_inv0 jdialog_inv0 on_form_inv0 run_logged_inv0 etapa_inv0 : licita.

Section Pipeline.
Variables (cwd app_dir : path) (w : window).

Lemma localizar_modelos_inv0 : preserves (on_snd (inv0 w)) (localizar_modelos cwd app_dir w).
Proof. unfold localizar_modelos. mono. Qed.

Lemma copiar_selecionadas_inv0 t d : preserves (on_snd (inv0 w)) (copiar_selecionadas cwd w t d).
Proof. unfold copiar_selecionadas. mono. Qed.

Lemma anexar_inv0 d : preserves (on_snd (inv0 w)) (anexar cwd w d).
Proof. unfold anexar. mono. Qed.

Lemma concluir_inv0 onde d : preserves (on_snd (inv0 w)) (concluir onde d).
Proof. unfold concluir. mono. by apply modify_snd. Qed.


#[local] Hint Resolve localizar_modelos_inv0 copiar_selecionadas_inv0 anexar_inv0 concluir_inv0 : licita.

Lemma criar_pipeline_inv0 onde dlg sub :
  (forall d, preserves (on_snd (inv0 w)) (sub d)) ->
  preserves (on_snd (inv0 w)) (_criar_pipeline cwd app_dir w onde dlg sub).
Proof.
  intros Hsub. unfold _criar_pipeline. mono; try by apply modify_snd.
  apply modify_snd. intros j Hj. apply inv0_con; [done|]. apply r_toast, r_clear, Hj.
Qed.

(** [try: ... finally: progress.stop(); btn.config(state="normal")]. *)
Lemma criar_pipeline_parado onde dlg sub s :
  parado (snd (fst (_criar_pipeline cwd app_dir w onde dlg sub s))).
Proof.
  destruct s as [f j]. unfold _criar_pipeline, bind at 1, modify at 1. simpl.
  unfold bind at 1, modify at 1. simpl. unfold try_finally.
  match goal with |- context [let '(_, _) := ?m ?s in _] => destruct (m s) as [[f1 j1] r] end.
  simpl. by split.
Qed.

Lemma detectar_template_inv0 ok : preserves (on_snd (inv0 w)) (_detectar_template cwd app_dir ok).
Proof. unfold _detectar_template. mono. Qed.

Lemma escolher_modelos_inv0 ok p : preserves (on_snd (inv0 w)) (_escolher_modelos cwd app_dir ok p).
Proof. unfold _escolher_modelos. mono. apply detectar_template_inv0. Qed.

End Pipeline.

Lemma add_anexos_inv0 w files : preserves (on_snd (inv0 w)) (_add_anexos files).
Proof.
  unfold _add_anexos. mono. apply modify_snd. intros j (Hc & Hn & Hl).
  case_decide as Hin; [done|]. split; [done|]. simpl.
  split; [apply NoDup_app; split; [done|split; [|apply NoDup_singleton]]|by rewrite Hl, map_app].
  by intros y Hy ->%list_elem_of_singleton.
Qed.

Lemma parado_modify (h : janela -> janela) :
  (forall j, btn_normal (h j) = btn_normal j /\ progresso (h j) = progresso j) ->
  preserves (on_snd parado) (modify h).
Proof. intros Hh. apply modify_snd. intros j [Hb Hp]. unfold parado. destruct (Hh j) as [-> ->]. by split. Qed.

Ltac parado_solve :=
  repeat (mono_step || apply preserves_ret || apply preserves_raise || apply on_fs_snd || apply read_snd || apply query_snd || apply gets_snd
          || (apply parado_modify; intros; repeat case_decide; done)
          || (apply run_logged_snd; intros ? ? []; by split)).

Lemma handler_parado v cwd app_dir e :
  e <> ECriar -> preserves (on_snd parado) (handler v cwd app_dir e).
Proof.
  intros He. destruct e; simpl; try done; unfold editar, _update_preview, on_form, _escolher_modelos,
    _detectar_template, on_form, jtoast, _add_anexos, _limpar_anexos, _abrir_destino, jdialog;
    parado_solve.
Qed.

Lemma handler_inv0 v cwd app_dir e :
  (forall d, preserves (on_snd (inv0 (v_janela v))) (v_subpastas v d)) ->
  preserves (on_snd (inv0 (v_janela v))) (handler v cwd app_dir e).
Proof.
  intros Hsub. destruct e; simpl.
  - unfold editar, _update_preview. mono.
  - apply escolher_modelos_inv0.
  - apply detectar_template_inv0.
  - apply add_anexos_inv0.
  - unfold _limpar_anexos. apply modify_snd. intros j (Hc & _ & _). split; [done|]. split; [constructor|done].
  - unfold _abrir_destino. mono. by apply modify_snd.
  - by apply criar_pipeline_inv0.
  - apply modify_snd. intros j Hj. apply inv0_con; [done|]. apply r_clear, Hj.
  - case_bool_decide as Hw; [|auto with licita]. apply modify_snd. intros j Hj.
    apply inv0_con; [done|]. apply r_filter; [done|apply Hj].
Qed.

Lemma subpastas_inv0 v : v = variante_mes \/ v = variante_ui \/ v = variante_docket ->
  forall d, preserves (on_snd (inv0 (v_janela v))) (v_subpastas v d).
Proof.
  intros [H|[H|H]] d; subst v; simpl; [apply on_fs_snd|apply on_fs_snd|].
  unfold criar_subpastas_marcadas. mono.
Qed.

Lemma janela_init_inv v cwd app_dir f j :
  janela_init v cwd app_dir f = Ok j -> inv0 (v_janela v) j /\ parado j.
Proof.
  unfold janela_init. destruct (detectar_pasta_modelos _ _) as [m|]; [|done].
  destruct (match m with Some _ => _ | None => _ end) as [t|]; [|done].
  intros [= <-]. split; [split; [apply r_init|split; [constructor|done]]|by split].
Qed.

(** ** Properties *)

(** C31: with the MODELOS and TEMPLATE fields empty (the state the window
    starts in when no MODELOS folder is detected), [_criar] does not warn
    "Pasta MODELOS (raiz) nao encontrada": [Path("")] is the working
    directory, which exists, so the copy goes on with the working directory
    as the template, and nothing is detected or logged. *)
Theorem localizar_modelos_vazio cwd app_dir w f j :
  py_strip (var_modelos_path (form_ j)) = [] -> py_strip (var_template_path (form_ j)) = [] ->
  is_dir f cwd = true ->
  localizar_modelos cwd app_dir w (f, j) = ((f, j), Ok (Some (PPath false []))) /\
  resolve cwd (PPath false []) = cwd.
Proof.
  intros Hm Ht Hd. split; [|unfold resolve; simpl; by rewrite app_nil_r].
  assert (He : path_exists f (resolve cwd (PPath false [])) = true).
  { unfold resolve; simpl; rewrite app_nil_r. unfold path_exists, is_dir in *. by destruct (lookup_node f cwd). }
  unfold localizar_modelos, gets, read, bind, ret. simpl. rewrite Hm, Ht. simpl.
  change (py_path []) with (PPath false []). repeat (rewrite He; simpl). done.
Qed.

(** C32: in each of the three windows, every state reachable from the
    start through the handlers (and changes of the file system between
    events) has a console reachable by the console's own operations, an
    attachment list without duplicates shown as is in its list box, the
    Criar button enabled and the progress bar stopped, whatever
    exceptions [_criar] let escape. *)
Theorem janela_invariante v cwd app_dir s :
  v = variante_mes \/ v = variante_ui \/ v = variante_docket ->
  alcancavel v cwd app_dir s -> inv0 (v_janela v) s.2 /\ parado s.2.
Proof.
  intros Hv. induction 1 as [f j Hinit|s e _ [Hi Hp]|f f' j _ IH]; [by eapply janela_init_inv| |done].
  split; [by apply handler_inv0; [apply subpastas_inv0|]|].
  assert (Hc : e = ECriar \/ e <> ECriar) by (destruct e; (right; discriminate) || (left; reflexivity)).
  destruct Hc as [->|He]; [apply criar_pipeline_parado|].
  by apply handler_parado.
Qed.

Lemma localizar_modelos_vazio_witness :
  localizar_modelos [u "w"] [u "w"; u "a"] WMes (mkFs [([u "w"], NDir)] [], ex_janela_vazia) =
    ((mkFs [([u "w"], NDir)] [], ex_janela_vazia), Ok (Some (PPath false []))) /\
  resolve [u "w"] (PPath false []) = [u "w"].
Proof. apply localizar_modelos_vazio; vm_compute; reflexivity. Defined.

Lemma janela_invariante_witness :
  alcancavel variante_mes ex_app ex_app (ex_lic, ex_j0 variante_mes) /\
  inv0 (v_janela variante_mes) (ex_lic, ex_j0 variante_mes).2 /\ parado (ex_lic, ex_j0 variante_mes).2.
Proof.
  assert (H : alcancavel variante_mes ex_app ex_app (ex_lic, ex_j0 variante_mes)).
  { apply a_init. vm_compute. reflexivity. }
  split; [exact H|]. exact (janela_invariante _ _ _ _ (or_introl eq_refl) H).
Defined.

(** End to end, in the Mes window started on [ex_lic]: choosing
    "02. FEVEREIRO" and clicking Criar finds the existing month folder
    [2.FEVEREIRO], creates the bid folder and its eleven sub-folders,
    copies [proposta.docx] and, through the fuzzy resolution of
    [3. PLANILHA] into [3 PLANILHAS], [planilha.xlsx]; the four ticked
    folders the template lacks give four warnings, no error, and the toast
    "Concluido com avisos"; the Docket window, on the same input, does not
    create the unticked [1. HABILITACAO/2. HAB_FISCAL]. *)
Example criar_ponta_a_ponta :
  let '((f, j), r) := ex_criar variante_mes in
  r = Ok tt /\
  is_file f (ex_destino ++ [u "3. EDITAVEIS"; u "2. PROPOSTA"; u "proposta.docx"]) = true /\
  is_file f (ex_destino ++ [u "3. EDITAVEIS"; u "3. PLANILHA"; u "planilha.xlsx"]) = true /\
  Forall (fun rel => is_dir f (join ex_destino rel) = true) Dominio.SUBPASTAS_DESTINO /\
  warn_count (con j) = 4 /\ error_count (con j) = 0 /\
  toast (con j) = tx "Concluído com avisos. Verifique o console." /\
  destino_criado j = Some ex_destino /\
  path_exists (fst (fst (ex_criar variante_docket)))
    (ex_destino ++ [u "1. HABILITACAO"; u "2. HAB_FISCAL"]) = false.
Proof. vm_compute. repeat split; repeat constructor. Qed.

End JanelaProps.
