(* ===== verification/Lote.v ===== *)
(** * Lote: what a click on "Criar" tells the user, against sections 7 and 9

    Section 7 of the specification describes what the user sees of a
    batch: the warnings and errors are counted over the whole batch, and
    the batch is reported as "fully successful" (no warning, no error),
    "succeeded with warnings" (warnings only) or "completed with errors"
    (some error), whatever was done staying on disk.  Section 9 describes
    the same counts as a value [BatchResult{ok_count, warn_count,
    error_count, events}] that the presentation layer folds into its
    display state.

    This file states that contract ([BatchResult], [batch_of], [classify])
    and proves, with the Hoare triples of [Prelude], what the [_criar] of
    each window ([_criar_pipeline] of [App], lines 480-556 of
    [src/LicitagovLicitacaoMesApp.py]) ends in: a log box holding exactly
    the lines of some event sequence, with the counters and badge of that
    sequence, and either the final toast [classify] asks for, or an error
    box after a failed step, or an exception that leaves the toast
    "Iniciando criacao..." and no message box. *)

From Stdlib Require Import ZArith Lia.
From Stdlib Require Import Strings.String.
From stdpp Require Import base list sets.
From S2P Require Import Prelude Normalize Fs Resolver Copier Domain Console App.
Import FileSystem PathResolver ResilientCopier Dominio LogConsole Janela MesApp UiApp DocketApp JanelaProps.

Local Open Scope py_scope.

Module Lote.

(** ** The contract *)

(** [BatchResult] of section 9, over the lines a batch logs. *)
Record BatchResult := mkBatch {
  b_ok : nat;
  b_warn : nat;
  b_error : nat;
  b_events : list (level * ustr)
}.

Definition batch_of (evs : list (level * ustr)) : BatchResult :=
  mkBatch (count_lvl LOk evs) (count_lvl LWarn evs) (count_lvl LError evs) evs.

(** The three reports of section 7. *)
Inductive veredito := Sucesso | ComAvisos | ComErros.

Definition classify (b : BatchResult) : veredito :=
  if decide (0 < b_error b) then ComErros
  else if decide (0 < b_warn b) then ComAvisos
  else Sucesso.

(** The toast each report is shown as, with its colour; [onde] is the
    word the window uses for its log ("console" or "log"). *)
Definition aviso_final (onde : ustr) (v : veredito) : ustr * color :=
  match v with
  | ComErros => (tx "Concluído com erros. Verifique o " ++ onde ++ u ".", color_of LError)
  | ComAvisos => (tx "Concluído com avisos. Verifique o " ++ onde ++ u ".", color_of LWarn)
  | Sucesso => (tx "Licitação criada com sucesso!", color_of LOk)
  end.

Definition iniciando : ustr := tx "Iniciando criação…".

(** The status part of a console that was cleared and then logged [evs]. *)
Definition view_log (evs : list (level * ustr)) : ustr * nat * nat * status * ustr * ustr :=
  let wn := count_lvl LWarn evs in
  let er := count_lvl LError evs in
  (concat (map (fun e => linha e.1 e.2) evs), wn, er, status_of wn er,
   badge_of (status_of wn er), counts_text wn er).

(** ** The states of a run of [_criar]

    [curso]: running, the log box holding the lines of some [evs], the
    toast of the start and the message boxes of before; [abortado]: one
    error box more; [concluido]: the final toast of the counts, and the
    folder created recorded. *)
Definition curso (D0 : list dialog) (j : janela) : Prop :=
  exists evs, view (con j) = view_log evs /\ toast (con j) = iniciando /\ dialogs j = D0.

Definition abortado (D0 : list dialog) (j : janela) : Prop :=
  exists evs msg, view (con j) = view_log evs /\ toast (con j) = iniciando /\
    dialogs j = D0 ++ [ShowError (u "Erro") msg].

Definition concluido (onde : ustr) (D0 : list dialog) (j : janela) : Prop :=
  exists evs, view (con j) = view_log evs /\
    (toast (con j), toast_color (con j)) = aviso_final onde (classify (batch_of evs)) /\
    dialogs j = D0 /\ destino_criado j <> None.

(** ** The status part along a run *)

Lemma count_lvl_app l evs1 evs2 : count_lvl l (evs1 ++ evs2) = count_lvl l evs1 + count_lvl l evs2.
Proof. unfold count_lvl. by rewrite List.filter_app, length_app. Qed.

Lemma count_lvl_single l l' msg : count_lvl l [(l', msg)] = if decide (l' = l) then 1 else 0.
Proof. rewrite count_lvl_cons. simpl. unfold count_lvl. simpl. lia. Qed.

Lemma view_log_ok c evs : view c = view_log evs -> status_ok c.
Proof.
  unfold view, view_log, status_ok. intros H. injection H as _ Hw He Hs Hb Hk.
  by rewrite Hs, Hb, Hk, Hw, He.
Qed.

Lemma view_log_clear w c : view (w_clear w c) = view_log [].
Proof. by rewrite w_clear_view. Qed.

Lemma view_log_snoc w l msg c evs :
  view c = view_log evs -> view (w_log w l msg c) = view_log (evs ++ [(l, msg)]).
Proof.
  intros Hv. rewrite (w_log_view w l msg c (view_log_ok c evs Hv)).
  unfold view, view_log in *. injection Hv as Ht Hw He _ _ _. rewrite Ht, Hw, He.
  rewrite map_app, concat_app, !count_lvl_app, !count_lvl_single. cbn [map concat].
  by rewrite app_nil_r.
Qed.

Lemma w_log_toast w l msg c : toast (w_log w l msg c) = toast c.
Proof.
  destruct w; simpl; unfold mes_log, docket_log, ui_log, _set_status, _apply_log_filter, with_status;
    destruct l; simpl; repeat (case_decide; simpl); reflexivity.
Qed.

Section Run.
Variable D0 : list dialog.

Lemma curso_log w l msg j : curso D0 j -> curso D0 (set_con (w_log w l msg (con j)) j).
Proof.
  intros (evs & Hv & Ht & Hd). exists (evs ++ [(l, msg)]). simpl.
  split; [by apply view_log_snoc|]. split; [|done]. by rewrite w_log_toast.
Qed.

Lemma jlog_curso w l msg : preserves (on_snd (curso D0)) (jlog w l msg).
Proof. apply modify_snd. apply curso_log. Qed.

Lemma on_form_curso h : preserves (on_snd (curso D0)) (on_form h).
Proof. by apply modify_snd. Qed.

Lemma run_logged_curso {A} w (m : st oserr (fs * list event) A) :
  preserves (on_snd (curso D0)) (run_logged (sink w) m).
Proof. apply run_logged_snd. intros e j. apply curso_log. Qed.

#[local] Hint Resolve on_fs_snd read_snd query_snd gets_snd jlog_curso on_form_curso run_logged_curso : licita.

Local Abbreviation CUR := (on_snd (curso D0)).
Local Abbreviation ABO := (on_snd (abortado D0)).

(** A step of [_criar] that says whether the run goes on: [true] in a
    running state, [false] after the error box, and a running state when
    an exception escapes it. *)
Definition passo (m : GM bool) : Prop :=
  triple CUR m (fun ok s => if ok then CUR s else ABO s) (fun _ => CUR).

Lemma passo_true : passo (ret true).
Proof. by apply triple_ret. Qed.

Lemma passo_bind {A} (m : GM A) (k : A -> GM bool) :
  preserves CUR m -> (forall a, passo (k a)) -> passo (bind m k).
Proof. intros Hm Hk. unfold passo. by apply triple_preserves_bind. Qed.

(** [ok = ...; if not ok: return]. *)
Lemma passo_seq (m : GM bool) (k : GM unit) Q :
  passo m -> triple CUR k Q (fun _ => CUR) -> (forall s, ABO s -> Q tt s) ->
  triple CUR (ok <- m ;; if negb ok then ret tt else k) Q (fun _ => CUR).
Proof. intros Hm Hk HA. eapply triple_bind; [exact Hm|]. intros [|]; [exact Hk|by apply triple_ret]. Qed.

(** A step of [_criar] in its [try ... except]: on failure the error line
    and the error box, and [False] is returned. *)
Lemma etapa_triple w m falha dlg : preserves CUR m -> passo (etapa w m falha dlg).
Proof.
  intros Hm. unfold passo, etapa.
  apply (triple_try _ _ _ _ _ (fun _ => CUR)).
  - eapply triple_bind; [by apply preserves_triple|]. intros ?. by apply triple_ret.
  - intros e. eapply triple_bind; [apply preserves_triple, jlog_curso|]. intros ?.
    eapply triple_bind with (Q' := fun _ => ABO).
    + intros [f j] (evs & Hv & Ht & Hd). simpl in *. exists evs, (dlg ++ nl ++ show_err e).
      repeat split; simpl; congruence.
    + intros ?. by apply triple_ret.
Qed.

#[local] Hint Resolve etapa_triple passo_true : licita.

Section Pipeline.
Variables (cwd app_dir : path) (w : window).

Lemma localizar_modelos_curso : preserves CUR (localizar_modelos cwd app_dir w).
Proof. unfold localizar_modelos. mono. Qed.

Lemma copiar_selecionadas_passo t d : passo (copiar_selecionadas cwd w t d).
Proof.
  unfold copiar_selecionadas. apply passo_bind; [auto with licita|intros fm].
  case_bool_decide; [apply passo_true|]. apply passo_bind; [auto with licita|intros ?].
  auto with licita.
Qed.

Lemma anexar_passo d : passo (anexar cwd w d).
Proof.
  unfold anexar. apply passo_bind; [auto with licita|intros j].
  case_bool_decide; auto with licita.
Qed.

(** The end of [_criar]: the folder recorded and the toast of the
    counters, which are those of the events the log box holds. *)
Lemma concluir_triple onde d :
  triple CUR (concluir onde d) (fun _ => on_snd (concluido onde D0)) (fun _ => CUR).
Proof.
  intros [f j] (evs & Hv & Ht & Hd). simpl in *.
  pose proof Hv as Hv'. unfold view, view_log in Hv'. injection Hv' as _ Hw He _ _ _.
  unfold concluir, bind, gets, jtoast, ret. cbn -[tx u]. rewrite He, Hw.
  repeat case_bool_decide; exists evs; cbn -[tx u]; unfold classify, batch_of; cbn -[tx u];
    repeat case_decide; try lia; by repeat split.
Qed.

Lemma view_toast msg l c : view (_toast msg l c) = view c.
Proof. done. Qed.

(** [_criar_pipeline]: started with the message boxes [D0], it ends
    in [abortado] or [concluido] when it returns, and in [curso] when an
    exception escapes it, the [finally] clause changing none of them. *)
Lemma criar_pipeline_triple onde dlg sub :
  (forall d, preserves CUR (sub d)) ->
  triple (on_snd (fun j => dialogs j = D0)) (_criar_pipeline cwd app_dir w onde dlg sub)
    (fun _ s => ABO s \/ on_snd (concluido onde D0) s) (fun _ => CUR).
Proof.
  intros Hsub. unfold _criar_pipeline.
  eapply triple_bind with (Q' := fun _ => CUR).
  { intros [f j] Hd. exists []. cbn -[tx u]. rewrite view_toast. by split; [apply view_log_clear|]. }
  intros ?. apply triple_preserves_bind; [by apply modify_snd|intros ?].
  apply triple_finally with (Qm := fun _ s => ABO s \/ on_snd (concluido onde D0) s) (Rm := fun _ => CUR);
    [|intros ? [f j] H; exact H..].
  do 3 (apply triple_preserves_bind; [auto with licita|intros ?]).
  apply passo_seq; [case_match; [apply passo_true|apply etapa_triple; mono]| |by left].
  apply triple_preserves_bind; [auto with licita|intros ?].
  apply passo_seq; [apply etapa_triple; mono| |by left].
  apply passo_seq; [by apply etapa_triple| |by left].
  apply triple_preserves_bind; [apply localizar_modelos_curso|intros tpl].
  apply passo_seq; [destruct tpl; [apply copiar_selecionadas_passo|apply passo_true]| |by left].
  apply passo_seq; [apply anexar_passo| |by left].
  eapply triple_consequence; [apply concluir_triple|done|by right|done].
Qed.

End Pipeline.

(** The sub-folder step of each window only creates folders. *)
Lemma subpastas_curso v : v = variante_mes \/ v = variante_ui \/ v = variante_docket ->
  forall d, preserves CUR (v_subpastas v d).
Proof.
  intros [H|[H|H]] d; subst v; simpl; [apply on_fs_snd|apply on_fs_snd|].
  unfold criar_subpastas_marcadas. mono.
Qed.

End Run.


(** ** What [_criar] answers *)

(** C8: a click on "Criar" in any of the three windows (the handler of
    [ECriar], that is [_criar]) leaves the button enabled and the progress
    bar stopped, a log box that holds exactly the lines of some sequence
    of events [evs] with the warning and error counters, status, badge and
    counts text of [evs], and ends in one of the three answers of
    section 7: it returns with the final toast and colour [classify] gives
    for [batch_of evs], the created folder recorded and no message box; or
    it returns after one error box, the toast of the start still showing;
    or an exception escapes it, the toast of the start still showing and
    no message box. *)
Theorem criar_responde v cwd app_dir f j :
  v = variante_mes \/ v = variante_ui \/ v = variante_docket ->
  let '((_, j'), r) := handler v cwd app_dir ECriar (f, j) in
  parado j' /\ exists evs, view (con j') = view_log evs /\
    ((r = Ok tt /\ (toast (con j'), toast_color (con j')) = aviso_final (v_onde v) (classify (batch_of evs)) /\
      dialogs j' = dialogs j /\ destino_criado j' <> None) \/
     (r = Ok tt /\ toast (con j') = iniciando /\
      exists msg, dialogs j' = dialogs j ++ [ShowError (u "Erro") msg]) \/
     (exists e, r = Exc e /\ toast (con j') = iniciando /\ dialogs j' = dialogs j)).
Proof.
  intros Hv. simpl.
  pose proof (criar_pipeline_parado cwd app_dir (v_janela v) (v_onde v) (v_dlg_licitacao v)
                (v_subpastas v) (f, j)) as Hp.
  pose proof (criar_pipeline_triple (dialogs j) cwd app_dir (v_janela v) (v_onde v) (v_dlg_licitacao v)
                (v_subpastas v) (subpastas_curso _ v Hv) (f, j) eq_refl) as Ht.
  destruct (_criar_pipeline _ _ _ _ _ _ _) as [[f' j'] [[]|e]]; simpl in *; split; [done| |done|].
  - destruct Ht as [(evs & msg & Hv' & Ht & Hd)|(evs & Hv' & Ht & Hd & Hn)]; exists evs; split; auto.
    right; left. eauto.
  - destruct Ht as (evs & Hv' & Ht & Hd). exists evs. split; [done|]. right; right. eauto.
Qed.

Lemma criar_responde_witness :
  (variante_mes = variante_mes \/ variante_mes = variante_ui \/ variante_mes = variante_docket) /\
  let '((_, j'), r) := handler variante_mes ex_app ex_app ECriar (ex_lic, ex_j0 variante_mes) in
  parado j' /\ exists evs, view (con j') = view_log evs /\
    ((r = Ok tt /\ (toast (con j'), toast_color (con j')) =
        aviso_final (v_onde variante_mes) (classify (batch_of evs)) /\
      dialogs j' = dialogs (ex_j0 variante_mes) /\ destino_criado j' <> None) \/
     (r = Ok tt /\ toast (con j') = iniciando /\
      exists msg, dialogs j' = dialogs (ex_j0 variante_mes) ++ [ShowError (u "Erro") msg]) \/
     (exists e, r = Exc e /\ toast (con j') = iniciando /\ dialogs j' = dialogs (ex_j0 variante_mes))).
Proof. split; [left; reflexivity|apply criar_responde; left; reflexivity]. Defined.

End Lote.
