(* ===== verification/Toast.v ===== *)
(** * Toast: the timer of [_toast] and the event loop of Tk

    [_toast(msg, level)] of each window sets the text and colour of the
    status label and registers [self.after(3500, lambda:
    self.toast.config(text="", foreground=self.MUTED))] (4000 in the UI
    window).  Tk runs such a callback from its event loop only, never while
    a handler is running, and runs every callback whose deadline has come
    as soon as the loop gets control again.

    This file models that part of the windows: the label, Tk's clock and
    the deadlines of the pending callbacks ([tk]); [_toast] as far as the
    label and the timer go ([_toast_after]); the time a handler spends
    ([ocupado]); the idle loop up to a time ([ocioso_ate]); and the calls
    [_criar] makes ([criar_tk]: [_log_clear], the toast of the start, the
    work, and the toast of the verdict when the run concludes, as
    [Lote.criar_responde] shows).  The theorems give, for the verdict a
    concluded run of each window really shows, the exact time at which it
    disappears, and that every toast is eventually reverted. *)

From Stdlib Require Import Lia.
From Stdlib Require Import Strings.String.
From stdpp Require Import base list.
From S2P Require Import Prelude Normalize Fs Resolver Copier Domain Console App Lote.
Import FileSystem ResilientCopier LogConsole Janela MesApp UiApp DocketApp JanelaProps Lote.

Local Open Scope py_scope.

Module ToastTimer.

(** ** State and operations *)

(** Tk's clock (in milliseconds), the deadlines of the [after] callbacks
    not yet run (each reverts the label), and the label's text and
    colour. *)
Record tk := mkTk {
  agora : nat;
  pendentes : list nat;
  cartaz : ustr * color
}.

(** The delays of [self.after] in [_toast]. *)
Definition ATRASO_MES : nat := 3500.
Definition ATRASO_UI : nat := 4000.

(** [self.toast.config(text=msg, foreground=color); self.after(atraso, ...)]. *)
Definition _toast_after (atraso : nat) (msg : ustr) (l : level) (s : tk) : tk :=
  mkTk (agora s) (pendentes s ++ [agora s + atraso]) (msg, color_of l).

(** The callback: [self.toast.config(text="", foreground=self.MUTED)]. *)
Definition reverter (s : tk) : tk := mkTk (agora s) (pendentes s) ([], CMuted).

(** [self.toast.config(text="")] of [_log_clear]. *)
Definition limpar_cartaz (s : tk) : tk := mkTk (agora s) (pendentes s) ([], (cartaz s).2).

(** [d] milliseconds spent inside a handler: no callback runs. *)
Definition ocupado (d : nat) (s : tk) : tk := mkTk (agora s + d) (pendentes s) (cartaz s).

(** The loop idle until [t]: the clock reaches [t], and every callback
    whose deadline is at most [t] leaves the pending ones and runs, in the
    order of registration (the order of the deadlines, since a window
    registers them with one delay). *)
Definition ocioso_ate (t : nat) (s : tk) : tk :=
  let vencidos := filter (fun x => x <= t) (pendentes s) in
  let restantes := filter (fun x => ~ x <= t) (pendentes s) in
  fold_left (fun s' _ => reverter s') vencidos (mkTk (max t (agora s)) restantes (cartaz s)).

(** The label and timers along [_criar]: [_log_clear], the toast of the
    start, [d] milliseconds of work, then the toast of the verdict [fim]
    when the run concludes ([None] after an error box or an exception;
    the modal error box runs the loop itself, which is not modelled). *)
Definition criar_tk (atraso : nat) (d : nat) (fim : option (ustr * level)) (s : tk) : tk :=
  let s1 := ocupado d (_toast_after atraso iniciando LInfo (limpar_cartaz s)) in
  match fim with
  | Some (msg, l) => _toast_after atraso msg l s1
  | None => s1
  end.

(** The delay of [self.after] in the [_toast] of each window: 3500 in
    the Mes and Docket windows, 4000 in the UI window. *)
Definition atraso_of (w : window) : nat :=
  match w with WUi => ATRASO_UI | WMes | WDocket => ATRASO_MES end.

(** The level [_criar] passes with the toast of each verdict. *)
Definition nivel_final (v : veredito) : level :=
  match v with ComErros => LError | ComAvisos => LWarn | Sucesso => LOk end.

(** Tk at the start of the window, and the Mes window of the sample tree
    with the month "02. FEVEREIRO" chosen. *)
Definition tk0 : tk := mkTk 0 [] ([], CMuted).

Definition ex_s0 : fs * janela := fst (editar (CMes (u "02. FEVEREIRO")) (ex_lic, ex_j0 variante_mes)).

(** ** Lemmas *)

Lemma filter_nil_Forall {A} (P : A -> Prop) `{!forall x, Decision (P x)} (l : list A) :
  filter P l = [] <-> Forall (fun x => ~ P x) l.
Proof.
  induction l as [|x l IH]; [split; by constructor|].
  rewrite filter_cons, Forall_cons, <- IH. case_decide; split; intros H'; [done|tauto|done|tauto].
Qed.

Lemma vencidos_nil t l : filter (fun x => x <= t) l = [] <-> Forall (fun x => t < x) l.
Proof. rewrite filter_nil_Forall. apply Forall_iff. intros; lia. Qed.

(** Running the callbacks of [l]: the label is reverted when [l] is not
    empty; the clock and the pending callbacks stay. *)
Lemma fold_reverter (l : list nat) s :
  fold_left (fun s' _ => reverter s') l s =
    if bool_decide (l = []) then s else mkTk (agora s) (pendentes s) ([], CMuted).
Proof.
  revert s. induction l as [|x l IH]; intros s; [done|]. simpl. rewrite IH.
  case_bool_decide; [subst; done|done].
Qed.

Lemma ocioso_cartaz t s :
  cartaz (ocioso_ate t s) =
    if bool_decide (Forall (fun x => t < x) (pendentes s)) then cartaz s else ([], CMuted).
Proof.
  unfold ocioso_ate. rewrite fold_reverter, <- (bool_decide_ext _ _ (vencidos_nil t (pendentes s))).
  by case_bool_decide.
Qed.

Lemma ocioso_pendentes t s : pendentes (ocioso_ate t s) = filter (fun x => ~ x <= t) (pendentes s).
Proof. unfold ocioso_ate. rewrite fold_reverter. by case_bool_decide. Qed.

Lemma le_foldr_max a l : a <= foldr max a l /\ Forall (fun x => x <= foldr max a l) l.
Proof.
  induction l as [|x l [Ha Hl]]; simpl; [split; [lia|constructor]|].
  split; [lia|constructor; [lia|]]. eapply Forall_impl; [exact Hl|simpl; lia].
Qed.

(** ** Properties *)

(** The toast of the verdict of [_criar] is reverted by the timer of
    the start toast, not by its own: with the run started at [agora s] and
    lasting [d] milliseconds, the idle loop at any later time [t] shows
    the verdict exactly when [t] is before [agora s + atraso] (and before
    the deadlines pending from earlier toasts), whatever [d] is.  A batch
    that lasts [atraso] (3.5 s) or more shows no verdict at all once the
    loop runs, and a shorter one shows it for [atraso - d] milliseconds
    instead of [atraso]. *)
Lemma criar_veredito_visivel atraso d msg l s t :
  cartaz (ocioso_ate t (criar_tk atraso d (Some (msg, l)) s)) =
    if bool_decide (Forall (fun x => t < x) (pendentes s) /\ t < agora s + atraso)
    then (msg, color_of l) else ([], CMuted).
Proof.
  rewrite ocioso_cartaz. unfold criar_tk; simpl.
  case_bool_decide as H1; case_bool_decide as H2; try done; exfalso.
  - rewrite !Forall_app, !Forall_cons in H1. apply H2. split; [tauto|lia].
  - apply H1. destruct H2 as [Hp Ha]. rewrite !Forall_app, !Forall_cons. repeat split; auto; lia.
Qed.

(** C35: every toast is eventually reverted: after [_toast], the loop left
    idle long enough has run every pending callback and shows an empty
    label in the muted colour, and stays so. *)
Theorem toast_revertido atraso msg l s :
  exists T, forall t, T <= t ->
    cartaz (ocioso_ate t (_toast_after atraso msg l s)) = ([], CMuted) /\
    pendentes (ocioso_ate t (_toast_after atraso msg l s)) = [].
Proof.
  set (s' := _toast_after atraso msg l s).
  destruct (le_foldr_max 0 (pendentes s')) as [_ Hl].
  exists (foldr max 0 (pendentes s')). intros t Ht. rewrite ocioso_cartaz, ocioso_pendentes.
  assert (Hnil : filter (fun x => ~ x <= t) (pendentes s') = []).
  { apply filter_nil_Forall. eapply Forall_impl; [exact Hl|]. intros x Hx Hn. apply Hn. unfold s' in *. simpl in *. lia. }
  rewrite Hnil. split; [|done]. case_bool_decide as Hf; [|done].
  exfalso. subst s'. simpl in *. apply Forall_app in Hf as [_ Hf]. apply Forall_app in Hl as [_ Hl].
  inversion Hf; inversion Hl; subst. lia.
Qed.

Lemma aviso_final_cor onde v : (aviso_final onde v).2 = color_of (nivel_final v).
Proof. by destruct v. Qed.

(** A run of [_criar] that returns without an error box has concluded:
    its toast is the verdict of the events its log box holds. *)
Lemma criar_concluido v cwd app_dir f j f' j' r :
  v = variante_mes \/ v = variante_ui \/ v = variante_docket ->
  handler v cwd app_dir ECriar (f, j) = ((f', j'), r) -> r = Ok tt -> dialogs j' = dialogs j ->
  exists evs, view (con j') = view_log evs /\
    (toast (con j'), toast_color (con j')) = aviso_final (v_onde v) (classify (batch_of evs)).
Proof.
  intros Hv Hrun Hr Hd.
  pose proof (criar_pipeline_triple (dialogs j) cwd app_dir (v_janela v) (v_onde v) (v_dlg_licitacao v)
                (v_subpastas v) (subpastas_curso _ v Hv) (f, j) eq_refl) as Ht.
  simpl in Hrun. rewrite Hrun in Ht. subst r. simpl in Ht.
  destruct Ht as [(evs & msg & _ & _ & Hd')|(evs & Hv' & Ht & _ & _)]; [|by exists evs].
  exfalso. cbn in Hd'. rewrite Hd in Hd'. apply (f_equal length) in Hd'. rewrite length_app in Hd'. simpl in Hd'. lia.
Qed.

(** ** The verdict of a real run under the timers *)

(** C34: in each of the three windows, a click on "Criar" that returns
    without an error box shows the verdict [classify] gives for the events
    of its log box, and under Tk's timers that verdict is still shown when
    the loop runs again at time [t] exactly when [t] is before the start
    of the run plus the window's delay (3.5 s, 4 s in the UI window) and
    before the deadlines of earlier toasts, whatever the run's duration
    [d]: the timer of the start toast reverts it, so a batch of the delay
    or longer never shows its verdict. *)
Theorem criar_aviso_temporizado v cwd app_dir f j f' j' r d s t :
  v = variante_mes \/ v = variante_ui \/ v = variante_docket ->
  handler v cwd app_dir ECriar (f, j) = ((f', j'), r) -> r = Ok tt -> dialogs j' = dialogs j ->
  exists evs, view (con j') = view_log evs /\
    let ver := classify (batch_of evs) in
    (toast (con j'), toast_color (con j')) = aviso_final (v_onde v) ver /\
    cartaz (ocioso_ate t (criar_tk (atraso_of (v_janela v)) d
                            (Some ((aviso_final (v_onde v) ver).1, nivel_final ver)) s)) =
      if bool_decide (Forall (fun x => t < x) (pendentes s) /\ t < agora s + atraso_of (v_janela v))
      then aviso_final (v_onde v) ver else ([], CMuted).
Proof.
  intros Hv Hrun Hr Hd. destruct (criar_concluido v cwd app_dir f j f' j' r Hv Hrun Hr Hd) as (evs & Hview & Ht).
  exists evs. split; [done|]. cbv zeta. split; [done|].
  rewrite criar_veredito_visivel, <- (aviso_final_cor (v_onde v)). by destruct (aviso_final _ _).
Qed.

Lemma criar_aviso_temporizado_witness :
  let res := handler variante_mes ex_app ex_app ECriar (ex_s0.1, ex_s0.2) in
  (variante_mes = variante_mes \/ variante_mes = variante_ui \/ variante_mes = variante_docket) /\
  res = ((res.1.1, res.1.2), res.2) /\ res.2 = Ok tt /\ dialogs res.1.2 = dialogs ex_s0.2 /\
  exists evs, view (con res.1.2) = view_log evs /\
    let ver := classify (batch_of evs) in
    (toast (con res.1.2), toast_color (con res.1.2)) = aviso_final (v_onde variante_mes) ver /\
    cartaz (ocioso_ate 5000 (criar_tk (atraso_of (v_janela variante_mes)) 5000
                            (Some ((aviso_final (v_onde variante_mes) ver).1, nivel_final ver)) tk0)) =
      if bool_decide (Forall (fun x => 5000 < x) (pendentes tk0) /\ 5000 < agora tk0 + atraso_of (v_janela variante_mes))
      then aviso_final (v_onde variante_mes) ver else ([], CMuted).
Proof.
  cbv zeta.
  assert (Hres : handler variante_mes ex_app ex_app ECriar (ex_s0.1, ex_s0.2) =
    (((handler variante_mes ex_app ex_app ECriar (ex_s0.1, ex_s0.2)).1.1,
      (handler variante_mes ex_app ex_app ECriar (ex_s0.1, ex_s0.2)).1.2),
      (handler variante_mes ex_app ex_app ECriar (ex_s0.1, ex_s0.2)).2)) by (vm_compute; reflexivity).
  assert (Hr : (handler variante_mes ex_app ex_app ECriar (ex_s0.1, ex_s0.2)).2 = Ok tt) by (vm_compute; reflexivity).
  assert (Hd : dialogs (handler variante_mes ex_app ex_app ECriar (ex_s0.1, ex_s0.2)).1.2 = dialogs ex_s0.2)
    by (vm_compute; reflexivity).
  split; [left; reflexivity|split; [exact Hres|split; [exact Hr|split; [exact Hd|]]]].
  exact (criar_aviso_temporizado variante_mes ex_app ex_app ex_s0.1 ex_s0.2 _ _ _ 5000 tk0 5000
           (or_introl eq_refl) Hres Hr Hd).
Defined.

(** A window left idle since its start, and the verdict "Licitacao
    criada com sucesso!": after a run of five seconds it is gone as soon
    as the loop runs; after a run of one second it is gone at 3.5 s, two
    and a half seconds after it appeared. *)

Example criar_toast_exemplo :
  let fim := Some ((aviso_final (u "console") Sucesso).1, LOk) in
  cartaz (ocioso_ate 5000 (criar_tk ATRASO_MES 5000 fim tk0)) = ([], CMuted) /\
  cartaz (ocioso_ate 3499 (criar_tk ATRASO_MES 1000 fim tk0)) = (aviso_final (u "console") Sucesso) /\
  cartaz (ocioso_ate 3500 (criar_tk ATRASO_MES 1000 fim tk0)) = ([], CMuted).
Proof. vm_compute. repeat split. Qed.

End ToastTimer.
