(* ===== verification/Destino.v ===== *)
(** * Destino: the folder that "Abrir destino" hands to the file manager

    [_criar] records the bid folder in [self.destino_criado] at its end
    ([concluir]), and [_abrir_destino] (lines 466-477 of
    [src/LicitagovLicitacaoMesApp.py]) hands it to [os.startfile] or to
    [xdg-open].  This file proves that, in a session of any of the three
    windows (its handlers run in order, nothing else touching the disk),
    the recorded folder is always a directory: [_criar] records it only
    after [mkdir(parents=True, exist_ok=True)] of that folder returned, and
    no handler removes a directory.  [_abrir_destino] therefore opens a
    directory, or shows its information box when nothing was created, or
    its error box when the file manager cannot be started. *)

From Stdlib Require Import Strings.String.
From stdpp Require Import base list.
From S2P Require Import Prelude Normalize Fs Resolver Copier Domain Console App.
Import FileSystem PathResolver ResilientCopier Dominio LogConsole Janela MesApp UiApp DocketApp JanelaProps.

Local Open Scope py_scope.

Module Destino.

(** ** The invariant *)

(** The folder recorded in [destino_criado], if any, is a directory. *)
Definition destino_ok (s : fs * janela) : Prop :=
  forall d, destino_criado s.2 = Some d -> is_dir s.1 d = true.

(** The same, with the paths of [X] directories as well (the folders a
    run of [_criar] has created so far). *)
Definition pastas (X : list path) (s : fs * janela) : Prop :=
  destino_ok s /\ Forall (fun x => is_dir s.1 x = true) X.

(** The events of a session, handled in order. *)
Fixpoint rodar (v : variante) (cwd app_dir : path) (es : list evento) (s : fs * janela) : fs * janela :=
  match es with
  | [] => s
  | e :: es => rodar v cwd app_dir es (fst (handler v cwd app_dir e s))
  end.

(** ** Steps that keep every directory and the recorded folder *)

Lemma keeps_is_dir f f' x : keeps f f' -> is_dir f x = true -> is_dir f' x = true.
Proof.
  intros [Hd _]. unfold is_dir. destruct (lookup_node f x) as [[|]|] eqn:E; try done.
  by rewrite (Hd _ E).
Qed.

Lemma pastas_intro {A} (m : GM A) X :
  advances (fst_rel keeps) m -> (forall x, preserves (on_snd (fun j => destino_criado j = x)) m) ->
  preserves (pastas X) m.
Proof.
  intros Ha Hd [f j] [HD HX]. specialize (Ha (f, j)). specialize (Hd (destino_criado j) (f, j) eq_refl).
  destruct (m (f, j)) as [[f' j'] r]. unfold fst_rel, on_snd in *. simpl in *. split.
  - intros d E. simpl in E. rewrite Hd in E. eapply keeps_is_dir; [exact Ha|by apply HD].
  - eapply Forall_impl; [exact HX|]. intros x. by apply keeps_is_dir.
Qed.

Lemma pastas_weaken X s : pastas X s -> pastas [] s.
Proof. by intros [HD _]. Qed.

Section Steps.
Variable X : list path.

Lemma on_fs_pastas {A} (m : st oserr fs A) : advances keeps m -> preserves (pastas X) (on_fs m).
Proof. intros Hm. apply pastas_intro; [by apply on_fs_advances|intros; apply on_fs_snd]. Qed.

Lemma read_pastas {A} (g : fs -> A) : preserves (pastas X) (read g).
Proof. apply pastas_intro; [apply read_advances; typeclasses eauto|intros; apply read_snd]. Qed.

Lemma query_pastas {A} (g : fs -> outcome oserr A) : preserves (pastas X) (query g).
Proof. apply pastas_intro; [apply query_advances; typeclasses eauto|intros; apply query_snd]. Qed.

Lemma gets_pastas {A} (g : janela -> A) : preserves (pastas X) (gets g).
Proof. apply pastas_intro; [by intros [f j]|intros; apply gets_snd]. Qed.

Lemma modify_pastas (h : janela -> janela) :
  (forall j, destino_criado (h j) = destino_criado j) -> preserves (pastas X) (modify h).
Proof.
  intros Hh. apply pastas_intro; [by intros [f j]|]. intros x. apply modify_snd. intros j <-. apply Hh.
Qed.

Lemma run_logged_pastas {E A} (sk : E -> janela -> janela) (m : st oserr (fs * list E) A) :
  advances (fst_rel keeps) m -> (forall e j, destino_criado (sk e j) = destino_criado j) ->
  preserves (pastas X) (run_logged sk m).
Proof.
  intros Hm Hs. apply pastas_intro.
  - intros [f j]. unfold run_logged. specialize (Hm (f, [])). destruct (m (f, [])) as [[f' evs] r]. exact Hm.
  - intros x. apply run_logged_snd. intros e j <-. apply Hs.
Qed.

End Steps.

Ltac janela_field := intros; repeat (case_match || case_decide); reflexivity.

#[local] Hint Resolve read_pastas query_pastas gets_pastas : licita.
#[local] Hint Extern 1 (preserves (pastas _) (on_fs _)) => apply on_fs_pastas; mono : licita.
#[local] Hint Extern 1 (preserves (pastas _) (modify _)) => apply modify_pastas; janela_field : licita.
#[local] Hint Extern 1 (preserves (pastas _) (run_logged _ _)) =>
  apply run_logged_pastas; [apply copiar_padrao_keeps || apply anexar_keeps|janela_field] : licita.

Lemma resolver_pasta_mes_keeps b m : advances keeps (resolver_pasta_mes b m).
Proof.
  intros f. unfold resolver_pasta_mes, bind. cbn -[mkdir_p iterdir].
  destruct (iterdir f b) as [cs|e]; simpl; [|reflexivity].
  case_match; simpl; [reflexivity|]. pose proof (mkdir_p_keeps (join b m) f).
  destruct (mkdir_p _ f) as [f' [[]|e]]; done.
Qed.

Lemma on_form_pastas X h : preserves (pastas X) (on_form h).
Proof. by apply modify_pastas. Qed.

#[local] Hint Resolve resolver_pasta_mes_keeps on_form_pastas : licita.

Section Pipeline.
Variables (cwd app_dir : path) (w : window).

Lemma etapa_pastas X m falha dlg : preserves (pastas X) m -> preserves (pastas X) (etapa w m falha dlg).
Proof. intros Hm. unfold etapa, jlog, jdialog. mono. Qed.

#[local] Hint Resolve etapa_pastas : licita.

Lemma localizar_modelos_pastas X : preserves (pastas X) (localizar_modelos cwd app_dir w).
Proof. unfold localizar_modelos, on_form, jlog. mono. Qed.

Lemma copiar_selecionadas_pastas X t d : preserves (pastas X) (copiar_selecionadas cwd w t d).
Proof. unfold copiar_selecionadas, jlog. mono. Qed.

Lemma anexar_pastas X d : preserves (pastas X) (anexar cwd w d).
Proof. unfold anexar. mono. Qed.

(** [ok = ...; if not ok: return] over a step that keeps [P]. *)
Lemma pres_bool (P P' : fs * janela -> Prop) (m : GM bool) :
  (forall s, P s -> P' s) -> preserves P m -> triple P m (fun ok => if ok then P else P') (fun _ => P').
Proof.
  intros HP Hm s Hs. specialize (Hm s Hs). destruct (m s) as [s' [[|]|e]]; simpl in *; auto.
Qed.

Lemma pres_bind {A B} (P P' : fs * janela -> Prop) (m : GM A) (k : A -> GM B) Q :
  (forall s, P s -> P' s) -> preserves P m -> (forall a, triple P (k a) Q (fun _ => P')) ->
  triple P (bind m k) Q (fun _ => P').
Proof.
  intros HP Hm Hk. eapply triple_bind; [|exact Hk].
  eapply triple_consequence; [by apply preserves_triple|done|done|]. intros ? ?. apply HP.
Qed.

(** [mkdir(parents=True, exist_ok=True)] that returns leaves a directory. *)
Lemma mkdir_triple dr :
  triple (pastas []) (on_fs (mkdir_p dr)) (fun _ => pastas [dr]) (fun _ => pastas []).
Proof.
  intros [f j] Hs. pose proof (on_fs_pastas [] (mkdir_p dr) (mkdir_p_keeps dr) (f, j) Hs) as H'.
  unfold on_fs in *. destruct (mkdir_p dr f) as [f' [[]|e]] eqn:E; simpl in *; [|done].
  split; [apply H'|]. apply Forall_singleton. by apply mkdir_p_postcondition in E as [? _].
Qed.

(** The step that creates the bid folder: when it answers [true], the
    folder is a directory. *)
Lemma etapa_mkdir_triple dr msg falha dlg :
  triple (pastas []) (etapa w (on_fs (mkdir_p dr) ;; jlog w LOk msg) falha dlg)
    (fun ok => if ok then pastas [dr] else pastas []) (fun _ => pastas []).
Proof.
  unfold etapa. apply (triple_try _ _ _ _ _ (fun _ => pastas [])).
  - eapply triple_bind with (Q' := fun _ => pastas [dr]); [|intros ?; by apply triple_ret].
    eapply triple_bind; [apply mkdir_triple|]. intros ?.
    apply (triple_consequence _ _ (pastas [dr]) _ (fun _ => pastas [dr]) _ (fun _ => pastas [dr]));
      [apply preserves_triple; unfold jlog; mono|done|done|]. intros ? ?. apply pastas_weaken.
  - intros e. do 2 (apply triple_preserves_bind; [unfold jlog, jdialog; mono|intros ?]).
    by apply triple_ret.
Qed.

(** [self.destino_criado = destino_raiz], then the final toast. *)
Lemma concluir_pastas onde dr :
  triple (pastas [dr]) (concluir onde dr) (fun _ => pastas []) (fun _ => pastas []).
Proof.
  unfold concluir. eapply triple_bind with (Q' := fun _ => pastas []).
  - intros [f j] [_ HX]. split; [|constructor]. intros d [= <-]. by inversion HX.
  - intros ?. apply preserves_triple. unfold jtoast. mono.
Qed.

(** A run of [_criar] keeps the invariant, whether it returns or raises. *)
Lemma criar_pipeline_pastas onde dlg sub :
  (forall d, preserves (pastas [d]) (sub d)) ->
  preserves (pastas []) (_criar_pipeline cwd app_dir w onde dlg sub).
Proof.
  intros Hsub s Hs. cut (triple (pastas []) (_criar_pipeline cwd app_dir w onde dlg sub)
                             (fun _ => pastas []) (fun _ => pastas [])).
  { intros Ht. specialize (Ht s Hs). by destruct (_criar_pipeline _ _ _ _ _ _ s) as [s' [?|?]]. }
  unfold _criar_pipeline.
  do 2 (apply triple_preserves_bind; [mono|intros ?]).
  apply triple_finally with (Qm := fun _ => pastas []) (Rm := fun _ => pastas []);
    [|intros ?; apply preserves_triple; mono..].
  apply triple_preserves_bind; [mono|intros mes].
  apply triple_preserves_bind; [mono|intros pasta_mes].
  apply triple_preserves_bind; [mono|intros ex].
  apply triple_seq_bool with (P1 := pastas []); [apply pres_bool; [done|unfold etapa, jlog, jdialog; mono]|].
  apply triple_preserves_bind; [mono|intros nome].
  apply triple_seq_bool with (P1 := pastas [barra pasta_mes nome]); [apply etapa_mkdir_triple|].
  apply triple_seq_bool with (P1 := pastas [barra pasta_mes nome]); [apply pres_bool; [apply pastas_weaken|by apply etapa_pastas]|].
  apply pres_bind; [apply pastas_weaken|apply localizar_modelos_pastas|intros tpl].
  apply triple_seq_bool with (P1 := pastas [barra pasta_mes nome]);
    [apply pres_bool; [apply pastas_weaken|destruct tpl; [apply copiar_selecionadas_pastas|mono]]|].
  apply triple_seq_bool with (P1 := pastas [barra pasta_mes nome]);
    [apply pres_bool; [apply pastas_weaken|apply anexar_pastas]|].
  apply concluir_pastas.
Qed.

End Pipeline.

Lemma criar_estrutura_keeps d : advances keeps (criar_estrutura_licitacao d).
Proof. unfold criar_estrutura_licitacao. mono. Qed.

#[local] Hint Resolve criar_estrutura_keeps : licita.

Lemma subpastas_pastas v : v = variante_mes \/ v = variante_ui \/ v = variante_docket ->
  forall d X, preserves (pastas X) (v_subpastas v d).
Proof. intros [H|[H|H]] d X; subst v; simpl; [mono|mono|unfold criar_subpastas_marcadas; mono]. Qed.

(** Every handler of the three windows keeps the recorded folder a
    directory. *)
Lemma handler_pastas v cwd app_dir e : v = variante_mes \/ v = variante_ui \/ v = variante_docket ->
  preserves (pastas []) (handler v cwd app_dir e).
Proof.
  intros Hv. destruct e; simpl;
    unfold editar, _update_preview, on_form, _escolher_modelos, _detectar_template, jtoast,
      _add_anexos, _limpar_anexos, _abrir_destino, jdialog; try mono.
  apply criar_pipeline_pastas. intros d. by apply subpastas_pastas.
Qed.

Lemma rodar_pastas v cwd app_dir es s : v = variante_mes \/ v = variante_ui \/ v = variante_docket ->
  pastas [] s -> pastas [] (rodar v cwd app_dir es s).
Proof.
  intros Hv. revert s. induction es as [|e es IH]; intros s Hs; [done|].
  apply IH. by apply handler_pastas.
Qed.

Lemma janela_init_destino v cwd app_dir f j : janela_init v cwd app_dir f = Ok j -> destino_criado j = None.
Proof.
  unfold janela_init. destruct (detectar_pasta_modelos _ _) as [m|]; [|done].
  destruct (match m with Some _ => _ | None => _ end) as [t|]; [|done]. by intros [= <-].
Qed.

(** ** Properties *)

(** C33: in a session of any of the three windows (the handlers of its
    events run in order from [__init__], nothing else touching the disk),
    the folder recorded by [_criar] is always a directory, and
    "Abrir destino" then shows the information box "Crie uma licitacao
    primeiro." when nothing was created, hands that directory to the file
    manager when it starts, and shows the error box "Nao foi possivel
    abrir a pasta" with the exception when it cannot be started; it never
    raises and changes nothing else. *)
Theorem sessao_abrir_destino v cwd app_dir f j es falha :
  v = variante_mes \/ v = variante_ui \/ v = variante_docket ->
  janela_init v cwd app_dir f = Ok j ->
  let s := rodar v cwd app_dir es (f, j) in
  destino_ok s /\
  handler v cwd app_dir (EAbrirDestino falha) s =
    ((s.1, match destino_criado s.2, falha with
           | None, _ => add_dialog (ShowInfo (u "Info") (tx "Crie uma licitação primeiro.")) s.2
           | Some d, None => add_aberto (show_path d) s.2
           | Some d, Some e =>
               add_dialog (ShowError (u "Erro") (tx "Não foi possível abrir a pasta:" ++ nl ++ show_err e)) s.2
           end), Ok tt).
Proof.
  intros Hv Hi. simpl. split.
  - apply (rodar_pastas v cwd app_dir es (f, j) Hv). split; [|constructor].
    intros d. simpl. by rewrite (janela_init_destino _ _ _ _ _ Hi).
  - destruct (rodar v cwd app_dir es (f, j)) as [f' j']. simpl.
    unfold _abrir_destino, bind, gets. simpl. by destruct (destino_criado j'), falha.
Qed.

Lemma sessao_abrir_destino_witness :
  let es := [EEditar (CMes (u "02. FEVEREIRO")); ECriar] in
  (variante_mes = variante_mes \/ variante_mes = variante_ui \/ variante_mes = variante_docket) /\
  janela_init variante_mes ex_app ex_app ex_lic = Ok (ex_j0 variante_mes) /\
  let s := rodar variante_mes ex_app ex_app es (ex_lic, ex_j0 variante_mes) in
  destino_ok s /\
  handler variante_mes ex_app ex_app (EAbrirDestino None) s =
    ((s.1, match destino_criado s.2, @None oserr with
           | None, _ => add_dialog (ShowInfo (u "Info") (tx "Crie uma licitação primeiro.")) s.2
           | Some d, None => add_aberto (show_path d) s.2
           | Some d, Some e =>
               add_dialog (ShowError (u "Erro") (tx "Não foi possível abrir a pasta:" ++ nl ++ show_err e)) s.2
           end), Ok tt).
Proof.
  assert (Hi : janela_init variante_mes ex_app ex_app ex_lic = Ok (ex_j0 variante_mes))
    by (vm_compute; reflexivity).
  split; [left; reflexivity|split; [exact Hi|]].
  exact (sessao_abrir_destino variante_mes ex_app ex_app ex_lic (ex_j0 variante_mes) _ None
           (or_introl eq_refl) Hi).
Defined.

End Destino.
